(** * backend/app.py: alert analysis and notification pipeline

    A shallow embedding of the Flask backend in [backend/app.py]: the phone
    normaliser [clean_and_e164], the keyword classifier [analyze_message],
    the three in-memory stores [USERS_DB], [ALERTS_DB], [FAMILY_LOG_DB] and
    the routes that read and write them.

    Conventions of the embedding.
    - A Python [str] is held as the [string] of its UTF-8 bytes, and the
      [str] methods the code calls work on its characters: [len] counts
      code points, [isdigit], [strip] and [lower] follow the Unicode
      tables of a CPython 3.11 runtime (Unicode 14.0), the context rule
      for the capital sigma included.  A byte string that is the encoding of no
      [str] is outside the input of the program; the functions are total
      on it all the same.
    - JSON values that leave the core (alerts, delivery log entries, gateway
      results) are [value]s; a [dict] literal is the association list of
      its items in the order the source writes them.
    - The module-level stores are one [state] record threaded through a
      small state monad; [uuid.uuid4], the clock and the Twilio API are
      oracles indexed by the number of calls made so far.
    - A route takes the fields of the decoded request.  A field the route
      calls a string method on without a guard is a string, or [None] when
      the key is absent or null; [message], which [analyze_message] guards
      with [try]/[except], is any [value]; [phones], which the route tests
      with [isinstance], is a list or not.  A route returns what it hands
      to [jsonify].  Lines written with [print] are left out. *)

From Stdlib Require Import String Ascii List ZArith NArith Bool Lia.
From stdpp Require Import base gmap sets list strings.

(** ** The Unicode tables of [str] *)

Module Unicode.

(** The code points [str.isdigit] accepts (Numeric_Type Digit or Decimal,
    Unicode 14.0), as inclusive ranges. *)
Definition digit_ranges : list (N * N) :=
  [(48, 57); (178, 179); (185, 185); (1632, 1641); (1776, 1785); (1984, 1993);
   (2406, 2415); (2534, 2543); (2662, 2671); (2790, 2799); (2918, 2927);
   (3046, 3055); (3174, 3183); (3302, 3311); (3430, 3439); (3558, 3567);
   (3664, 3673); (3792, 3801); (3872, 3881); (4160, 4169); (4240, 4249);
   (4969, 4977); (6112, 6121); (6160, 6169); (6470, 6479); (6608, 6618);
   (6784, 6793); (6800, 6809); (6992, 7001); (7088, 7097); (7232, 7241);
   (7248, 7257); (8304, 8304); (8308, 8313); (8320, 8329); (9312, 9320);
   (9332, 9340); (9352, 9360); (9450, 9450); (9461, 9469); (9471, 9471);
   (10102, 10110); (10112, 10120); (10122, 10130); (42528, 42537);
   (43216, 43225); (43264, 43273); (43472, 43481); (43504, 43513);
   (43600, 43609); (44016, 44025); (65296, 65305); (66720, 66729);
   (68160, 68163); (68912, 68921); (69216, 69224); (69714, 69722);
   (69734, 69743); (69872, 69881); (69942, 69951); (70096, 70105);
   (70384, 70393); (70736, 70745); (70864, 70873); (71248, 71257);
   (71360, 71369); (71472, 71481); (71904, 71913); (72016, 72025);
   (72784, 72793); (73040, 73049); (73120, 73129); (92768, 92777);
   (92864, 92873); (93008, 93017); (120782, 120831); (123200, 123209);
   (123632, 123641); (125264, 125273); (127232, 127242); (130032, 130041)]%N.

(** The code points [str.isspace] accepts, as inclusive ranges. *)
Definition space_ranges : list (N * N) :=
  [(9, 13); (28, 32); (133, 133); (160, 160); (5760, 5760); (8192, 8202);
   (8232, 8233); (8239, 8239); (8287, 8287); (12288, 12288)]%N.

(** The case-ignorable code points, which the search for the context of
    a capital sigma skips, as inclusive ranges. *)
Definition case_ignorable_ranges : list (N * N) :=
  [(39, 39); (46, 46); (58, 58); (94, 94); (96, 96); (168, 168); (173, 173);
   (175, 175); (180, 180); (183, 184); (688, 879); (884, 885); (890, 890);
   (900, 901); (903, 903); (1155, 1161); (1369, 1369); (1375, 1375);
   (1425, 1469); (1471, 1471); (1473, 1474); (1476, 1477); (1479, 1479);
   (1524, 1524); (1536, 1541); (1552, 1562); (1564, 1564); (1600, 1600);
   (1611, 1631); (1648, 1648); (1750, 1757); (1759, 1768); (1770, 1773);
   (1807, 1807); (1809, 1809); (1840, 1866); (1958, 1968); (2027, 2037);
   (2042, 2042); (2045, 2045); (2070, 2093); (2137, 2139); (2184, 2184);
   (2192, 2193); (2200, 2207); (2249, 2306); (2362, 2362); (2364, 2364);
   (2369, 2376); (2381, 2381); (2385, 2391); (2402, 2403); (2417, 2417);
   (2433, 2433); (2492, 2492); (2497, 2500); (2509, 2509); (2530, 2531);
   (2558, 2558); (2561, 2562); (2620, 2620); (2625, 2626); (2631, 2632);
   (2635, 2637); (2641, 2641); (2672, 2673); (2677, 2677); (2689, 2690);
   (2748, 2748); (2753, 2757); (2759, 2760); (2765, 2765); (2786, 2787);
   (2810, 2815); (2817, 2817); (2876, 2876); (2879, 2879); (2881, 2884);
   (2893, 2893); (2901, 2902); (2914, 2915); (2946, 2946); (3008, 3008);
   (3021, 3021); (3072, 3072); (3076, 3076); (3132, 3132); (3134, 3136);
   (3142, 3144); (3146, 3149); (3157, 3158); (3170, 3171); (3201, 3201);
   (3260, 3260); (3263, 3263); (3270, 3270); (3276, 3277); (3298, 3299);
   (3328, 3329); (3387, 3388); (3393, 3396); (3405, 3405); (3426, 3427);
   (3457, 3457); (3530, 3530); (3538, 3540); (3542, 3542); (3633, 3633);
   (3636, 3642); (3654, 3662); (3761, 3761); (3764, 3772); (3782, 3782);
   (3784, 3789); (3864, 3865); (3893, 3893); (3895, 3895); (3897, 3897);
   (3953, 3966); (3968, 3972); (3974, 3975); (3981, 3991); (3993, 4028);
   (4038, 4038); (4141, 4144); (4146, 4151); (4153, 4154); (4157, 4158);
   (4184, 4185); (4190, 4192); (4209, 4212); (4226, 4226); (4229, 4230);
   (4237, 4237); (4253, 4253); (4348, 4348); (4957, 4959); (5906, 5908);
   (5938, 5939); (5970, 5971); (6002, 6003); (6068, 6069); (6071, 6077);
   (6086, 6086); (6089, 6099); (6103, 6103); (6109, 6109); (6155, 6159);
   (6211, 6211); (6277, 6278); (6313, 6313); (6432, 6434); (6439, 6440);
   (6450, 6450); (6457, 6459); (6679, 6680); (6683, 6683); (6742, 6742);
   (6744, 6750); (6752, 6752); (6754, 6754); (6757, 6764); (6771, 6780);
   (6783, 6783); (6823, 6823); (6832, 6862); (6912, 6915); (6964, 6964);
   (6966, 6970); (6972, 6972); (6978, 6978); (7019, 7027); (7040, 7041);
   (7074, 7077); (7080, 7081); (7083, 7085); (7142, 7142); (7144, 7145);
   (7149, 7149); (7151, 7153); (7212, 7219); (7222, 7223); (7288, 7293);
   (7376, 7378); (7380, 7392); (7394, 7400); (7405, 7405); (7412, 7412);
   (7416, 7417); (7468, 7530); (7544, 7544); (7579, 7679); (8125, 8125);
   (8127, 8129); (8141, 8143); (8157, 8159); (8173, 8175); (8189, 8190);
   (8203, 8207); (8216, 8217); (8228, 8228); (8231, 8231); (8234, 8238);
   (8288, 8292); (8294, 8303); (8305, 8305); (8319, 8319); (8336, 8348);
   (8400, 8432); (11388, 11389); (11503, 11505); (11631, 11631);
   (11647, 11647); (11744, 11775); (11823, 11823); (12293, 12293);
   (12330, 12333); (12337, 12341); (12347, 12347); (12441, 12446);
   (12540, 12542); (40981, 40981); (42232, 42237); (42508, 42508);
   (42607, 42610); (42612, 42621); (42623, 42623); (42652, 42655);
   (42736, 42737); (42752, 42785); (42864, 42864); (42888, 42890);
   (42994, 42996); (43000, 43001); (43010, 43010); (43014, 43014);
   (43019, 43019); (43045, 43046); (43052, 43052); (43204, 43205);
   (43232, 43249); (43263, 43263); (43302, 43309); (43335, 43345);
   (43392, 43394); (43443, 43443); (43446, 43449); (43452, 43453);
   (43471, 43471); (43493, 43494); (43561, 43566); (43569, 43570);
   (43573, 43574); (43587, 43587); (43596, 43596); (43632, 43632);
   (43644, 43644); (43696, 43696); (43698, 43700); (43703, 43704);
   (43710, 43711); (43713, 43713); (43741, 43741); (43756, 43757);
   (43763, 43764); (43766, 43766); (43867, 43871); (43881, 43883);
   (44005, 44005); (44008, 44008); (44013, 44013); (64286, 64286);
   (64434, 64450); (65024, 65039); (65043, 65043); (65056, 65071);
   (65106, 65106); (65109, 65109); (65279, 65279); (65287, 65287);
   (65294, 65294); (65306, 65306); (65342, 65342); (65344, 65344);
   (65392, 65392); (65438, 65439); (65507, 65507); (65529, 65531);
   (66045, 66045); (66272, 66272); (66422, 66426); (67456, 67461);
   (67463, 67504); (67506, 67514); (68097, 68099); (68101, 68102);
   (68108, 68111); (68152, 68154); (68159, 68159); (68325, 68326);
   (68900, 68903); (69291, 69292); (69446, 69456); (69506, 69509);
   (69633, 69633); (69688, 69702); (69744, 69744); (69747, 69748);
   (69759, 69761); (69811, 69814); (69817, 69818); (69821, 69821);
   (69826, 69826); (69837, 69837); (69888, 69890); (69927, 69931);
   (69933, 69940); (70003, 70003); (70016, 70017); (70070, 70078);
   (70089, 70092); (70095, 70095); (70191, 70193); (70196, 70196);
   (70198, 70199); (70206, 70206); (70367, 70367); (70371, 70378);
   (70400, 70401); (70459, 70460); (70464, 70464); (70502, 70508);
   (70512, 70516); (70712, 70719); (70722, 70724); (70726, 70726);
   (70750, 70750); (70835, 70840); (70842, 70842); (70847, 70848);
   (70850, 70851); (71090, 71093); (71100, 71101); (71103, 71104);
   (71132, 71133); (71219, 71226); (71229, 71229); (71231, 71232);
   (71339, 71339); (71341, 71341); (71344, 71349); (71351, 71351);
   (71453, 71455); (71458, 71461); (71463, 71467); (71727, 71735);
   (71737, 71738); (71995, 71996); (71998, 71998); (72003, 72003);
   (72148, 72151); (72154, 72155); (72160, 72160); (72193, 72202);
   (72243, 72248); (72251, 72254); (72263, 72263); (72273, 72278);
   (72281, 72283); (72330, 72342); (72344, 72345); (72752, 72758);
   (72760, 72765); (72767, 72767); (72850, 72871); (72874, 72880);
   (72882, 72883); (72885, 72886); (73009, 73014); (73018, 73018);
   (73020, 73021); (73023, 73029); (73031, 73031); (73104, 73105);
   (73109, 73109); (73111, 73111); (73459, 73460); (78896, 78904);
   (92912, 92916); (92976, 92982); (92992, 92995); (94031, 94031);
   (94095, 94111); (94176, 94177); (94179, 94180); (110576, 110579);
   (110581, 110587); (110589, 110590); (113821, 113822); (113824, 113827);
   (118528, 118573); (118576, 118598); (119143, 119145); (119155, 119170);
   (119173, 119179); (119210, 119213); (119362, 119364); (121344, 121398);
   (121403, 121452); (121461, 121461); (121476, 121476); (121499, 121503);
   (121505, 121519); (122880, 122886); (122888, 122904); (122907, 122913);
   (122915, 122916); (122918, 122922); (123184, 123197); (123566, 123566);
   (123628, 123631); (125136, 125142); (125252, 125259); (127995, 127999);
   (917505, 917505); (917536, 917631); (917760, 917999)]%N.

(** The cased code points that are not case-ignorable, as inclusive
    ranges. *)
Definition cased_ranges : list (N * N) :=
  [(65, 90); (97, 122); (170, 170); (181, 181); (186, 186); (192, 214);
   (216, 246); (248, 442); (444, 447); (452, 659); (661, 687); (880, 883);
   (886, 887); (891, 893); (895, 895); (902, 902); (904, 906); (908, 908);
   (910, 929); (931, 1013); (1015, 1153); (1162, 1327); (1329, 1366);
   (1376, 1416); (4256, 4293); (4295, 4295); (4301, 4301); (4304, 4346);
   (4349, 4351); (5024, 5109); (5112, 5117); (7296, 7304); (7312, 7354);
   (7357, 7359); (7424, 7467); (7531, 7543); (7545, 7578); (7680, 7957);
   (7960, 7965); (7968, 8005); (8008, 8013); (8016, 8023); (8025, 8025);
   (8027, 8027); (8029, 8029); (8031, 8061); (8064, 8116); (8118, 8124);
   (8126, 8126); (8130, 8132); (8134, 8140); (8144, 8147); (8150, 8155);
   (8160, 8172); (8178, 8180); (8182, 8188); (8450, 8450); (8455, 8455);
   (8458, 8467); (8469, 8469); (8473, 8477); (8484, 8484); (8486, 8486);
   (8488, 8488); (8490, 8493); (8495, 8500); (8505, 8505); (8508, 8511);
   (8517, 8521); (8526, 8526); (8544, 8575); (8579, 8580); (9398, 9449);
   (11264, 11387); (11390, 11492); (11499, 11502); (11506, 11507);
   (11520, 11557); (11559, 11559); (11565, 11565); (42560, 42605);
   (42624, 42651); (42786, 42863); (42865, 42887); (42891, 42894);
   (42896, 42954); (42960, 42961); (42963, 42963); (42965, 42969);
   (42997, 42998); (43002, 43002); (43824, 43866); (43872, 43880);
   (43888, 43967); (64256, 64262); (64275, 64279); (65313, 65338);
   (65345, 65370); (66560, 66639); (66736, 66771); (66776, 66811);
   (66928, 66938); (66940, 66954); (66956, 66962); (66964, 66965);
   (66967, 66977); (66979, 66993); (66995, 67001); (67003, 67004);
   (68736, 68786); (68800, 68850); (71840, 71903); (93760, 93823);
   (119808, 119892); (119894, 119964); (119966, 119967); (119970, 119970);
   (119973, 119974); (119977, 119980); (119982, 119993); (119995, 119995);
   (119997, 120003); (120005, 120069); (120071, 120074); (120077, 120084);
   (120086, 120092); (120094, 120121); (120123, 120126); (120128, 120132);
   (120134, 120134); (120138, 120144); (120146, 120485); (120488, 120512);
   (120514, 120538); (120540, 120570); (120572, 120596); (120598, 120628);
   (120630, 120654); (120656, 120686); (120688, 120712); (120714, 120744);
   (120746, 120770); (120772, 120779); (122624, 122633); (122635, 122654);
   (125184, 125251); (127280, 127305); (127312, 127337); (127344, 127369)]%N.

(** The lower-case mapping of the code points above ASCII that have a
    one-character mapping: each pair is a code point and its lower case.
    U+0130 and U+03A3 are handled apart. *)
Definition lower_pairs : list (N * N) :=
  [(192, 224); (193, 225); (194, 226); (195, 227); (196, 228); (197, 229);
   (198, 230); (199, 231); (200, 232); (201, 233); (202, 234); (203, 235);
   (204, 236); (205, 237); (206, 238); (207, 239); (208, 240); (209, 241);
   (210, 242); (211, 243); (212, 244); (213, 245); (214, 246); (216, 248);
   (217, 249); (218, 250); (219, 251); (220, 252); (221, 253); (222, 254);
   (256, 257); (258, 259); (260, 261); (262, 263); (264, 265); (266, 267);
   (268, 269); (270, 271); (272, 273); (274, 275); (276, 277); (278, 279);
   (280, 281); (282, 283); (284, 285); (286, 287); (288, 289); (290, 291);
   (292, 293); (294, 295); (296, 297); (298, 299); (300, 301); (302, 303);
   (306, 307); (308, 309); (310, 311); (313, 314); (315, 316); (317, 318);
   (319, 320); (321, 322); (323, 324); (325, 326); (327, 328); (330, 331);
   (332, 333); (334, 335); (336, 337); (338, 339); (340, 341); (342, 343);
   (344, 345); (346, 347); (348, 349); (350, 351); (352, 353); (354, 355);
   (356, 357); (358, 359); (360, 361); (362, 363); (364, 365); (366, 367);
   (368, 369); (370, 371); (372, 373); (374, 375); (376, 255); (377, 378);
   (379, 380); (381, 382); (385, 595); (386, 387); (388, 389); (390, 596);
   (391, 392); (393, 598); (394, 599); (395, 396); (398, 477); (399, 601);
   (400, 603); (401, 402); (403, 608); (404, 611); (406, 617); (407, 616);
   (408, 409); (412, 623); (413, 626); (415, 629); (416, 417); (418, 419);
   (420, 421); (422, 640); (423, 424); (425, 643); (428, 429); (430, 648);
   (431, 432); (433, 650); (434, 651); (435, 436); (437, 438); (439, 658);
   (440, 441); (444, 445); (452, 454); (453, 454); (455, 457); (456, 457);
   (458, 460); (459, 460); (461, 462); (463, 464); (465, 466); (467, 468);
   (469, 470); (471, 472); (473, 474); (475, 476); (478, 479); (480, 481);
   (482, 483); (484, 485); (486, 487); (488, 489); (490, 491); (492, 493);
   (494, 495); (497, 499); (498, 499); (500, 501); (502, 405); (503, 447);
   (504, 505); (506, 507); (508, 509); (510, 511); (512, 513); (514, 515);
   (516, 517); (518, 519); (520, 521); (522, 523); (524, 525); (526, 527);
   (528, 529); (530, 531); (532, 533); (534, 535); (536, 537); (538, 539);
   (540, 541); (542, 543); (544, 414); (546, 547); (548, 549); (550, 551);
   (552, 553); (554, 555); (556, 557); (558, 559); (560, 561); (562, 563);
   (570, 11365); (571, 572); (573, 410); (574, 11366); (577, 578); (579, 384);
   (580, 649); (581, 652); (582, 583); (584, 585); (586, 587); (588, 589);
   (590, 591); (880, 881); (882, 883); (886, 887); (895, 1011); (902, 940);
   (904, 941); (905, 942); (906, 943); (908, 972); (910, 973); (911, 974);
   (913, 945); (914, 946); (915, 947); (916, 948); (917, 949); (918, 950);
   (919, 951); (920, 952); (921, 953); (922, 954); (923, 955); (924, 956);
   (925, 957); (926, 958); (927, 959); (928, 960); (929, 961); (932, 964);
   (933, 965); (934, 966); (935, 967); (936, 968); (937, 969); (938, 970);
   (939, 971); (975, 983); (984, 985); (986, 987); (988, 989); (990, 991);
   (992, 993); (994, 995); (996, 997); (998, 999); (1000, 1001); (1002, 1003);
   (1004, 1005); (1006, 1007); (1012, 952); (1015, 1016); (1017, 1010);
   (1018, 1019); (1021, 891); (1022, 892); (1023, 893); (1024, 1104);
   (1025, 1105); (1026, 1106); (1027, 1107); (1028, 1108); (1029, 1109);
   (1030, 1110); (1031, 1111); (1032, 1112); (1033, 1113); (1034, 1114);
   (1035, 1115); (1036, 1116); (1037, 1117); (1038, 1118); (1039, 1119);
   (1040, 1072); (1041, 1073); (1042, 1074); (1043, 1075); (1044, 1076);
   (1045, 1077); (1046, 1078); (1047, 1079); (1048, 1080); (1049, 1081);
   (1050, 1082); (1051, 1083); (1052, 1084); (1053, 1085); (1054, 1086);
   (1055, 1087); (1056, 1088); (1057, 1089); (1058, 1090); (1059, 1091);
   (1060, 1092); (1061, 1093); (1062, 1094); (1063, 1095); (1064, 1096);
   (1065, 1097); (1066, 1098); (1067, 1099); (1068, 1100); (1069, 1101);
   (1070, 1102); (1071, 1103); (1120, 1121); (1122, 1123); (1124, 1125);
   (1126, 1127); (1128, 1129); (1130, 1131); (1132, 1133); (1134, 1135);
   (1136, 1137); (1138, 1139); (1140, 1141); (1142, 1143); (1144, 1145);
   (1146, 1147); (1148, 1149); (1150, 1151); (1152, 1153); (1162, 1163);
   (1164, 1165); (1166, 1167); (1168, 1169); (1170, 1171); (1172, 1173);
   (1174, 1175); (1176, 1177); (1178, 1179); (1180, 1181); (1182, 1183);
   (1184, 1185); (1186, 1187); (1188, 1189); (1190, 1191); (1192, 1193);
   (1194, 1195); (1196, 1197); (1198, 1199); (1200, 1201); (1202, 1203);
   (1204, 1205); (1206, 1207); (1208, 1209); (1210, 1211); (1212, 1213);
   (1214, 1215); (1216, 1231); (1217, 1218); (1219, 1220); (1221, 1222);
   (1223, 1224); (1225, 1226); (1227, 1228); (1229, 1230); (1232, 1233);
   (1234, 1235); (1236, 1237); (1238, 1239); (1240, 1241); (1242, 1243);
   (1244, 1245); (1246, 1247); (1248, 1249); (1250, 1251); (1252, 1253);
   (1254, 1255); (1256, 1257); (1258, 1259); (1260, 1261); (1262, 1263);
   (1264, 1265); (1266, 1267); (1268, 1269); (1270, 1271); (1272, 1273);
   (1274, 1275); (1276, 1277); (1278, 1279); (1280, 1281); (1282, 1283);
   (1284, 1285); (1286, 1287); (1288, 1289); (1290, 1291); (1292, 1293);
   (1294, 1295); (1296, 1297); (1298, 1299); (1300, 1301); (1302, 1303);
   (1304, 1305); (1306, 1307); (1308, 1309); (1310, 1311); (1312, 1313);
   (1314, 1315); (1316, 1317); (1318, 1319); (1320, 1321); (1322, 1323);
   (1324, 1325); (1326, 1327); (1329, 1377); (1330, 1378); (1331, 1379);
   (1332, 1380); (1333, 1381); (1334, 1382); (1335, 1383); (1336, 1384);
   (1337, 1385); (1338, 1386); (1339, 1387); (1340, 1388); (1341, 1389);
   (1342, 1390); (1343, 1391); (1344, 1392); (1345, 1393); (1346, 1394);
   (1347, 1395); (1348, 1396); (1349, 1397); (1350, 1398); (1351, 1399);
   (1352, 1400); (1353, 1401); (1354, 1402); (1355, 1403); (1356, 1404);
   (1357, 1405); (1358, 1406); (1359, 1407); (1360, 1408); (1361, 1409);
   (1362, 1410); (1363, 1411); (1364, 1412); (1365, 1413); (1366, 1414);
   (4256, 11520); (4257, 11521); (4258, 11522); (4259, 11523); (4260, 11524);
   (4261, 11525); (4262, 11526); (4263, 11527); (4264, 11528); (4265, 11529);
   (4266, 11530); (4267, 11531); (4268, 11532); (4269, 11533); (4270, 11534);
   (4271, 11535); (4272, 11536); (4273, 11537); (4274, 11538); (4275, 11539);
   (4276, 11540); (4277, 11541); (4278, 11542); (4279, 11543); (4280, 11544);
   (4281, 11545); (4282, 11546); (4283, 11547); (4284, 11548); (4285, 11549);
   (4286, 11550); (4287, 11551); (4288, 11552); (4289, 11553); (4290, 11554);
   (4291, 11555); (4292, 11556); (4293, 11557); (4295, 11559); (4301, 11565);
   (5024, 43888); (5025, 43889); (5026, 43890); (5027, 43891); (5028, 43892);
   (5029, 43893); (5030, 43894); (5031, 43895); (5032, 43896); (5033, 43897);
   (5034, 43898); (5035, 43899); (5036, 43900); (5037, 43901); (5038, 43902);
   (5039, 43903); (5040, 43904); (5041, 43905); (5042, 43906); (5043, 43907);
   (5044, 43908); (5045, 43909); (5046, 43910); (5047, 43911); (5048, 43912);
   (5049, 43913); (5050, 43914); (5051, 43915); (5052, 43916); (5053, 43917);
   (5054, 43918); (5055, 43919); (5056, 43920); (5057, 43921); (5058, 43922);
   (5059, 43923); (5060, 43924); (5061, 43925); (5062, 43926); (5063, 43927);
   (5064, 43928); (5065, 43929); (5066, 43930); (5067, 43931); (5068, 43932);
   (5069, 43933); (5070, 43934); (5071, 43935); (5072, 43936); (5073, 43937);
   (5074, 43938); (5075, 43939); (5076, 43940); (5077, 43941); (5078, 43942);
   (5079, 43943); (5080, 43944); (5081, 43945); (5082, 43946); (5083, 43947);
   (5084, 43948); (5085, 43949); (5086, 43950); (5087, 43951); (5088, 43952);
   (5089, 43953); (5090, 43954); (5091, 43955); (5092, 43956); (5093, 43957);
   (5094, 43958); (5095, 43959); (5096, 43960); (5097, 43961); (5098, 43962);
   (5099, 43963); (5100, 43964); (5101, 43965); (5102, 43966); (5103, 43967);
   (5104, 5112); (5105, 5113); (5106, 5114); (5107, 5115); (5108, 5116);
   (5109, 5117); (7312, 4304); (7313, 4305); (7314, 4306); (7315, 4307);
   (7316, 4308); (7317, 4309); (7318, 4310); (7319, 4311); (7320, 4312);
   (7321, 4313); (7322, 4314); (7323, 4315); (7324, 4316); (7325, 4317);
   (7326, 4318); (7327, 4319); (7328, 4320); (7329, 4321); (7330, 4322);
   (7331, 4323); (7332, 4324); (7333, 4325); (7334, 4326); (7335, 4327);
   (7336, 4328); (7337, 4329); (7338, 4330); (7339, 4331); (7340, 4332);
   (7341, 4333); (7342, 4334); (7343, 4335); (7344, 4336); (7345, 4337);
   (7346, 4338); (7347, 4339); (7348, 4340); (7349, 4341); (7350, 4342);
   (7351, 4343); (7352, 4344); (7353, 4345); (7354, 4346); (7357, 4349);
   (7358, 4350); (7359, 4351); (7680, 7681); (7682, 7683); (7684, 7685);
   (7686, 7687); (7688, 7689); (7690, 7691); (7692, 7693); (7694, 7695);
   (7696, 7697); (7698, 7699); (7700, 7701); (7702, 7703); (7704, 7705);
   (7706, 7707); (7708, 7709); (7710, 7711); (7712, 7713); (7714, 7715);
   (7716, 7717); (7718, 7719); (7720, 7721); (7722, 7723); (7724, 7725);
   (7726, 7727); (7728, 7729); (7730, 7731); (7732, 7733); (7734, 7735);
   (7736, 7737); (7738, 7739); (7740, 7741); (7742, 7743); (7744, 7745);
   (7746, 7747); (7748, 7749); (7750, 7751); (7752, 7753); (7754, 7755);
   (7756, 7757); (7758, 7759); (7760, 7761); (7762, 7763); (7764, 7765);
   (7766, 7767); (7768, 7769); (7770, 7771); (7772, 7773); (7774, 7775);
   (7776, 7777); (7778, 7779); (7780, 7781); (7782, 7783); (7784, 7785);
   (7786, 7787); (7788, 7789); (7790, 7791); (7792, 7793); (7794, 7795);
   (7796, 7797); (7798, 7799); (7800, 7801); (7802, 7803); (7804, 7805);
   (7806, 7807); (7808, 7809); (7810, 7811); (7812, 7813); (7814, 7815);
   (7816, 7817); (7818, 7819); (7820, 7821); (7822, 7823); (7824, 7825);
   (7826, 7827); (7828, 7829); (7838, 223); (7840, 7841); (7842, 7843);
   (7844, 7845); (7846, 7847); (7848, 7849); (7850, 7851); (7852, 7853);
   (7854, 7855); (7856, 7857); (7858, 7859); (7860, 7861); (7862, 7863);
   (7864, 7865); (7866, 7867); (7868, 7869); (7870, 7871); (7872, 7873);
   (7874, 7875); (7876, 7877); (7878, 7879); (7880, 7881); (7882, 7883);
   (7884, 7885); (7886, 7887); (7888, 7889); (7890, 7891); (7892, 7893);
   (7894, 7895); (7896, 7897); (7898, 7899); (7900, 7901); (7902, 7903);
   (7904, 7905); (7906, 7907); (7908, 7909); (7910, 7911); (7912, 7913);
   (7914, 7915); (7916, 7917); (7918, 7919); (7920, 7921); (7922, 7923);
   (7924, 7925); (7926, 7927); (7928, 7929); (7930, 7931); (7932, 7933);
   (7934, 7935); (7944, 7936); (7945, 7937); (7946, 7938); (7947, 7939);
   (7948, 7940); (7949, 7941); (7950, 7942); (7951, 7943); (7960, 7952);
   (7961, 7953); (7962, 7954); (7963, 7955); (7964, 7956); (7965, 7957);
   (7976, 7968); (7977, 7969); (7978, 7970); (7979, 7971); (7980, 7972);
   (7981, 7973); (7982, 7974); (7983, 7975); (7992, 7984); (7993, 7985);
   (7994, 7986); (7995, 7987); (7996, 7988); (7997, 7989); (7998, 7990);
   (7999, 7991); (8008, 8000); (8009, 8001); (8010, 8002); (8011, 8003);
   (8012, 8004); (8013, 8005); (8025, 8017); (8027, 8019); (8029, 8021);
   (8031, 8023); (8040, 8032); (8041, 8033); (8042, 8034); (8043, 8035);
   (8044, 8036); (8045, 8037); (8046, 8038); (8047, 8039); (8072, 8064);
   (8073, 8065); (8074, 8066); (8075, 8067); (8076, 8068); (8077, 8069);
   (8078, 8070); (8079, 8071); (8088, 8080); (8089, 8081); (8090, 8082);
   (8091, 8083); (8092, 8084); (8093, 8085); (8094, 8086); (8095, 8087);
   (8104, 8096); (8105, 8097); (8106, 8098); (8107, 8099); (8108, 8100);
   (8109, 8101); (8110, 8102); (8111, 8103); (8120, 8112); (8121, 8113);
   (8122, 8048); (8123, 8049); (8124, 8115); (8136, 8050); (8137, 8051);
   (8138, 8052); (8139, 8053); (8140, 8131); (8152, 8144); (8153, 8145);
   (8154, 8054); (8155, 8055); (8168, 8160); (8169, 8161); (8170, 8058);
   (8171, 8059); (8172, 8165); (8184, 8056); (8185, 8057); (8186, 8060);
   (8187, 8061); (8188, 8179); (8486, 969); (8490, 107); (8491, 229);
   (8498, 8526); (8544, 8560); (8545, 8561); (8546, 8562); (8547, 8563);
   (8548, 8564); (8549, 8565); (8550, 8566); (8551, 8567); (8552, 8568);
   (8553, 8569); (8554, 8570); (8555, 8571); (8556, 8572); (8557, 8573);
   (8558, 8574); (8559, 8575); (8579, 8580); (9398, 9424); (9399, 9425);
   (9400, 9426); (9401, 9427); (9402, 9428); (9403, 9429); (9404, 9430);
   (9405, 9431); (9406, 9432); (9407, 9433); (9408, 9434); (9409, 9435);
   (9410, 9436); (9411, 9437); (9412, 9438); (9413, 9439); (9414, 9440);
   (9415, 9441); (9416, 9442); (9417, 9443); (9418, 9444); (9419, 9445);
   (9420, 9446); (9421, 9447); (9422, 9448); (9423, 9449); (11264, 11312);
   (11265, 11313); (11266, 11314); (11267, 11315); (11268, 11316);
   (11269, 11317); (11270, 11318); (11271, 11319); (11272, 11320);
   (11273, 11321); (11274, 11322); (11275, 11323); (11276, 11324);
   (11277, 11325); (11278, 11326); (11279, 11327); (11280, 11328);
   (11281, 11329); (11282, 11330); (11283, 11331); (11284, 11332);
   (11285, 11333); (11286, 11334); (11287, 11335); (11288, 11336);
   (11289, 11337); (11290, 11338); (11291, 11339); (11292, 11340);
   (11293, 11341); (11294, 11342); (11295, 11343); (11296, 11344);
   (11297, 11345); (11298, 11346); (11299, 11347); (11300, 11348);
   (11301, 11349); (11302, 11350); (11303, 11351); (11304, 11352);
   (11305, 11353); (11306, 11354); (11307, 11355); (11308, 11356);
   (11309, 11357); (11310, 11358); (11311, 11359); (11360, 11361);
   (11362, 619); (11363, 7549); (11364, 637); (11367, 11368); (11369, 11370);
   (11371, 11372); (11373, 593); (11374, 625); (11375, 592); (11376, 594);
   (11378, 11379); (11381, 11382); (11390, 575); (11391, 576); (11392, 11393);
   (11394, 11395); (11396, 11397); (11398, 11399); (11400, 11401);
   (11402, 11403); (11404, 11405); (11406, 11407); (11408, 11409);
   (11410, 11411); (11412, 11413); (11414, 11415); (11416, 11417);
   (11418, 11419); (11420, 11421); (11422, 11423); (11424, 11425);
   (11426, 11427); (11428, 11429); (11430, 11431); (11432, 11433);
   (11434, 11435); (11436, 11437); (11438, 11439); (11440, 11441);
   (11442, 11443); (11444, 11445); (11446, 11447); (11448, 11449);
   (11450, 11451); (11452, 11453); (11454, 11455); (11456, 11457);
   (11458, 11459); (11460, 11461); (11462, 11463); (11464, 11465);
   (11466, 11467); (11468, 11469); (11470, 11471); (11472, 11473);
   (11474, 11475); (11476, 11477); (11478, 11479); (11480, 11481);
   (11482, 11483); (11484, 11485); (11486, 11487); (11488, 11489);
   (11490, 11491); (11499, 11500); (11501, 11502); (11506, 11507);
   (42560, 42561); (42562, 42563); (42564, 42565); (42566, 42567);
   (42568, 42569); (42570, 42571); (42572, 42573); (42574, 42575);
   (42576, 42577); (42578, 42579); (42580, 42581); (42582, 42583);
   (42584, 42585); (42586, 42587); (42588, 42589); (42590, 42591);
   (42592, 42593); (42594, 42595); (42596, 42597); (42598, 42599);
   (42600, 42601); (42602, 42603); (42604, 42605); (42624, 42625);
   (42626, 42627); (42628, 42629); (42630, 42631); (42632, 42633);
   (42634, 42635); (42636, 42637); (42638, 42639); (42640, 42641);
   (42642, 42643); (42644, 42645); (42646, 42647); (42648, 42649);
   (42650, 42651); (42786, 42787); (42788, 42789); (42790, 42791);
   (42792, 42793); (42794, 42795); (42796, 42797); (42798, 42799);
   (42802, 42803); (42804, 42805); (42806, 42807); (42808, 42809);
   (42810, 42811); (42812, 42813); (42814, 42815); (42816, 42817);
   (42818, 42819); (42820, 42821); (42822, 42823); (42824, 42825);
   (42826, 42827); (42828, 42829); (42830, 42831); (42832, 42833);
   (42834, 42835); (42836, 42837); (42838, 42839); (42840, 42841);
   (42842, 42843); (42844, 42845); (42846, 42847); (42848, 42849);
   (42850, 42851); (42852, 42853); (42854, 42855); (42856, 42857);
   (42858, 42859); (42860, 42861); (42862, 42863); (42873, 42874);
   (42875, 42876); (42877, 7545); (42878, 42879); (42880, 42881);
   (42882, 42883); (42884, 42885); (42886, 42887); (42891, 42892);
   (42893, 613); (42896, 42897); (42898, 42899); (42902, 42903);
   (42904, 42905); (42906, 42907); (42908, 42909); (42910, 42911);
   (42912, 42913); (42914, 42915); (42916, 42917); (42918, 42919);
   (42920, 42921); (42922, 614); (42923, 604); (42924, 609); (42925, 620);
   (42926, 618); (42928, 670); (42929, 647); (42930, 669); (42931, 43859);
   (42932, 42933); (42934, 42935); (42936, 42937); (42938, 42939);
   (42940, 42941); (42942, 42943); (42944, 42945); (42946, 42947);
   (42948, 42900); (42949, 642); (42950, 7566); (42951, 42952);
   (42953, 42954); (42960, 42961); (42966, 42967); (42968, 42969);
   (42997, 42998); (65313, 65345); (65314, 65346); (65315, 65347);
   (65316, 65348); (65317, 65349); (65318, 65350); (65319, 65351);
   (65320, 65352); (65321, 65353); (65322, 65354); (65323, 65355);
   (65324, 65356); (65325, 65357); (65326, 65358); (65327, 65359);
   (65328, 65360); (65329, 65361); (65330, 65362); (65331, 65363);
   (65332, 65364); (65333, 65365); (65334, 65366); (65335, 65367);
   (65336, 65368); (65337, 65369); (65338, 65370); (66560, 66600);
   (66561, 66601); (66562, 66602); (66563, 66603); (66564, 66604);
   (66565, 66605); (66566, 66606); (66567, 66607); (66568, 66608);
   (66569, 66609); (66570, 66610); (66571, 66611); (66572, 66612);
   (66573, 66613); (66574, 66614); (66575, 66615); (66576, 66616);
   (66577, 66617); (66578, 66618); (66579, 66619); (66580, 66620);
   (66581, 66621); (66582, 66622); (66583, 66623); (66584, 66624);
   (66585, 66625); (66586, 66626); (66587, 66627); (66588, 66628);
   (66589, 66629); (66590, 66630); (66591, 66631); (66592, 66632);
   (66593, 66633); (66594, 66634); (66595, 66635); (66596, 66636);
   (66597, 66637); (66598, 66638); (66599, 66639); (66736, 66776);
   (66737, 66777); (66738, 66778); (66739, 66779); (66740, 66780);
   (66741, 66781); (66742, 66782); (66743, 66783); (66744, 66784);
   (66745, 66785); (66746, 66786); (66747, 66787); (66748, 66788);
   (66749, 66789); (66750, 66790); (66751, 66791); (66752, 66792);
   (66753, 66793); (66754, 66794); (66755, 66795); (66756, 66796);
   (66757, 66797); (66758, 66798); (66759, 66799); (66760, 66800);
   (66761, 66801); (66762, 66802); (66763, 66803); (66764, 66804);
   (66765, 66805); (66766, 66806); (66767, 66807); (66768, 66808);
   (66769, 66809); (66770, 66810); (66771, 66811); (66928, 66967);
   (66929, 66968); (66930, 66969); (66931, 66970); (66932, 66971);
   (66933, 66972); (66934, 66973); (66935, 66974); (66936, 66975);
   (66937, 66976); (66938, 66977); (66940, 66979); (66941, 66980);
   (66942, 66981); (66943, 66982); (66944, 66983); (66945, 66984);
   (66946, 66985); (66947, 66986); (66948, 66987); (66949, 66988);
   (66950, 66989); (66951, 66990); (66952, 66991); (66953, 66992);
   (66954, 66993); (66956, 66995); (66957, 66996); (66958, 66997);
   (66959, 66998); (66960, 66999); (66961, 67000); (66962, 67001);
   (66964, 67003); (66965, 67004); (68736, 68800); (68737, 68801);
   (68738, 68802); (68739, 68803); (68740, 68804); (68741, 68805);
   (68742, 68806); (68743, 68807); (68744, 68808); (68745, 68809);
   (68746, 68810); (68747, 68811); (68748, 68812); (68749, 68813);
   (68750, 68814); (68751, 68815); (68752, 68816); (68753, 68817);
   (68754, 68818); (68755, 68819); (68756, 68820); (68757, 68821);
   (68758, 68822); (68759, 68823); (68760, 68824); (68761, 68825);
   (68762, 68826); (68763, 68827); (68764, 68828); (68765, 68829);
   (68766, 68830); (68767, 68831); (68768, 68832); (68769, 68833);
   (68770, 68834); (68771, 68835); (68772, 68836); (68773, 68837);
   (68774, 68838); (68775, 68839); (68776, 68840); (68777, 68841);
   (68778, 68842); (68779, 68843); (68780, 68844); (68781, 68845);
   (68782, 68846); (68783, 68847); (68784, 68848); (68785, 68849);
   (68786, 68850); (71840, 71872); (71841, 71873); (71842, 71874);
   (71843, 71875); (71844, 71876); (71845, 71877); (71846, 71878);
   (71847, 71879); (71848, 71880); (71849, 71881); (71850, 71882);
   (71851, 71883); (71852, 71884); (71853, 71885); (71854, 71886);
   (71855, 71887); (71856, 71888); (71857, 71889); (71858, 71890);
   (71859, 71891); (71860, 71892); (71861, 71893); (71862, 71894);
   (71863, 71895); (71864, 71896); (71865, 71897); (71866, 71898);
   (71867, 71899); (71868, 71900); (71869, 71901); (71870, 71902);
   (71871, 71903); (93760, 93792); (93761, 93793); (93762, 93794);
   (93763, 93795); (93764, 93796); (93765, 93797); (93766, 93798);
   (93767, 93799); (93768, 93800); (93769, 93801); (93770, 93802);
   (93771, 93803); (93772, 93804); (93773, 93805); (93774, 93806);
   (93775, 93807); (93776, 93808); (93777, 93809); (93778, 93810);
   (93779, 93811); (93780, 93812); (93781, 93813); (93782, 93814);
   (93783, 93815); (93784, 93816); (93785, 93817); (93786, 93818);
   (93787, 93819); (93788, 93820); (93789, 93821); (93790, 93822);
   (93791, 93823); (125184, 125218); (125185, 125219); (125186, 125220);
   (125187, 125221); (125188, 125222); (125189, 125223); (125190, 125224);
   (125191, 125225); (125192, 125226); (125193, 125227); (125194, 125228);
   (125195, 125229); (125196, 125230); (125197, 125231); (125198, 125232);
   (125199, 125233); (125200, 125234); (125201, 125235); (125202, 125236);
   (125203, 125237); (125204, 125238); (125205, 125239); (125206, 125240);
   (125207, 125241); (125208, 125242); (125209, 125243); (125210, 125244);
   (125211, 125245); (125212, 125246); (125213, 125247); (125214, 125248);
   (125215, 125249); (125216, 125250); (125217, 125251)]%N.
Definition in_ranges (n : N) (ranges : list (N * N)) : bool :=
  existsb (fun r => (fst r <=? n)%N && (n <=? snd r)%N) ranges.

Fixpoint assoc (n : N) (pairs : list (N * N)) : option N :=
  match pairs with
  | [] => None
  | p :: pairs' => if (fst p =? n)%N then Some (snd p) else assoc n pairs'
  end.

(** The lower case of a code point other than the capital sigma, when it
    differs from the code point: ASCII capitals, U+0130 (which becomes an
    "i" and a combining dot), and the table. *)
Definition lower_map (n : N) : option (list N) :=
  if (n <? 128)%N then
    if (65 <=? n)%N && (n <=? 90)%N then Some [(n + 32)%N] else None
  else if (n =? 304)%N then Some [105%N; 775%N]
  else option_map (fun o => [o]) (assoc n lower_pairs).

End Unicode.

(** ** UTF-8: the characters of a string *)

Module Utf8.

Definition code (c : ascii) : N := N_of_ascii c.

(** A continuation byte, 10xxxxxx. *)
Definition is_cont (c : ascii) : bool := (128 <=? code c)%N && (code c <? 192)%N.

(** A byte that opens a character of several bytes. *)
Definition is_lead (c : ascii) : bool := (192 <=? code c)%N.

Definition single (c : ascii) : string := String c EmptyString.

Fixpoint join (l : list string) : string :=
  match l with
  | [] => EmptyString
  | blk :: l' => blk +:+ join l'
  end.

(** A continuation byte on its own. *)
Definition stray (blk : string) : bool :=
  match blk with
  | String c EmptyString => is_cont c
  | _ => false
  end.

(** The continuation bytes at the head of a list of characters, and what
    follows them. *)
Fixpoint span_stray (l : list string) : string * list string :=
  match l with
  | [] => (EmptyString, [])
  | blk :: l' =>
      if stray blk
      then (blk +:+ fst (span_stray l'), snd (span_stray l'))
      else (EmptyString, l)
  end.

Definition attach (b : ascii) (rest : list string) : list string :=
  if is_lead b
  then String b (fst (span_stray rest)) :: snd (span_stray rest)
  else single b :: rest.

(** The characters of a string, each as its bytes: a byte below 0xC0 is
    a character of its own, a lead byte takes the continuation bytes that
    follow it. *)
Fixpoint chars (s : string) : list string :=
  match s with
  | EmptyString => []
  | String b s' => attach b (chars s')
  end.

Definition low6 (c : ascii) : N := (code c - 128)%N.

(** The code point a character encodes; [None] for bytes that encode
    none. *)
Definition cp_of (blk : string) : option N :=
  match blk with
  | String b EmptyString =>
      if (code b <? 128)%N then Some (code b) else None
  | String b (String c1 EmptyString) =>
      let n := ((code b - 192) * 64 + low6 c1)%N in
      if (192 <=? code b)%N && (code b <? 224)%N && is_cont c1 && (128 <=? n)%N
      then Some n else None
  | String b (String c1 (String c2 EmptyString)) =>
      let n := ((code b - 224) * 4096 + low6 c1 * 64 + low6 c2)%N in
      if (224 <=? code b)%N && (code b <? 240)%N && is_cont c1 && is_cont c2
         && (2048 <=? n)%N
      then Some n else None
  | String b (String c1 (String c2 (String c3 EmptyString))) =>
      let n := ((code b - 240) * 262144 + low6 c1 * 4096 + low6 c2 * 64
                + low6 c3)%N in
      if (240 <=? code b)%N && (code b <? 248)%N && is_cont c1 && is_cont c2
         && is_cont c3 && (65536 <=? n)%N && (n <? 1114112)%N
      then Some n else None
  | _ => None
  end.

Definition byte (n : N) : ascii := ascii_of_N n.

(** The bytes of a code point. *)
Definition encode (n : N) : string :=
  if (n <? 128)%N then single (byte n)
  else if (n <? 2048)%N then
    String (byte (192 + n / 64)) (single (byte (128 + n mod 64)))
  else if (n <? 65536)%N then
    String (byte (224 + n / 4096))
      (String (byte (128 + (n / 64) mod 64)) (single (byte (128 + n mod 64))))
  else
    String (byte (240 + n / 262144))
      (String (byte (128 + (n / 4096) mod 64))
         (String (byte (128 + (n / 64) mod 64)) (single (byte (128 + n mod 64))))).

End Utf8.

(** ** Python string primitives *)

Module Py.

(** [bool(s)] for a [str]: the empty string is falsy. *)
Definition truthy (s : string) : bool :=
  match s with EmptyString => false | String _ _ => true end.

(** One character of [str.isdigit]. *)
Definition is_digit (blk : string) : bool :=
  match Utf8.cp_of blk with
  | Some n => Unicode.in_ranges n Unicode.digit_ranges
  | None => false
  end.

(** One character of [str.isspace]. *)
Definition is_space (blk : string) : bool :=
  match Utf8.cp_of blk with
  | Some n => Unicode.in_ranges n Unicode.space_ranges
  | None => false
  end.

(** [s.isdigit()]: at least one character and every character a digit. *)
Definition isdigit (s : string) : bool :=
  truthy s && forallb is_digit (Utf8.chars s).

Fixpoint lstrip_chars (l : list string) : list string :=
  match l with
  | [] => []
  | blk :: l' => if is_space blk then lstrip_chars l' else l
  end.

(** Drops trailing white space: a character is kept when something
    other than white space follows it or it is not white space itself. *)
Fixpoint rstrip_chars (l : list string) : list string :=
  match l with
  | [] => []
  | blk :: l' =>
      match rstrip_chars l' with
      | [] => if is_space blk then [] else [blk]
      | r => blk :: r
      end
  end.

(** [s.strip()] *)
Definition strip (s : string) : string :=
  Utf8.join (rstrip_chars (lstrip_chars (Utf8.chars s))).

(** [s.replace(ch, "")] for a one-character ASCII [ch]. *)
Fixpoint remove (ch : ascii) (s : string) : string :=
  match s with
  | EmptyString => EmptyString
  | String c s' => if Ascii.eqb c ch then remove ch s' else String c (remove ch s')
  end.

(** [s.startswith(p)] *)
Definition startswith (s p : string) : bool := String.prefix p s.

(** [s[1:]] *)
Definition tail (s : string) : string := Utf8.join (List.tl (Utf8.chars s)).

(** [len(s)] *)
Definition len (s : string) : nat := List.length (Utf8.chars s).

(** [s[:n]] *)
Definition take (n : nat) (s : string) : string :=
  Utf8.join (List.firstn n (Utf8.chars s)).

Definition case_ignorable (blk : string) : bool :=
  match Utf8.cp_of blk with
  | Some n => Unicode.in_ranges n Unicode.case_ignorable_ranges
  | None => false
  end.

Definition cased (blk : string) : bool :=
  match Utf8.cp_of blk with
  | Some n => Unicode.in_ranges n Unicode.cased_ranges
  | None => false
  end.

(** The nearest character that is not case-ignorable is cased. *)
Fixpoint cased_first (l : list string) : bool :=
  match l with
  | [] => false
  | blk :: l' => if case_ignorable blk then cased_first l' else cased blk
  end.

(** The capital sigma is final: a cased character comes before it and
    none after it, case-ignorable characters skipped.  [before] is
    nearest first. *)
Definition final_sigma (before after : list string) : bool :=
  cased_first before && negb (cased_first after).

(** One character of [str.lower], between the characters before it
    (nearest first) and after it. *)
Definition lower_piece (before : list string) (blk : string) (after : list string)
  : string :=
  match Utf8.cp_of blk with
  | None => blk
  | Some n =>
      if (n =? 931)%N then
        if final_sigma before after then "ς" else "σ"
      else
        match Unicode.lower_map n with
        | Some out => Utf8.join (map Utf8.encode out)
        | None => blk
        end
  end.

Fixpoint lower_chars (before l : list string) : string :=
  match l with
  | [] => EmptyString
  | blk :: after =>
      lower_piece before blk after +:+ lower_chars (blk :: before) after
  end.

(** [s.lower()] *)
Definition lower (s : string) : string := lower_chars [] (Utf8.chars s).

(** [k in s]: [k] occurs in [s] at some position. *)
Fixpoint contains (k s : string) : bool :=
  String.prefix k s ||
  match s with
  | EmptyString => false
  | String _ s' => contains k s'
  end.

End Py.
(** ** Phone normaliser *)

(** [clean_and_e164(phone_raw, default_country="91")].  [phone_raw] is a
    [str], on which [str(phone_raw)] is [phone_raw] itself, or [None] for
    Python's [None] (a JSON null or an absent field). *)
Definition clean_and_e164 (phone_raw : option string) (default_country : string)
  : option string :=
  match phone_raw with
  | None => None
  | Some raw =>
      if negb (Py.truthy raw) then None else
      let s := Py.strip raw in
      let s := fold_left (fun s ch => Py.remove ch s)
                         [" "%char; "-"%char; "("%char; ")"%char; "."%char] s in
      let s_noplus := if Py.startswith s "+" then Py.tail s else s in
      let fall :=
        if Py.startswith s "+" && Py.isdigit (Py.tail s) then Some s else None in
      if Py.isdigit s_noplus then
        if (Py.len s_noplus =? 10)%nat then
          Some ("+" +:+ default_country +:+ s_noplus)
        else if (Py.len s_noplus =? 12)%nat && Py.startswith s_noplus default_country then
          Some ("+" +:+ s_noplus)
        else if (Py.len s_noplus =? 11)%nat && Py.startswith s_noplus "0"
                && Py.isdigit (Py.tail s_noplus)
                && (Py.len (Py.tail s_noplus) =? 10)%nat then
          Some ("+" +:+ default_country +:+ Py.tail s_noplus)
        else fall
      else fall
  end.

(** The country code every caller in the file gets from the default
    argument of [clean_and_e164]. *)
Definition DEFAULT_COUNTRY : string := "91".

(** ** JSON values and dict literals

    [VFloat m e] is the finite float [m] times two to the [e]. *)

#[local] Set Warnings "-register-all".
Inductive value : Type :=
| VNone
| VBool (b : bool)
| VInt (n : Z)
| VFloat (m e : Z)
| VStr (s : string)
| VList (l : list value)
| VDict (d : list (string * value)).

Abbreviation dict := (list (string * value)).

(** [bool(v)] *)
Definition value_truthy (v : value) : bool :=
  match v with
  | VNone => false
  | VBool b => b
  | VInt n => negb (n =? 0)%Z
  | VFloat m _ => negb (m =? 0)%Z
  | VStr s => Py.truthy s
  | VList l => match l with [] => false | _ => true end
  | VDict d => match d with [] => false | _ => true end
  end.

(** [v or d] *)
Definition value_or (v d : value) : value := if value_truthy v then v else d.

(** [type(v).__name__] *)
Definition type_name (v : value) : string :=
  match v with
  | VNone => "NoneType"
  | VBool _ => "bool"
  | VInt _ => "int"
  | VFloat _ _ => "float"
  | VStr _ => "str"
  | VList _ => "list"
  | VDict _ => "dict"
  end.

(** [d.get(k)]: the value under [k], [None] when the key is absent. *)
Fixpoint dict_get (k : string) (d : dict) : value :=
  match d with
  | [] => VNone
  | (k', v) :: d' => if String.eqb k k' then v else dict_get k d'
  end.

(** [list(d.keys())] *)
Definition dict_keys (d : dict) : list string := map fst d.

Definition of_bool (b : option bool) : value :=
  match b with Some b => VBool b | None => VNone end.

Definition of_str (s : option string) : value :=
  match s with Some s => VStr s | None => VNone end.

(** [s or d] for a field that holds a string or [None]. *)
Definition str_or (s : option string) (d : string) : string :=
  match s with
  | Some s => if Py.truthy s then s else d
  | None => d
  end.

(** ** Stores, environment and the state monad *)

(** One entry of [USERS_DB].  A profile and a family member are JSON
    objects with string fields, read with [.get]. *)
Record user : Type := {
  profile : gmap string string;
  family : list (gmap string string);
  history : list dict
}.

(** One call of [twilio_client.messages.create]. *)
Record sms : Type := { sms_body : string; sms_from : string; sms_to : string }.

(** What the process reads from outside: the three environment variables,
    the [n]-th UUID drawn, the [n]-th clock reading, and what the Twilio
    API answers to the [n]-th request: a message sid, or the text of the
    exception it raises. *)
Record env : Type := {
  TWILIO_SID : string;
  TWILIO_AUTH : string;
  TWILIO_NUMBER : string;
  uuid4_hex : nat -> string;
  utcnow_isoformat : nat -> string;
  twilio_api : nat -> sms -> string + string
}.

(** The three module-level stores, the number of UUIDs and clock readings
    drawn so far, and the requests made to the Twilio API, latest first. *)
Record state : Type := {
  USERS_DB : gmap string user;
  ALERTS_DB : list dict;
  FAMILY_LOG_DB : list dict;
  uuids_drawn : nat;
  clock_reads : nat;
  api_calls : list sms
}.

Definition set_USERS_DB (f : gmap string user -> gmap string user) (st : state) : state :=
  {| USERS_DB := f (USERS_DB st); ALERTS_DB := ALERTS_DB st;
     FAMILY_LOG_DB := FAMILY_LOG_DB st; uuids_drawn := uuids_drawn st;
     clock_reads := clock_reads st; api_calls := api_calls st |}.

Definition set_ALERTS_DB (f : list dict -> list dict) (st : state) : state :=
  {| USERS_DB := USERS_DB st; ALERTS_DB := f (ALERTS_DB st);
     FAMILY_LOG_DB := FAMILY_LOG_DB st; uuids_drawn := uuids_drawn st;
     clock_reads := clock_reads st; api_calls := api_calls st |}.

Definition set_FAMILY_LOG_DB (f : list dict -> list dict) (st : state) : state :=
  {| USERS_DB := USERS_DB st; ALERTS_DB := ALERTS_DB st;
     FAMILY_LOG_DB := f (FAMILY_LOG_DB st); uuids_drawn := uuids_drawn st;
     clock_reads := clock_reads st; api_calls := api_calls st |}.

Definition M (A : Type) : Type := state -> A * state.

Definition ret {A : Type} (a : A) : M A := fun st => (a, st).

Definition bind {A B : Type} (m : M A) (k : A -> M B) : M B :=
  fun st => let r := m st in k (fst r) (snd r).

Definition gets {A : Type} (f : state -> A) : M A := fun st => (f st, st).

Definition modify (f : state -> state) : M unit := fun st => (tt, f st).

Notation "x <- m ;; k" := (bind m (fun x => k))
  (at level 100, m at next level, right associativity).
Notation "m ;;; k" := (bind m (fun _ => k))
  (at level 100, right associativity).

(** A [for] loop that collects what each round appends to a result
    list. *)
Fixpoint for_each {A B : Type} (body : A -> M B) (l : list A) : M (list B) :=
  match l with
  | [] => ret []
  | a :: l' =>
      b <- body a ;;
      bs <- for_each body l' ;;
      ret (b :: bs)
  end.

(** A route's answer: the JSON payload of a 200, or the [error] text of a
    400. *)
Inductive response (A : Type) : Type :=
| Ok200 (payload : A)
| Err400 (error : string).
Arguments Ok200 {A} payload.
Arguments Err400 {A} error.

(** [phones = data.get("phones", [])]: a list of raw values (a string, or
    [None] for a JSON null), or something that is not a list. *)
Inductive phones_arg : Type :=
| NotAList
| Phones (l : list (option string)).

(** The dict literal every route passes to [USERS_DB.setdefault]. *)
Definition default_user (email : string) : user :=
  {| profile := {[ "email" := email; "name" := ""; "phone" := "" ]};
     family := [];
     history := [] |}.

(** [USERS_DB.setdefault(email, default)] *)
Definition setdefault (email : string) (d : user) (db : gmap string user)
  : gmap string user :=
  match db !! email with
  | Some _ => db
  | None => <[email := d]> db
  end.

(** The loop that fills [cleaned] in both dispatch routes. *)
Fixpoint clean_phones (phones : list (option string)) : list string :=
  match phones with
  | [] => []
  | ph :: rest =>
      match clean_and_e164 ph DEFAULT_COUNTRY with
      | Some e => if Py.truthy e then e :: clean_phones rest else clean_phones rest
      | None => clean_phones rest
      end
  end.

(** The outcome of [analyze_message]. *)
Record analysis : Type := {
  is_scam : option bool;
  elder_warning : string;
  explanation : string
}.

Definition keywords : list string :=
  ["otp"; "urgent"; "bank"; "blocked"; "verify"; "password"; "transfer";
   "account"; "click"; "wire"].

(** [analyze_message(message_text)].  [.lower()] exists on a [str] only; on
    any other truthy value the [AttributeError] is caught by the
    [except] branch. *)
Definition analyze_message (message_text : value) : analysis :=
  match value_or message_text (VStr "") with
  | VStr text =>
      let lower := Py.lower text in
      let is_scam := existsb (fun k => Py.contains k lower) keywords in
      {| is_scam := Some is_scam;
         elder_warning :=
           if is_scam
           then "⚠ This message looks suspicious. Do NOT share OTP/passwords."
           else "✔ This message appears safe.";
         explanation := "Detected using keyword rules (demo)." |}
  | v =>
      {| is_scam := None;
         elder_warning := "AI could not analyze this message.";
         explanation := "'" +:+ type_name v +:+ "' object has no attribute 'lower'" |}
  end.

(** ** The program *)

(** The Twilio client object built at import time from the two
    credentials. *)
Record Client : Type := { account_sid : string; auth_token : string }.

Section App.

Context (E : env).

(** Module initialisation: a client when both credentials are set, else
    [None]. *)
Definition twilio_client : option Client :=
  if Py.truthy (TWILIO_SID E) && Py.truthy (TWILIO_AUTH E)
  then Some {| account_sid := TWILIO_SID E; auth_token := TWILIO_AUTH E |}
  else None.

(** [datetime.now(timezone.utc).isoformat()] *)
Definition now_iso : M string :=
  fun st =>
    (utcnow_isoformat E (clock_reads st),
     {| USERS_DB := USERS_DB st; ALERTS_DB := ALERTS_DB st;
        FAMILY_LOG_DB := FAMILY_LOG_DB st; uuids_drawn := uuids_drawn st;
        clock_reads := S (clock_reads st); api_calls := api_calls st |}).

(** ["id_" + uuid.uuid4().hex[:12]] *)
Definition gen_id : M string :=
  fun st =>
    ("id_" +:+ Py.take 12 (uuid4_hex E (uuids_drawn st)),
     {| USERS_DB := USERS_DB st; ALERTS_DB := ALERTS_DB st;
        FAMILY_LOG_DB := FAMILY_LOG_DB st; uuids_drawn := S (uuids_drawn st);
        clock_reads := clock_reads st; api_calls := api_calls st |}).

(** [client.messages.create(body=, from_=, to=)]: the request goes out
    and the API answers. *)
Definition messages_create (client : Client) (m : sms) : M (string + string) :=
  fun st =>
    (twilio_api E (List.length (api_calls st)) m,
     {| USERS_DB := USERS_DB st; ALERTS_DB := ALERTS_DB st;
        FAMILY_LOG_DB := FAMILY_LOG_DB st; uuids_drawn := uuids_drawn st;
        clock_reads := clock_reads st; api_calls := m :: api_calls st |}).

Definition send_sms_twilio_single (to_e164 body_text : string) : M dict :=
  match twilio_client with
  | None =>
      ret [("ok", VBool false);
           ("error", VStr "Twilio not configured (env missing).")]
  | Some client =>
      r <- messages_create client
             {| sms_body := body_text; sms_from := TWILIO_NUMBER E;
                sms_to := to_e164 |} ;;
      match r with
      | inl sid => ret [("ok", VBool true); ("sid", VStr sid)]
      | inr e => ret [("ok", VBool false); ("error", VStr e)]
      end
  end.

Definition save_alert (sender : string) (message : value) (an : analysis)
    (user_email : option string) : M dict :=
  id <- gen_id ;;
  created_at <- now_iso ;;
  let alert : dict :=
    [("id", VStr id);
     ("sender", VStr sender);
     ("message", message);
     ("is_scam", of_bool (is_scam an));
     ("elder_warning", VStr (elder_warning an));
     ("explanation", VStr (explanation an));
     ("created_at", VStr created_at);
     ("user_email", of_str user_email)] in
  modify (set_ALERTS_DB (cons alert)) ;;;
  match user_email with
  | Some email =>
      if Py.truthy email then
        modify (set_USERS_DB (fun db =>
          let db := setdefault email (default_user email) db in
          alter (fun u => {| profile := profile u; family := family u;
                             history := alert :: history u |}) email db)) ;;;
        ret alert
      else ret alert
  | None => ret alert
  end.

(** POST /login *)
Definition login (email : option string) : M (response user) :=
  let email := Py.lower (str_or email "") in
  if negb (Py.truthy email) then ret (Err400 "email required") else
  modify (set_USERS_DB (setdefault email (default_user email))) ;;;
  db <- gets USERS_DB ;;
  ret (Ok200 (default (default_user email) (db !! email))).

(** POST /save-profile *)
Definition save_profile (email : option string)
    (profile_arg : option (gmap string string)) : M (response unit) :=
  let email := Py.lower (str_or email "") in
  let new_profile := default ∅ profile_arg in
  if negb (Py.truthy email) then ret (Err400 "email required") else
  modify (set_USERS_DB (setdefault email (default_user email))) ;;;
  modify (set_USERS_DB (alter (fun u =>
    {| profile := new_profile; family := family u; history := history u |}) email)) ;;;
  ret (Ok200 tt).

(** POST /save-family *)
Definition save_family (email : option string)
    (family_arg : option (list (gmap string string))) : M (response unit) :=
  let email := Py.lower (str_or email "") in
  let new_family := default [] family_arg in
  if negb (Py.truthy email) then ret (Err400 "email required") else
  modify (set_USERS_DB (setdefault email (default_user email))) ;;;
  modify (set_USERS_DB (alter (fun u =>
    {| profile := profile u; family := new_family; history := history u |}) email)) ;;;
  ret (Ok200 tt).

(** GET /alerts *)
Definition get_alerts (email : option string) : M (list dict) :=
  match email with
  | Some email =>
      if Py.truthy email then
        db <- gets USERS_DB ;;
        match db !! Py.lower email with
        | Some u => ret (history u)
        | None => ret []
        end
      else gets ALERTS_DB
  | None => gets ALERTS_DB
  end.

(** The recipient set of a scam alert: the profile phone and every
    family phone of [email], each when present and non-empty. *)
Definition add_phone (phone : option string) (recipients : gset string)
  : gset string :=
  match phone with
  | Some ph => if Py.truthy ph then {[ ph ]} ∪ recipients else recipients
  | None => recipients
  end.

Definition recipients_of (email : string) (db : gmap string user) : gset string :=
  let recipients : gset string := ∅ in
  let recipients :=
    if Py.truthy email then
      match db !! email with
      | Some u => add_phone (profile u !! "phone") recipients
      | None => recipients
      end
    else recipients in
  if Py.truthy email then
    match db !! email with
    | Some u =>
        fold_left (fun recipients m => add_phone (m !! "phone") recipients)
                  (family u) recipients
    | None => recipients
    end
  else recipients.

(** One round of the send loop of [test_message]. *)
Definition scam_send (sms_body e164 : string) : M dict :=
  res <- send_sms_twilio_single e164 sms_body ;;
  id <- gen_id ;;
  created_at <- now_iso ;;
  let log_entry : dict :=
    [("id", VStr id);
     ("to", VStr e164);
     ("body", VStr sms_body);
     ("result", VDict res);
     ("created_at", VStr created_at)] in
  modify (set_FAMILY_LOG_DB (cons log_entry)) ;;;
  ret log_entry.

(** POST /test-message.  The answer is the alert and, on the scam
    branch, the [sms_sent] list.  Python leaves the iteration order of a
    [set] open; [elements] fixes one, and nothing below depends on which. *)
Definition test_message (email sender : option string) (message : value)
  : M (dict * option (list dict)) :=
  let email := Py.lower (str_or email "") in
  let sender := str_or sender "User" in
  let message := value_or message (VStr "") in
  let an := analyze_message message in
  alert <- save_alert sender message an
             (if Py.truthy email then Some email else None) ;;
  match is_scam an with
  | Some true =>
      db <- gets USERS_DB ;;
      let recipients := recipients_of email db in
      let cleaned := clean_phones (map Some (elements recipients)) in
      let sms_body := "⚠ Scam alert for " +:+ sender +:+ ": " +:+ elder_warning an in
      sms_results <- for_each (scam_send sms_body) cleaned ;;
      ret (alert, Some sms_results)
  | _ => ret (alert, None)
  end.

(** One round of the send loop of [send_family_alert]. *)
Definition adhoc_send (message_text : string) (details : value) (e164 : string)
  : M dict :=
  res <- send_sms_twilio_single e164 message_text ;;
  id <- gen_id ;;
  created_at <- now_iso ;;
  let entry : dict :=
    [("id", VStr id);
     ("to", VStr e164);
     ("message_sent", VStr message_text);
     ("details", details);
     ("result", VDict res);
     ("created_at", VStr created_at)] in
  modify (set_FAMILY_LOG_DB (cons entry)) ;;;
  ret entry.

(** POST /send-family-alert.  A 200 carries [sent] and [logs]. *)
Definition send_family_alert (phones : phones_arg) (message_text : string)
    (details : value) : M (response (list string * list dict)) :=
  match phones with
  | NotAList => ret (Err400 "phones must be a non-empty list")
  | Phones [] => ret (Err400 "phones must be a non-empty list")
  | Phones l =>
      let cleaned := clean_phones l in
      match cleaned with
      | [] => ret (Err400 "no valid phone numbers after cleaning")
      | _ =>
          sms_results <- for_each (adhoc_send message_text details) cleaned ;;
          ret (Ok200 (cleaned, sms_results))
      end
  end.

(** GET /family-logs *)
Definition family_logs : M (list dict) := gets FAMILY_LOG_DB.

End App.

(** ** The normaliser by cases, and as the specification words it *)

Definition punctuation : list ascii :=
  [" "%char; "-"%char; "("%char; ")"%char; "."%char].

Fixpoint strip_punctuation (s : string) : string :=
  match s with
  | EmptyString => EmptyString
  | String c s' =>
      if existsb (Ascii.eqb c) punctuation
      then strip_punctuation s'
      else String c (strip_punctuation s')
  end.

(** [Some d] when the string is a plus sign followed by [d]. *)
Definition after_plus (s : string) : option string :=
  match s with
  | String c d => if Ascii.eqb c "+" then Some d else None
  | EmptyString => None
  end.

(** [Some d] when the string is a zero followed by [d]. *)
Definition after_zero (s : string) : option string :=
  match s with
  | String c d => if Ascii.eqb c "0" then Some d else None
  | EmptyString => None
  end.

(** What [clean_and_e164] computes, laid out by cases on the cleaned
    string: the same tests ([str.isdigit], [len]) in the shape the proofs
    below work on. *)
Definition normal_form (raw : option string) (default_country : string)
  : option string :=
  match raw with
  | None => None
  | Some EmptyString => None
  | Some raw =>
      let s := strip_punctuation (Py.strip raw) in
      let digits := default s (after_plus s) in
      let as_is :=
        match after_plus s with
        | Some d => if Py.isdigit d then Some s else None
        | None => None
        end in
      if Py.isdigit digits then
        match Py.len digits with
        | 10 => Some ("+" +:+ default_country +:+ digits)
        | 12 => if String.prefix default_country digits
                then Some ("+" +:+ digits) else as_is
        | 11 => match after_zero digits with
                | Some national => Some ("+" +:+ default_country +:+ national)
                | None => as_is
                end
        | _ => as_is
        end
      else as_is
  end.

(** Every byte of the string passes the test. *)
Fixpoint all_bytes (P : ascii -> bool) (s : string) : bool :=
  match s with
  | EmptyString => true
  | String c s' => P c && all_bytes P s'
  end.

(** A byte that is none of the five punctuation marks. *)
Definition kept (c : ascii) : bool := negb (existsb (Ascii.eqb c) punctuation).

(** A string of ASCII characters only. *)
Definition ascii_only (s : string) : bool :=
  all_bytes (fun c => (Utf8.code c <? 128)%N) s.

(** A character as [Utf8.chars] cuts it: one byte that opens no
    sequence, or a lead byte with continuation bytes behind it. *)
Definition shaped (blk : string) : bool :=
  match blk with
  | EmptyString => false
  | String b rest =>
      if Utf8.is_lead b then all_bytes Utf8.is_cont rest
      else match rest with EmptyString => true | String _ _ => false end
  end.

Definition lead_headed (blk : string) : bool :=
  match blk with
  | EmptyString => false
  | String b _ => Utf8.is_lead b
  end.

(** The list opens with a continuation byte on its own. *)
Definition stray_headed (l : list string) : bool :=
  match l with
  | [] => false
  | blk :: _ => Utf8.stray blk
  end.

(** A list of characters as [Utf8.chars] cuts a string: no continuation
    byte is left on its own behind a lead byte. *)
Fixpoint cut (l : list string) : bool :=
  match l with
  | [] => true
  | blk :: l' =>
      shaped blk && (negb (lead_headed blk) || negb (stray_headed l')) && cut l'
  end.

(** A character [str.lower] leaves as it is, wherever it stands. *)
Definition stable (blk : string) : bool :=
  match Utf8.cp_of blk with
  | None => true
  | Some n =>
      negb (n =? 931)%N &&
      match Unicode.lower_map n with None => true | Some _ => false end
  end.

(** A character a lower-casing puts out: cut as [Utf8.chars] cuts,
    left as it is by another lower-casing, and no continuation byte on
    its own. *)
Definition settled (blk : string) : bool :=
  shaped blk && stable blk && negb (Utf8.stray blk).

(** [Py.lower_piece], character by character. *)
Definition lower_piece_chars (before : list string) (blk : string)
  (after : list string) : list string :=
  match Utf8.cp_of blk with
  | None => [blk]
  | Some n =>
      if (n =? 931)%N then
        if Py.final_sigma before after then ["ς"] else ["σ"]
      else
        match Unicode.lower_map n with
        | Some out => map Utf8.encode out
        | None => [blk]
        end
  end.

Fixpoint lower_blocks (before l : list string) : list string :=
  match l with
  | [] => []
  | blk :: after =>
      lower_piece_chars before blk after ++ lower_blocks (blk :: before) after
  end.


(** One of the ten digits 0 to 9. *)
Definition ascii_digit (c : ascii) : bool :=
  (48 <=? nat_of_ascii c)%nat && (nat_of_ascii c <=? 57)%nat.

Fixpoint all_ascii_digits (s : string) : bool :=
  match s with
  | EmptyString => true
  | String c s' => ascii_digit c && all_ascii_digits s'
  end.

(** At least one character, and each one of the digits 0 to 9. *)
Definition ascii_digits (s : string) : bool :=
  Py.truthy s && all_ascii_digits s.

(** Section 4.1 of the specification, step by step.  A string "is all
    digits" when it has at least one character and each is one of the
    digits 0 to 9, the digits of E.164. *)
Definition normalize (raw : option string) (defaultCountryCode : string)
  : option string :=
  match raw with
  | None => None                                            (* step 1 *)
  | Some EmptyString => None
  | Some raw =>
      let s := strip_punctuation (Py.strip raw) in          (* step 2 *)
      let digits := default s (after_plus s) in             (* step 3 *)
      let as_is :=                                          (* steps 5, 6 *)
        match after_plus s with
        | Some d => if ascii_digits d then Some s else None
        | None => None
        end in
      if ascii_digits digits then                           (* step 4 *)
        match String.length digits with
        | 10 => Some ("+" +:+ defaultCountryCode +:+ digits)
        | 12 => if String.prefix defaultCountryCode digits
                then Some ("+" +:+ digits) else as_is
        | 11 => match after_zero digits with
                | Some national => Some ("+" +:+ defaultCountryCode +:+ national)
                | None => as_is
                end
        | _ => as_is
        end
      else as_is
  end.





(** [k] occurs in [s]: some text, then [k], then some text. *)
Definition substring (k s : string) : Prop :=
  exists pre post : string, s = pre +:+ k +:+ post.

(** ** Shapes the specification names *)

(** An E.164-shaped string: a plus sign followed by digits 0 to 9
    only. *)
Definition e164_shaped (s : string) : Prop :=
  exists d : string, s = "+" +:+ d /\ ascii_digits d = true.

(** A plus sign followed by characters [str.isdigit] accepts, of any
    script. *)
Definition plus_digits (s : string) : Prop :=
  exists d : string, s = "+" +:+ d /\ Py.isdigit d = true.

(** A normalised number: a plus sign followed by characters
    [str.isdigit] accepts, which [clean_and_e164] returns for some raw
    phone. *)
Definition normalised (e : string) : Prop :=
  plus_digits e /\
  exists raw : option string, clean_and_e164 raw DEFAULT_COUNTRY = Some e.

(** The [result] of a send: delivered, with the provider's reference
    (Twilio's message sid), or failed, with the error text. *)
Definition is_result (res : dict) : Prop :=
  (exists ref : string, res = [("ok", VBool true); ("sid", VStr ref)]) \/
  (exists err : string, res = [("ok", VBool false); ("error", VStr err)]).

(** The DeliveryLogEntry of the specification's data model, carrying
    [text] under [body]. *)
Definition DeliveryLogEntry (text : string) (entry : dict) : Prop :=
  exists (id to created_at : string) (res : dict),
    entry = [("id", VStr id); ("to", VStr to); ("body", VStr text);
             ("result", VDict res); ("created_at", VStr created_at)] /\
    normalised to /\ is_result res.

(** The entry the ad-hoc route writes: the text is under [message_sent]
    and the caller's [details] ride along. *)
Definition AdhocLogEntry (text : string) (details : value) (entry : dict) : Prop :=
  exists (id to created_at : string) (res : dict),
    entry = [("id", VStr id); ("to", VStr to); ("message_sent", VStr text);
             ("details", details); ("result", VDict res);
             ("created_at", VStr created_at)] /\
    normalised to /\ is_result res.

(** The result of a send made with no client. *)
Definition not_configured : dict :=
  [("ok", VBool false); ("error", VStr "Twilio not configured (env missing).")].

(** What a send to [to] returns when [n] requests went to the API before
    it. *)
Definition gateway_answer (E : env) (n : nat) (to body : string) : dict :=
  match twilio_client E with
  | None => not_configured
  | Some _ =>
      match twilio_api E n {| sms_body := body; sms_from := TWILIO_NUMBER E;
                              sms_to := to |} with
      | inl sid => [("ok", VBool true); ("sid", VStr sid)]
      | inr err => [("ok", VBool false); ("error", VStr err)]
      end
  end.

(** The request a send to [e164] puts on the wire. *)
Definition sms_for (E : env) (text e164 : string) : sms :=
  {| sms_body := text; sms_from := TWILIO_NUMBER E; sms_to := e164 |}.

(** The input of the ad-hoc route has no valid target: it is not a list,
    or no element of it normalises (an empty list among them). *)
Definition no_valid_target (phones : phones_arg) : Prop :=
  match phones with
  | NotAList => True
  | Phones l => Forall (fun p => clean_and_e164 p DEFAULT_COUNTRY = None) l
  end.

Definition is_err {A : Type} (r : response A) : Prop :=
  match r with Err400 _ => True | Ok200 _ => False end.

(** ** Concrete environments and states *)

(** No credentials in the environment. *)
Definition env_unset : env :=
  {| TWILIO_SID := ""; TWILIO_AUTH := ""; TWILIO_NUMBER := "";
     uuid4_hex := fun _ => "0f8fad5bd9cb469fa16570867728950e";
     utcnow_isoformat := fun _ => "2024-01-01T00:00:00+00:00";
     twilio_api := fun _ _ => inr "unreachable" |}.

(** Credentials set, and an API that accepts every message. *)
Definition env_live : env :=
  {| TWILIO_SID := "AC0123"; TWILIO_AUTH := "secret";
     TWILIO_NUMBER := "+15017122661";
     uuid4_hex := fun _ => "0f8fad5bd9cb469fa16570867728950e";
     utcnow_isoformat := fun _ => "2024-01-01T00:00:00+00:00";
     twilio_api := fun n _ => inl "SM01" |}.

(** The stores as the module creates them. *)
Definition initial : state :=
  {| USERS_DB := ∅; ALERTS_DB := []; FAMILY_LOG_DB := [];
     uuids_drawn := 0; clock_reads := 0; api_calls := [] |}.

(** The state after one user saved a profile with the phone
    "9876543210" and one family contact with the phone "+919876543210". *)
Definition with_family : state :=
  snd (save_family (Some "asha@example.com")
         (Some [ {[ "name" := "Ravi"; "phone" := "+919876543210" ]} ])
         (snd (save_profile (Some "asha@example.com")
                 (Some {[ "email" := "asha@example.com"; "name" := "Asha";
                          "phone" := "9876543210" ]})
                 initial))).

(** ** The pieces of a scam dispatch *)

(** The text of the SMS a scam alert sends. *)
Definition body_of (sender : option string) (message : value) : string :=
  "⚠ Scam alert for " +:+ str_or sender "User" +:+ ": "
    +:+ elder_warning (analyze_message message).

(** The state in which the send loop of [test_message] starts: the alert
    is saved. *)
Definition alerted (E : env) (email sender : option string) (message : value)
    (st : state) : state :=
  snd (save_alert E (str_or sender "User") (value_or message (VStr ""))
         (analyze_message message)
         (if Py.truthy (Py.lower (str_or email ""))
          then Some (Py.lower (str_or email "")) else None) st).

(** The numbers the send loop of [test_message] runs over. *)
Definition targets (E : env) (email sender : option string) (message : value)
    (st : state) : list string :=
  clean_phones
    (map Some (elements (recipients_of (Py.lower (str_or email ""))
                           (USERS_DB (alerted E email sender message st))))).

(** The history stored for [email]; no record, no history. *)
Definition history_of (email : string) (st : state) : list dict :=
  match USERS_DB st !! email with
  | Some u => history u
  | None => []
  end.

(** The record [email] has, or the default one it gets on first
    reference. *)
Definition record_of (email : string) (st : state) : user :=
  default (default_user email) (USERS_DB st !! email).

(** Unfolds the monad's operations in a goal. *)
Ltac run := unfold bind, ret, modify, gets; cbn [fst snd].

(** ** The routes as one server

    The seven routes the module registers with [@app.route], and the
    state a request leaves when requests are served one after another. *)
Inductive request : Type :=
| POST_login (email : option string)
| POST_save_profile (email : option string) (profile_arg : option (gmap string string))
| POST_save_family (email : option string)
    (family_arg : option (list (gmap string string)))
| GET_alerts (email : option string)
| POST_test_message (email sender : option string) (message : value)
| POST_send_family_alert (phones : phones_arg) (message_text : string)
    (details : value)
| GET_family_logs.

Definition serve (E : env) (r : request) (st : state) : state :=
  match r with
  | POST_login email => snd (login email st)
  | POST_save_profile email profile_arg => snd (save_profile email profile_arg st)
  | POST_save_family email family_arg => snd (save_family email family_arg st)
  | GET_alerts email => snd (get_alerts email st)
  | POST_test_message email sender message =>
      snd (test_message E email sender message st)
  | POST_send_family_alert phones message_text details =>
      snd (send_family_alert E phones message_text details st)
  | GET_family_logs => snd (family_logs st)
  end.

Definition serve_all (E : env) (rs : list request) (st : state) : state :=
  fold_left (fun st r => serve E r st) rs st.

(** The alert carries [email] as its [user_email]. *)
Definition alert_of (email : string) (alert : dict) : bool :=
  match dict_get "user_email" alert with
  | VStr s => String.eqb s email
  | _ => false
  end.

(** [raw] is a phone on file for [u]: the profile's, or a family
    member's. *)
Definition on_file (u : user) (raw : string) : Prop :=
  profile u !! "phone" = Some raw \/
  exists m, In m (family u) /\ m !! "phone" = Some raw.

(** The key a request's email stands for, and the [user_email] that
    [test_message] hands to [save_alert]. *)
Definition key_of (email : option string) : string :=
  Py.lower (str_or email "").

Definition owner_of (email : option string) : option string :=
  if Py.truthy (key_of email) then Some (key_of email) else None.

(** What a dispatch adds to the delivery log and to the gateway's
    requests: entries for some normalised numbers, newest first, and the
    matching requests when there is a client. *)
Definition dispatched (E : env) (shape : dict -> Prop) (st st' : state) : Prop :=
  exists (text : string) (l : list string) (logs : list dict),
    Forall normalised l /\
    Forall shape logs /\
    map (dict_get "to") logs = map VStr l /\
    FAMILY_LOG_DB st' = rev logs ++ FAMILY_LOG_DB st /\
    api_calls st' =
      match twilio_client E with
      | Some _ => rev (map (sms_for E text) l) ++ api_calls st
      | None => api_calls st
      end.

(** An entry of the delivery log as either dispatch route writes it. *)
Definition logged_entry (entry : dict) : Prop :=
  (exists text, DeliveryLogEntry text entry) \/
  (exists text details, AdhocLogEntry text details entry).

(** [st'] holds everything [st] held: the two ledgers, the gateway's
    requests and every history have only grown at the head, and no user
    is gone. *)
Definition grown (st st' : state) : Prop :=
  (exists new, ALERTS_DB st' = new ++ ALERTS_DB st) /\
  (exists new, FAMILY_LOG_DB st' = new ++ FAMILY_LOG_DB st) /\
  (exists new, api_calls st' = new ++ api_calls st) /\
  (forall k, exists new, history_of k st' = new ++ history_of k st) /\
  (forall k, is_Some (USERS_DB st !! k) -> is_Some (USERS_DB st' !! k)).
(** * Properties *)

(** ** The functions on a few inputs *)

Example clean_spaces :
  clean_and_e164 (Some " 98765 43210 ") DEFAULT_COUNTRY = Some "+919876543210".
Proof. vm_compute. reflexivity. Qed.

Example clean_international :
  clean_and_e164 (Some "+1 (501) 712-2661") DEFAULT_COUNTRY = Some "+15017122661".
Proof. vm_compute. reflexivity. Qed.

Example clean_eleven_digits :
  clean_and_e164 (Some "15017122661") DEFAULT_COUNTRY = None.
Proof. vm_compute. reflexivity. Qed.

Example clean_inner_tab :
  clean_and_e164 (Some (String (ascii_of_nat 9) "9876543210")) DEFAULT_COUNTRY
    = Some "+919876543210" /\
  clean_and_e164 (Some ("98765" +:+ String (ascii_of_nat 9) "43210"))
    DEFAULT_COUNTRY = None.
Proof. split; vm_compute; reflexivity. Qed.

(** [str.strip] takes a no-break space (U+00A0) and an em space (U+2003)
    as white space. *)
Example clean_no_break_space :
  clean_and_e164 (Some (Utf8.encode 160 +:+ "9876543210" +:+ Utf8.encode 8195))
    DEFAULT_COUNTRY = Some "+919876543210".
Proof. vm_compute. reflexivity. Qed.

(** [len] counts characters: ten Arabic-Indic digits are twenty bytes. *)
Example len_counts_characters :
  Py.len "٩٨٧٦٥٤٣٢١٠" = 10 /\ String.length "٩٨٧٦٥٤٣٢١٠" = 20 /\
  Py.isdigit "٩٨٧٦٥٤٣٢١٠" = true /\ ascii_digits "٩٨٧٦٥٤٣٢١٠" = false.
Proof. repeat split; vm_compute; reflexivity. Qed.

Example lower_beyond_ascii :
  Py.lower "ÉCOLE Asha@Example.com" = "école asha@example.com" /\
  Py.lower "ΟΔΟΣ ΣΟΦΙΑΣ" = "οδος σοφιας".
Proof. split; vm_compute; reflexivity. Qed.

(** No word boundary is needed: "wire" is found inside "REWIRED".  It is
    not found in "wiring", which has no "e" after "wir". *)
Example analyze_rewired :
  is_scam (analyze_message (VStr "The hall was REWIRED last week")) = Some true.
Proof. vm_compute. reflexivity. Qed.

Example analyze_wiring :
  is_scam (analyze_message (VStr "The electrician is wiring the hall")) = Some false.
Proof. vm_compute. reflexivity. Qed.

(** The Kelvin sign (U+212A) lower-cases to the letter k. *)
Example analyze_kelvin_sign :
  Py.lower ("clic" +:+ Utf8.encode 8490) = "click" /\
  is_scam (analyze_message (VStr ("Please clic" +:+ Utf8.encode 8490 +:+ " here")))
    = Some true.
Proof. split; vm_compute; reflexivity. Qed.

Example analyze_safe :
  analyze_message (VStr "See you at lunch") =
  {| is_scam := Some false;
     elder_warning := "✔ This message appears safe.";
     explanation := "Detected using keyword rules (demo)." |}.
Proof. vm_compute. reflexivity. Qed.

Example analyze_number :
  analyze_message (VInt 5) =
  {| is_scam := None;
     elder_warning := "AI could not analyze this message.";
     explanation := "'int' object has no attribute 'lower'" |}.
Proof. reflexivity. Qed.

Example analyze_float :
  is_scam (analyze_message (VFloat 3 (-1))) = None /\
  is_scam (analyze_message (VFloat 0 0)) = Some false.
Proof. split; reflexivity. Qed.

Example with_family_phones :
  elements (recipients_of "asha@example.com" (USERS_DB with_family)) ≡ₚ
  ["9876543210"; "+919876543210"].
Proof. vm_compute. first [reflexivity | apply Permutation_swap]. Qed.


(** ** Characters *)

Lemma append_assoc (a b c : string) : (a +:+ b) +:+ c = a +:+ b +:+ c.
Proof.
  induction a as [|x a IH]; [reflexivity|].
  change (String x ((a +:+ b) +:+ c) = String x (a +:+ b +:+ c)).
  now rewrite IH.
Qed.

Lemma append_nil_r (a : string) : a +:+ "" = a.
Proof.
  induction a as [|x a IH]; [reflexivity|].
  change (String x (a +:+ "") = String x a). now rewrite IH.
Qed.

Lemma join_app l1 l2 : Utf8.join (l1 ++ l2) = Utf8.join l1 +:+ Utf8.join l2.
Proof.
  induction l1 as [|b l1 IH]; [reflexivity|].
  cbn [app Utf8.join]. now rewrite IH, append_assoc.
Qed.

Lemma span_stray_join l :
  fst (Utf8.span_stray l) +:+ Utf8.join (snd (Utf8.span_stray l)) = Utf8.join l.
Proof.
  induction l as [|b l IH]; [reflexivity|].
  cbn [Utf8.span_stray]. destruct (Utf8.stray b); [|reflexivity].
  cbn [fst snd Utf8.join]. now rewrite append_assoc, IH.
Qed.

Lemma join_attach b rest :
  Utf8.join (Utf8.attach b rest) = String b (Utf8.join rest).
Proof.
  unfold Utf8.attach. destruct (Utf8.is_lead b); [|reflexivity].
  cbn [Utf8.join]. change (String b (fst (Utf8.span_stray rest)) +:+ ?x)
    with (String b (fst (Utf8.span_stray rest) +:+ x)).
  now rewrite span_stray_join.
Qed.

(** The characters of a string, put end to end, are the string. *)
Lemma join_chars s : Utf8.join (Utf8.chars s) = s.
Proof.
  induction s as [|b s IH]; [reflexivity|].
  cbn [Utf8.chars]. now rewrite join_attach, IH.
Qed.

Lemma chars_plain b s :
  Utf8.is_lead b = false ->
  Utf8.chars (String b s) = Utf8.single b :: Utf8.chars s.
Proof. intros H. cbn [Utf8.chars]. unfold Utf8.attach. now rewrite H. Qed.

Lemma chars_cons_nonempty b s : Utf8.chars (String b s) <> [].
Proof. cbn [Utf8.chars]. unfold Utf8.attach. now destruct (Utf8.is_lead b). Qed.

Lemma chars_nil s : Utf8.chars s = [] <-> s = "".
Proof.
  split; [|now intros ->]. destruct s; [reflexivity|].
  intros H. now apply chars_cons_nonempty in H.
Qed.

Lemma tail_plain b s : Utf8.is_lead b = false -> Py.tail (String b s) = s.
Proof.
  intros H. unfold Py.tail. rewrite (chars_plain b s H). cbn [List.tl].
  apply join_chars.
Qed.

Lemma len_plain b s :
  Utf8.is_lead b = false -> Py.len (String b s) = S (Py.len s).
Proof. intros H. unfold Py.len. now rewrite (chars_plain b s H). Qed.

Lemma isdigit_plain b s :
  Utf8.is_lead b = false ->
  Py.isdigit (String b s) = Py.is_digit (Utf8.single b) && forallb Py.is_digit (Utf8.chars s).
Proof. intros H. unfold Py.isdigit. now rewrite (chars_plain b s H). Qed.

Lemma isdigit_chars s :
  Py.isdigit s = true <-> s <> "" /\ forallb Py.is_digit (Utf8.chars s) = true.
Proof.
  unfold Py.isdigit. rewrite andb_true_iff. destruct s; cbn [Py.truthy]; intuition congruence.
Qed.

(** ** Bytes and digits *)

Lemma is_digit_single b : Py.is_digit (Utf8.single b) = ascii_digit b.
Proof. destruct b as [[] [] [] [] [] [] [] []]; vm_compute; reflexivity. Qed.

Lemma is_space_single_digit b :
  ascii_digit b = true -> Py.is_space (Utf8.single b) = false.
Proof. destruct b as [[] [] [] [] [] [] [] []]; vm_compute; congruence. Qed.

Lemma ascii_digit_plain b : ascii_digit b = true -> Utf8.is_lead b = false.
Proof. destruct b as [[] [] [] [] [] [] [] []]; vm_compute; congruence. Qed.

Lemma ascii_digit_kept b : ascii_digit b = true -> kept b = true.
Proof. destruct b as [[] [] [] [] [] [] [] []]; vm_compute; congruence. Qed.

Lemma high_kept b : (128 <=? Utf8.code b)%N = true -> kept b = true.
Proof. destruct b as [[] [] [] [] [] [] [] []]; vm_compute; congruence. Qed.

Lemma cont_high b : Utf8.is_cont b = true -> (128 <=? Utf8.code b)%N = true.
Proof. unfold Utf8.is_cont. now intros [H _]%andb_true_iff. Qed.

Lemma all_bytes_app P a b :
  all_bytes P (a +:+ b) = all_bytes P a && all_bytes P b.
Proof.
  induction a as [|c a IH]; [reflexivity|].
  change (all_bytes P (String c (a +:+ b)) = all_bytes P (String c a) && all_bytes P b).
  cbn [all_bytes]. now rewrite IH, andb_assoc.
Qed.

Lemma all_bytes_join P l :
  forallb (all_bytes P) l = true -> all_bytes P (Utf8.join l) = true.
Proof.
  induction l as [|b l IH]; [reflexivity|].
  cbn [forallb Utf8.join]. intros [Hb Hl]%andb_true_iff.
  now rewrite all_bytes_app, Hb, IH.
Qed.

(** A character that encodes a code point is one byte below 128 or is
    made of bytes from 128 up. *)
Lemma cp_of_bytes blk n :
  Utf8.cp_of blk = Some n ->
  (exists b, blk = Utf8.single b /\ (Utf8.code b <? 128)%N = true /\ n = Utf8.code b) \/
  (all_bytes (fun c => (128 <=? Utf8.code c)%N) blk = true /\ (128 <= n)%N).
Proof.
  destruct blk as [|b [|c1 [|c2 [|c3 [|c4 r]]]]]; cbn [Utf8.cp_of]; try discriminate.
  - destruct (Utf8.code b <? 128)%N eqn:Hb; [|discriminate].
    intros [= <-]. left. now exists b.
  - destruct (_ && _) eqn:H; [|discriminate]. intros [= <-].
    repeat (apply andb_true_iff in H as [H ?]).
    right. split.
    + cbn [all_bytes]. rewrite (cont_high c1) by assumption.
      apply N.leb_le in H. replace (128 <=? Utf8.code b)%N with true; [reflexivity|].
      symmetry. apply N.leb_le. lia.
    + now apply N.leb_le.
  - destruct (_ && _) eqn:H; [|discriminate]. intros [= <-].
    repeat (apply andb_true_iff in H as [H ?]).
    right. split.
    + cbn [all_bytes]. rewrite (cont_high c1), (cont_high c2) by assumption.
      apply N.leb_le in H. replace (128 <=? Utf8.code b)%N with true; [reflexivity|].
      symmetry. apply N.leb_le. lia.
    + match goal with H : (2048 <=? _)%N = true |- _ => apply N.leb_le in H; lia end.
  - destruct (_ && _) eqn:H; [|discriminate]. intros [= <-].
    repeat (apply andb_true_iff in H as [H ?]).
    right. split.
    + cbn [all_bytes]. rewrite (cont_high c1), (cont_high c2), (cont_high c3) by assumption.
      apply N.leb_le in H. replace (128 <=? Utf8.code b)%N with true; [reflexivity|].
      symmetry. apply N.leb_le. lia.
    + match goal with H : (65536 <=? _)%N = true |- _ => apply N.leb_le in H; lia end.
Qed.

Lemma all_bytes_impl (P Q : ascii -> bool) s :
  (forall c, P c = true -> Q c = true) -> all_bytes P s = true -> all_bytes Q s = true.
Proof.
  intros H. induction s as [|c s IH]; [reflexivity|].
  cbn [all_bytes]. intros [Hc Hs]%andb_true_iff. now rewrite (H c Hc), IH.
Qed.

(** A digit, of any script, holds none of the punctuation marks. *)
Lemma digit_block_kept blk : Py.is_digit blk = true -> all_bytes kept blk = true.
Proof.
  unfold Py.is_digit. destruct (Utf8.cp_of blk) as [n|] eqn:Hn; [|discriminate].
  intros Hd. destruct (cp_of_bytes blk n Hn) as [(b & -> & Hb & ->)|[Hhigh _]].
  - cbn [all_bytes Utf8.single]. rewrite andb_true_r. apply ascii_digit_kept.
    rewrite <- is_digit_single. unfold Py.is_digit. cbn [Utf8.cp_of Utf8.single].
    now rewrite Hb.
  - revert Hhigh. apply all_bytes_impl. apply high_kept.
Qed.

Lemma strip_punctuation_kept s : all_bytes kept s = true -> strip_punctuation s = s.
Proof.
  induction s as [|c s IH]; [reflexivity|].
  cbn [all_bytes strip_punctuation]. intros [Hc Hs]%andb_true_iff.
  unfold kept in Hc. apply negb_true_iff in Hc. now rewrite Hc, IH.
Qed.

Lemma forallb_impl {A : Type} (P Q : A -> bool) l :
  (forall x, P x = true -> Q x = true) -> forallb P l = true -> forallb Q l = true.
Proof.
  intros H. induction l as [|x l IH]; [reflexivity|].
  cbn [forallb]. intros [Hx Hl]%andb_true_iff. now rewrite (H x Hx), IH.
Qed.

Lemma digits_kept d : Py.isdigit d = true -> all_bytes kept d = true.
Proof.
  intros [_ H]%isdigit_chars. rewrite <- (join_chars d).
  apply all_bytes_join. revert H. apply forallb_impl. apply digit_block_kept.
Qed.

(** No code point is both a digit and white space. *)
Lemma ranges_apart (R1 R2 : list (N * N)) n :
  forallb (fun r1 => forallb (fun r2 => (snd r1 <? fst r2)%N || (snd r2 <? fst r1)%N) R2) R1
    = true ->
  Unicode.in_ranges n R1 = true -> Unicode.in_ranges n R2 = false.
Proof.
  intros Hsep H1. unfold Unicode.in_ranges in *.
  apply existsb_exists in H1 as (r1 & Hin1 & [Ha Hb]%andb_true_iff).
  rewrite forallb_forall in Hsep. specialize (Hsep r1 Hin1).
  rewrite forallb_forall in Hsep.
  destruct (existsb _ R2) eqn:H2; [|reflexivity].
  apply existsb_exists in H2 as (r2 & Hin2 & [Hc Hd]%andb_true_iff).
  specialize (Hsep r2 Hin2). apply orb_true_iff in Hsep.
  apply N.leb_le in Ha, Hb, Hc, Hd.
  destruct Hsep as [H|H]; apply N.ltb_lt in H; lia.
Qed.

Lemma digit_not_space blk : Py.is_digit blk = true -> Py.is_space blk = false.
Proof.
  unfold Py.is_digit, Py.is_space. destruct (Utf8.cp_of blk); [|reflexivity].
  apply ranges_apart. vm_compute. reflexivity.
Qed.

(** ** The normaliser, step by step *)

Lemma remove_all_punctuation s :
  fold_left (fun s ch => Py.remove ch s) punctuation s = strip_punctuation s.
Proof.
  unfold punctuation; cbn [fold_left].
  induction s as [|c s IH]; [reflexivity|].
  cbn [strip_punctuation existsb punctuation].
  rewrite <- IH.
  cbn [Py.remove].
  destruct (Ascii.eqb_spec c " "); [reflexivity|].
  cbn [Py.remove orb].
  destruct (Ascii.eqb_spec c "-"); [reflexivity|].
  cbn [Py.remove orb].
  destruct (Ascii.eqb_spec c "("); [reflexivity|].
  cbn [Py.remove orb].
  destruct (Ascii.eqb_spec c ")"); [reflexivity|].
  cbn [Py.remove orb].
  destruct (Ascii.eqb_spec c "."); reflexivity.
Qed.

Lemma startswith_plus s :
  Py.startswith s "+" = bool_decide (is_Some (after_plus s)).
Proof.
  destruct s as [|c d]; [reflexivity|].
  unfold Py.startswith, after_plus; cbn [String.prefix].
  destruct (ascii_dec "+" c) as [<-|Hne].
  - destruct d; reflexivity.
  - destruct (Ascii.eqb_spec c "+"); [congruence|reflexivity].
Qed.

Lemma startswith_zero s :
  Py.startswith s "0" = bool_decide (is_Some (after_zero s)).
Proof.
  destruct s as [|c d]; [reflexivity|].
  unfold Py.startswith, after_zero; cbn [String.prefix].
  destruct (ascii_dec "0" c) as [<-|Hne].
  - destruct d; reflexivity.
  - destruct (Ascii.eqb_spec c "0"); [congruence|reflexivity].
Qed.

Lemma after_plus_eq s d : after_plus s = Some d -> s = String "+" d.
Proof.
  destruct s as [|c s]; [discriminate|]. cbn [after_plus].
  destruct (Ascii.eqb_spec c "+"); [|discriminate].
  intros [= ->]. now subst.
Qed.

Lemma after_zero_eq s d : after_zero s = Some d -> s = String "0" d.
Proof.
  destruct s as [|c s]; [discriminate|]. cbn [after_zero].
  destruct (Ascii.eqb_spec c "0"); [|discriminate].
  intros [= ->]. now subst.
Qed.

Lemma after_plus_tail s d : after_plus s = Some d -> Py.tail s = d.
Proof. intros ->%after_plus_eq. now apply tail_plain. Qed.

Lemma after_zero_tail s d : after_zero s = Some d -> Py.tail s = d.
Proof. intros ->%after_zero_eq. now apply tail_plain. Qed.

Lemma len_zero s : Py.len s = 0 <-> s = "".
Proof. unfold Py.len. rewrite length_zero_iff_nil. apply chars_nil. Qed.

(** The digits after a leading zero. *)
Lemma isdigit_after_zero national :
  Py.isdigit (String "0" national) = true -> Py.len national <> 0 ->
  Py.isdigit national = true.
Proof.
  rewrite isdigit_plain by reflexivity.
  intros [_ H]%andb_true_iff Hl. apply isdigit_chars. split; [|exact H].
  intros ->. now apply Hl.
Qed.

(** Step 4 of the function, on the string left after steps 2 and 3. *)
Lemma step4_agree cc digits (fall : option string) :
  Py.isdigit digits = true ->
  (if (Py.len digits =? 10)%nat then Some ("+" +:+ cc +:+ digits)
   else if (Py.len digits =? 12)%nat && Py.startswith digits cc
        then Some ("+" +:+ digits)
   else if (Py.len digits =? 11)%nat && Py.startswith digits "0"
             && Py.isdigit (Py.tail digits)
             && (Py.len (Py.tail digits) =? 10)%nat
        then Some ("+" +:+ cc +:+ Py.tail digits)
   else fall) =
  match Py.len digits with
  | 10 => Some ("+" +:+ cc +:+ digits)
  | 12 => if String.prefix cc digits then Some ("+" +:+ digits) else fall
  | 11 => match after_zero digits with
          | Some national => Some ("+" +:+ cc +:+ national)
          | None => fall
          end
  | _ => fall
  end.
Proof.
  intros Hd.
  destruct (Nat.eq_dec (Py.len digits) 11) as [H11|Hne].
  - rewrite H11. cbn [Nat.eqb andb].
    rewrite startswith_zero.
    destruct (after_zero digits) as [national|] eqn:Hz.
    + rewrite (bool_decide_eq_true_2 _ (mk_is_Some _ _ eq_refl)).
      rewrite (after_zero_tail _ _ Hz).
      apply after_zero_eq in Hz. subst digits.
      rewrite len_plain in H11 by reflexivity. injection H11 as H10.
      rewrite (isdigit_after_zero national Hd) by (rewrite H10; discriminate).
      now rewrite H10.
    + rewrite bool_decide_eq_false_2; [reflexivity|]. intros [? ?]; discriminate.
  - remember (Py.len digits) as n eqn:Hn. clear Hn.
    unfold Py.startswith.
    do 13 (destruct n as [|n]; [try reflexivity; try congruence|]).
    reflexivity.
Qed.

Lemma clean_and_e164_refines raw cc : clean_and_e164 raw cc = normal_form raw cc.
Proof.
  destruct raw as [[|c r]|]; try reflexivity.
  unfold clean_and_e164, normal_form. cbn [Py.truthy negb].
  change [" "%char; "-"%char; "("%char; ")"%char; "."%char] with punctuation.
  rewrite remove_all_punctuation.
  generalize (strip_punctuation (Py.strip (String c r))). clear c r. intros s.
  cbv zeta. rewrite startswith_plus.
  destruct (after_plus s) as [d|] eqn:Hp.
  - rewrite (bool_decide_eq_true_2 _ (mk_is_Some _ _ eq_refl)).
    rewrite (after_plus_tail _ _ Hp). cbn [default from_option id andb].
    destruct (Py.isdigit d) eqn:Hd; [|reflexivity].
    now apply step4_agree.
  - rewrite bool_decide_eq_false_2 by (intros [? ?]; discriminate).
    cbn [default from_option id andb].
    destruct (Py.isdigit s) eqn:Hd; [|reflexivity].
    now apply step4_agree.
Qed.

(** ** Digits 0 to 9 *)

Lemma ascii_digits_chars d :
  all_ascii_digits d = true ->
  Utf8.chars d = map Utf8.single (list_ascii_of_string d).
Proof.
  induction d as [|c d IH]; [reflexivity|].
  cbn [all_ascii_digits list_ascii_of_string map].
  intros [Hc Hd]%andb_true_iff.
  rewrite chars_plain by now apply ascii_digit_plain.
  now rewrite IH.
Qed.

Lemma ascii_digits_len d : all_ascii_digits d = true -> Py.len d = String.length d.
Proof.
  intros H. unfold Py.len. rewrite (ascii_digits_chars d H), length_map.
  clear H. induction d as [|c d IH]; [reflexivity|].
  cbn [list_ascii_of_string length String.length]. now rewrite IH.
Qed.

Lemma ascii_digits_isdigit d : ascii_digits d = true -> Py.isdigit d = true.
Proof.
  unfold ascii_digits, Py.isdigit. intros [Hne H]%andb_true_iff.
  rewrite Hne, (ascii_digits_chars d H). cbn [andb]. clear Hne.
  induction d as [|c d IH]; [reflexivity|].
  cbn [all_ascii_digits] in H. apply andb_true_iff in H as [Hc Hd].
  cbn [list_ascii_of_string map forallb].
  now rewrite is_digit_single, Hc, IH.
Qed.

Lemma all_ascii_digits_app a b :
  all_ascii_digits (a +:+ b) = all_ascii_digits a && all_ascii_digits b.
Proof.
  induction a as [|c a IH]; [reflexivity|].
  change (all_ascii_digits (String c (a +:+ b)) =
          all_ascii_digits (String c a) && all_ascii_digits b).
  cbn [all_ascii_digits]. now rewrite IH, andb_assoc.
Qed.

Lemma isdigit_truthy d : Py.isdigit d = true -> Py.truthy d = true.
Proof. unfold Py.isdigit. now intros [H _]%andb_true_iff. Qed.

(** ** Strings of digits go through the cleaning unchanged *)

Lemma lstrip_id l :
  forallb (fun b => negb (Py.is_space b)) l = true -> Py.lstrip_chars l = l.
Proof.
  destruct l as [|b l]; [reflexivity|]. cbn [forallb Py.lstrip_chars].
  intros [Hb _]%andb_true_iff. apply negb_true_iff in Hb. now rewrite Hb.
Qed.

Lemma rstrip_id l :
  forallb (fun b => negb (Py.is_space b)) l = true -> Py.rstrip_chars l = l.
Proof.
  induction l as [|b l IH]; [reflexivity|]. cbn [forallb Py.rstrip_chars].
  intros [Hb Hl]%andb_true_iff. rewrite (IH Hl).
  apply negb_true_iff in Hb. rewrite Hb. now destruct l.
Qed.

Lemma strip_id s :
  forallb (fun b => negb (Py.is_space b)) (Utf8.chars s) = true -> Py.strip s = s.
Proof.
  intros H. unfold Py.strip. rewrite (lstrip_id _ H), (rstrip_id _ H).
  apply join_chars.
Qed.

Lemma digits_no_space d :
  Py.isdigit d = true ->
  forallb (fun b => negb (Py.is_space b)) (Utf8.chars d) = true.
Proof.
  intros [_ H]%isdigit_chars. revert H. apply forallb_impl.
  intros b Hb. now rewrite (digit_not_space b Hb).
Qed.

Lemma strip_digits d : Py.isdigit d = true -> Py.strip d = d.
Proof. intros H. apply strip_id. now apply digits_no_space. Qed.

Lemma strip_punctuation_digits d :
  Py.isdigit d = true -> strip_punctuation d = d.
Proof. intros H. apply strip_punctuation_kept. now apply digits_kept. Qed.

Lemma strip_plus_digits d :
  Py.isdigit d = true -> strip_punctuation (Py.strip ("+" +:+ d)) = "+" +:+ d.
Proof.
  intros Hd. change ("+" +:+ d) with (String "+" d).
  rewrite strip_id.
  - apply strip_punctuation_kept. cbn [all_bytes].
    now rewrite (digits_kept d Hd).
  - rewrite chars_plain by reflexivity. cbn [forallb].
    now rewrite (digits_no_space d Hd).
Qed.

Lemma digits_no_plus d : Py.isdigit d = true -> after_plus d = None.
Proof.
  destruct d as [|c d]; [reflexivity|]. cbn [after_plus].
  destruct (Ascii.eqb_spec c "+") as [->|]; [|reflexivity].
  rewrite isdigit_plain by reflexivity. discriminate.
Qed.

Lemma isdigit_country d :
  Py.isdigit d = true -> Py.isdigit (DEFAULT_COUNTRY +:+ d) = true.
Proof.
  intros [_ H]%isdigit_chars.
  change (DEFAULT_COUNTRY +:+ d) with (String "9" (String "1" d)).
  rewrite isdigit_plain, chars_plain by reflexivity. cbn [forallb].
  now rewrite H.
Qed.

Lemma len_country d : Py.len (DEFAULT_COUNTRY +:+ d) = S (S (Py.len d)).
Proof.
  change (DEFAULT_COUNTRY +:+ d) with (String "9" (String "1" d)).
  now rewrite !len_plain by reflexivity.
Qed.

Lemma isdigit_zero d : Py.isdigit d = true -> Py.isdigit ("0" +:+ d) = true.
Proof.
  intros [_ H]%isdigit_chars. change ("0" +:+ d) with (String "0" d).
  rewrite isdigit_plain by reflexivity. now rewrite H.
Qed.

(** On a bare string of digits the function goes straight to step 4,
    and steps 5 and 6 give [None]. *)
Lemma clean_and_e164_digits d :
  Py.isdigit d = true ->
  clean_and_e164 (Some d) DEFAULT_COUNTRY =
  match Py.len d with
  | 10 => Some ("+" +:+ DEFAULT_COUNTRY +:+ d)
  | 12 => if String.prefix DEFAULT_COUNTRY d then Some ("+" +:+ d) else None
  | 11 => match after_zero d with
          | Some national => Some ("+" +:+ DEFAULT_COUNTRY +:+ national)
          | None => None
          end
  | _ => None
  end.
Proof.
  intros Hd. rewrite clean_and_e164_refines.
  destruct d as [|c d]; [discriminate|].
  unfold normal_form.
  rewrite (strip_digits _ Hd), (strip_punctuation_digits _ Hd).
  cbv zeta. rewrite !(digits_no_plus _ Hd).
  cbn [default from_option id]. now rewrite Hd.
Qed.

(** A plus sign followed by digits: step 4 where it applies, and the
    string itself where it does not. *)
Lemma clean_and_e164_plus_digits d :
  Py.isdigit d = true ->
  clean_and_e164 (Some ("+" +:+ d)) DEFAULT_COUNTRY =
  match Py.len d with
  | 10 => Some ("+" +:+ DEFAULT_COUNTRY +:+ d)
  | 12 => Some ("+" +:+ d)
  | 11 => match after_zero d with
          | Some national => Some ("+" +:+ DEFAULT_COUNTRY +:+ national)
          | None => Some ("+" +:+ d)
          end
  | _ => Some ("+" +:+ d)
  end.
Proof.
  intros Hd. rewrite clean_and_e164_refines.
  change (normal_form (Some ("+" +:+ d)) DEFAULT_COUNTRY)
    with (normal_form (Some (String "+" d)) DEFAULT_COUNTRY).
  unfold normal_form. change (String "+" d) with ("+" +:+ d).
  rewrite (strip_plus_digits d Hd).
  change (after_plus ("+" +:+ d)) with (Some d).
  cbn [default from_option id]. cbv zeta. rewrite Hd.
  remember (Py.len d) as n eqn:Hn. clear Hn.
  do 13 (destruct n as [|n]; [try reflexivity|]); [|reflexivity].
  now destruct (String.prefix DEFAULT_COUNTRY d).
Qed.

(** ** What the normaliser returns *)

(** What a result looks like: a plus sign and digits, which are never
    ten, and eleven of them never start with a zero. *)
Lemma step4_result digits (fall : option string) e :
  Py.isdigit digits = true ->
  (fall = None \/ fall = Some ("+" +:+ digits)) ->
  match Py.len digits with
  | 10 => Some ("+" +:+ DEFAULT_COUNTRY +:+ digits)
  | 12 => if String.prefix DEFAULT_COUNTRY digits then Some ("+" +:+ digits) else fall
  | 11 => match after_zero digits with
          | Some national => Some ("+" +:+ DEFAULT_COUNTRY +:+ national)
          | None => fall
          end
  | _ => fall
  end = Some e ->
  exists d, e = "+" +:+ d /\ Py.isdigit d = true /\
            Py.len d <> 10 /\
            (Py.len d = 11 -> after_zero d = None).
Proof.
  intros Hd Hfall.
  assert (Hown : forall n, Py.len digits = n -> n <> 10 ->
            (n = 11 -> after_zero digits = None) ->
            fall = Some e ->
            exists d, e = "+" +:+ d /\ Py.isdigit d = true /\
                      Py.len d <> 10 /\
                      (Py.len d = 11 -> after_zero d = None)).
  { intros n Hn H10 H11 He. destruct Hfall as [Hf|Hf]; [congruence|].
    exists digits. rewrite Hf in He. injection He as <-.
    split; [reflexivity|]. split; [exact Hd|]. split; [congruence|].
    intros Hl. apply H11. congruence. }
  destruct (Nat.eq_dec (Py.len digits) 10) as [H10|H10].
  { rewrite H10. intros [= <-]. exists (DEFAULT_COUNTRY +:+ digits).
    split; [reflexivity|]. split; [now apply isdigit_country|].
    rewrite len_country, H10. split; discriminate. }
  destruct (Nat.eq_dec (Py.len digits) 12) as [H12|H12].
  { rewrite H12. destruct (String.prefix _ _).
    - intros [= <-]. exists digits. split; [reflexivity|].
      split; [exact Hd|]. rewrite H12. split; discriminate.
    - apply (Hown 12 H12); [discriminate|discriminate]. }
  destruct (Nat.eq_dec (Py.len digits) 11) as [H11|H11].
  { rewrite H11. destruct (after_zero digits) as [national|] eqn:Hz.
    - intros [= <-]. exists (DEFAULT_COUNTRY +:+ national).
      split; [reflexivity|].
      apply after_zero_eq in Hz. subst digits.
      rewrite len_plain in H11 by reflexivity. injection H11 as H11.
      split; [apply isdigit_country, (isdigit_after_zero national Hd);
              rewrite H11; discriminate|].
      rewrite len_country, H11. split; discriminate.
    - apply (Hown 11 H11); [discriminate|reflexivity]. }
  intros He. apply (Hown _ eq_refl H10); [intros; congruence|].
  remember (Py.len digits) as n eqn:Hn. clear Hn Hown.
  do 13 (destruct n as [|n]; [try exact He; congruence|]).
  exact He.
Qed.

Lemma clean_and_e164_result raw e :
  clean_and_e164 raw DEFAULT_COUNTRY = Some e ->
  exists d, e = "+" +:+ d /\ Py.isdigit d = true /\
            Py.len d <> 10 /\
            (Py.len d = 11 -> after_zero d = None).
Proof.
  rewrite clean_and_e164_refines.
  destruct raw as [[|c r]|]; try discriminate.
  unfold normal_form.
  generalize (strip_punctuation (Py.strip (String c r))). clear c r. intros s.
  cbv zeta.
  destruct (after_plus s) as [d|] eqn:Hp; cbn [default from_option id].
  - apply after_plus_eq in Hp. subst s.
    destruct (Py.isdigit d) eqn:Hd; [|discriminate].
    apply step4_result; [exact Hd|now right].
  - destruct (Py.isdigit s) eqn:Hd; [|discriminate].
    apply step4_result; [exact Hd|now left].
Qed.

Lemma clean_and_e164_shape raw e :
  clean_and_e164 raw DEFAULT_COUNTRY = Some e -> plus_digits e.
Proof. intros (d & -> & Hd & _)%clean_and_e164_result. now exists d. Qed.

Lemma plus_digits_truthy e : plus_digits e -> Py.truthy e = true.
Proof. intros [d [-> _]]. reflexivity. Qed.

Lemma normalised_truthy e : normalised e -> Py.truthy e = true.
Proof. intros [H _]. now apply plus_digits_truthy. Qed.

(** The cleaning loop keeps exactly the numbers that normalise. *)
Lemma clean_phones_omap l :
  clean_phones l = omap (fun p => clean_and_e164 p DEFAULT_COUNTRY) l.
Proof.
  induction l as [|p l IH]; [reflexivity|].
  cbn [clean_phones omap list_omap].
  destruct (clean_and_e164 p DEFAULT_COUNTRY) as [e|] eqn:Hp; [|exact IH].
  rewrite (plus_digits_truthy e (clean_and_e164_shape _ _ Hp)). now rewrite IH.
Qed.

Lemma clean_phones_shape l : Forall normalised (clean_phones l).
Proof.
  induction l as [|p l IH]; [constructor|].
  cbn [clean_phones].
  destruct (clean_and_e164 p DEFAULT_COUNTRY) as [e|] eqn:Hp; [|exact IH].
  destruct (Py.truthy e); [|exact IH].
  constructor; [|exact IH].
  split; [now apply clean_and_e164_shape with p|now exists p].
Qed.

Lemma clean_phones_nil l :
  clean_phones l = [] <->
  Forall (fun p => clean_and_e164 p DEFAULT_COUNTRY = None) l.
Proof.
  rewrite clean_phones_omap.
  induction l as [|p l IH]; [split; [constructor|reflexivity]|].
  cbn [omap list_omap].
  destruct (clean_and_e164 p DEFAULT_COUNTRY) as [e|] eqn:Hp.
  - split; [discriminate|]. intros H. inversion H; congruence.
  - rewrite IH. split; [now constructor|]. intros H. now inversion H.
Qed.

(** ** ASCII text *)

Lemma low_plain c : (Utf8.code c <? 128)%N = true -> Utf8.is_lead c = false.
Proof.
  unfold Utf8.is_lead. intros H%N.ltb_lt. apply N.leb_gt. lia.
Qed.

Lemma ascii_chars s :
  ascii_only s = true -> Utf8.chars s = map Utf8.single (list_ascii_of_string s).
Proof.
  unfold ascii_only. induction s as [|c s IH]; [reflexivity|].
  cbn [all_bytes list_ascii_of_string map]. intros [Hc Hs]%andb_true_iff.
  rewrite chars_plain by now apply low_plain. now rewrite IH.
Qed.

Lemma ascii_len s : ascii_only s = true -> Py.len s = String.length s.
Proof.
  intros H. unfold Py.len. rewrite (ascii_chars s H), length_map.
  clear H. induction s as [|c s IH]; [reflexivity|].
  cbn [list_ascii_of_string length String.length]. now rewrite IH.
Qed.

Lemma ascii_isdigit s : ascii_only s = true -> Py.isdigit s = ascii_digits s.
Proof.
  intros H. unfold Py.isdigit, ascii_digits. rewrite (ascii_chars s H).
  f_equal. clear H. induction s as [|c s IH]; [reflexivity|].
  cbn [list_ascii_of_string map forallb all_ascii_digits].
  now rewrite is_digit_single, IH.
Qed.

Lemma lstrip_forallb (Q : string -> bool) l :
  forallb Q l = true -> forallb Q (Py.lstrip_chars l) = true.
Proof.
  induction l as [|b l IH]; [reflexivity|]. cbn [Py.lstrip_chars].
  destruct (Py.is_space b); [|trivial]. cbn [forallb].
  intros [_ H]%andb_true_iff. now apply IH.
Qed.

Lemma rstrip_forallb (Q : string -> bool) l :
  forallb Q l = true -> forallb Q (Py.rstrip_chars l) = true.
Proof.
  induction l as [|b l IH]; [reflexivity|]. cbn [Py.rstrip_chars forallb].
  intros [Hb Hl]%andb_true_iff. specialize (IH Hl).
  destruct (Py.rstrip_chars l) as [|x r].
  - destruct (Py.is_space b); [reflexivity|]. cbn [forallb]. now rewrite Hb.
  - cbn [forallb] in *. now rewrite Hb, IH.
Qed.

Lemma ascii_strip s : ascii_only s = true -> ascii_only (Py.strip s) = true.
Proof.
  intros H. unfold Py.strip, ascii_only.
  apply all_bytes_join, rstrip_forallb, lstrip_forallb.
  rewrite (ascii_chars s H). unfold ascii_only in H. clear -H.
  induction s as [|c s IH]; [reflexivity|].
  cbn [all_bytes] in H. apply andb_true_iff in H as [Hc Hs].
  cbn [list_ascii_of_string map forallb Utf8.single all_bytes].
  now rewrite Hc, IH.
Qed.

Lemma strip_punctuation_all_bytes P s :
  all_bytes P s = true -> all_bytes P (strip_punctuation s) = true.
Proof.
  induction s as [|c s IH]; [reflexivity|].
  cbn [all_bytes strip_punctuation]. intros [Hc Hs]%andb_true_iff.
  destruct (existsb _ _); [now apply IH|].
  cbn [all_bytes]. now rewrite Hc, IH.
Qed.

(** ** The function and section 4.1 *)

(** On ASCII text [str.isdigit] and [len] are the specification's
    "all digits" and "length". *)
Lemma normal_form_ascii raw :
  ascii_only raw = true ->
  normal_form (Some raw) DEFAULT_COUNTRY = normalize (Some raw) DEFAULT_COUNTRY.
Proof.
  intros H. destruct raw as [|c r]; [reflexivity|].
  unfold normal_form, normalize.
  pose proof (strip_punctuation_all_bytes _ _ (ascii_strip _ H)) as Hs.
  revert Hs. generalize (strip_punctuation (Py.strip (String c r))).
  clear c r H. intros s Hs. cbv zeta.
  destruct (after_plus s) as [d|] eqn:Hp; cbn [default from_option id].
  - apply after_plus_eq in Hp. subst s.
    assert (Hd : ascii_only d = true).
    { unfold ascii_only in *. cbn [all_bytes] in Hs.
      now apply andb_true_iff in Hs as [_ Hs]. }
    now rewrite (ascii_isdigit d Hd), (ascii_len d Hd).
  - now rewrite (ascii_isdigit s Hs), (ascii_len s Hs).
Qed.

Lemma e164_shaped_inv d : e164_shaped ("+" +:+ d) -> ascii_digits d = true.
Proof.
  intros (d' & Heq & H). change (String "+" d = String "+" d') in Heq.
  injection Heq as ->. exact H.
Qed.

(** Where [str.isdigit] accepts a string that is not all digits 0 to 9,
    whatever step 4 or step 5 returns is not E.164. *)
Lemma step4_foreign digits (fall : option string) e :
  Py.isdigit digits = true -> ascii_digits digits = false ->
  (fall = None \/ fall = Some ("+" +:+ digits)) ->
  match Py.len digits with
  | 10 => Some ("+" +:+ DEFAULT_COUNTRY +:+ digits)
  | 12 => if String.prefix DEFAULT_COUNTRY digits then Some ("+" +:+ digits) else fall
  | 11 => match after_zero digits with
          | Some national => Some ("+" +:+ DEFAULT_COUNTRY +:+ national)
          | None => fall
          end
  | _ => fall
  end = Some e ->
  ~ e164_shaped e.
Proof.
  intros Hd Hna Hfall.
  assert (Hall : all_ascii_digits digits = false).
  { unfold ascii_digits in Hna. now rewrite (isdigit_truthy _ Hd) in Hna. }
  assert (Hown : ~ e164_shaped ("+" +:+ digits)).
  { intros H%e164_shaped_inv. congruence. }
  assert (Hcc : ~ e164_shaped ("+" +:+ DEFAULT_COUNTRY +:+ digits)).
  { intros [_ H]%e164_shaped_inv%andb_true_iff.
    rewrite all_ascii_digits_app in H. apply andb_true_iff in H as [_ H].
    congruence. }
  assert (Hf : fall = Some e -> ~ e164_shaped e).
  { destruct Hfall as [->| ->]; [discriminate|]. now intros [= <-]. }
  destruct (Nat.eq_dec (Py.len digits) 10) as [->|H10];
    [now intros [= <-]|].
  destruct (Nat.eq_dec (Py.len digits) 12) as [->|H12].
  { destruct (String.prefix _ _); [now intros [= <-]|exact Hf]. }
  destruct (Nat.eq_dec (Py.len digits) 11) as [->|H11].
  { destruct (after_zero digits) as [national|] eqn:Hz; [|exact Hf].
    intros [= <-] [_ H]%e164_shaped_inv%andb_true_iff.
    apply after_zero_eq in Hz. subst digits.
    rewrite all_ascii_digits_app in H. apply andb_true_iff in H as [_ H].
    cbn [all_ascii_digits] in Hall. rewrite H in Hall. discriminate. }
  remember (Py.len digits) as n eqn:Hn. clear Hn.
  do 13 (destruct n as [|n]; [try exact Hf; congruence|]).
  exact Hf.
Qed.

(** The function against section 4.1 on any input: the two agree, or
    section 4.1 says Invalid and the function returns a string that is
    not E.164. *)
Lemma normal_form_normalize raw :
  normal_form raw DEFAULT_COUNTRY = normalize raw DEFAULT_COUNTRY \/
  (normalize raw DEFAULT_COUNTRY = None /\
   exists e, normal_form raw DEFAULT_COUNTRY = Some e /\ ~ e164_shaped e).
Proof.
  destruct raw as [[|c r]|]; try (left; reflexivity).
  unfold normal_form, normalize.
  generalize (strip_punctuation (Py.strip (String c r))). clear c r. intros s.
  cbv zeta.
  set (digits := default s (after_plus s)).
  assert (Hfall : match after_plus s with
                  | Some d => if Py.isdigit d then Some s else None
                  | None => None
                  end = None \/
                  match after_plus s with
                  | Some d => if Py.isdigit d then Some s else None
                  | None => None
                  end = Some ("+" +:+ digits)).
  { subst digits. destruct (after_plus s) as [d|] eqn:Hp; [|now left].
    destruct (Py.isdigit d); [right|now left].
    apply after_plus_eq in Hp. now subst s. }
  assert (Hsame : match after_plus s with
                  | Some d => if ascii_digits d then Some s else None
                  | None => None
                  end =
                  if ascii_digits digits
                  then match after_plus s with
                       | Some d => if Py.isdigit d then Some s else None
                       | None => None
                       end
                  else None).
  { subst digits. destruct (after_plus s) as [d|]; cbn [default from_option id].
    - destruct (ascii_digits d) eqn:Hd; [|reflexivity].
      now rewrite (ascii_digits_isdigit d Hd).
    - now destruct (ascii_digits s). }
  rewrite Hsame. clear Hsame.
  destruct (ascii_digits digits) eqn:Ha.
  - left. rewrite (ascii_digits_isdigit _ Ha).
    rewrite ascii_digits_len; [reflexivity|].
    unfold ascii_digits in Ha. now apply andb_true_iff in Ha as [_ Ha].
  - destruct (Py.isdigit digits) eqn:Hd.
    + match goal with |- ?x = None \/ _ => destruct x as [e|] eqn:He end;
        [right|now left].
      split; [reflexivity|]. exists e. split; [reflexivity|].
      exact (step4_foreign digits _ e Hd Ha Hfall He).
    + destruct Hfall as [Hf|Hf]; [left; exact Hf|].
      subst digits. destruct (after_plus s) as [d|]; [|discriminate].
      cbn [default from_option id] in Hd. rewrite Hd in Hf. discriminate.
Qed.

(** C2 fails on the code.  Step 4 tests the string with [str.isdigit],
    which accepts the digits of every script: ten Arabic-Indic digits
    pass it and come back behind "+91", a string that is not E.164,
    where section 4.1 says Invalid.  That is the only kind of difference:
    on every input the function returns what section 4.1 describes, or
    section 4.1 says Invalid and the function returns a string that is
    not E.164; on ASCII text the two agree everywhere.  So a bare string
    of ten digits 0 to 9 gets "+91" prepended, strings of eleven or
    twelve digits that fit neither the trunk-prefix nor the country-code
    case are Invalid, and the six inputs of the specification's examples
    give the results stated there. *)
Theorem clean_and_e164_accepts_foreign_digits :
  clean_and_e164 (Some "٩٨٧٦٥٤٣٢١٠") DEFAULT_COUNTRY = Some "+91٩٨٧٦٥٤٣٢١٠" /\
  normalize (Some "٩٨٧٦٥٤٣٢١٠") DEFAULT_COUNTRY = None /\
  ~ e164_shaped "+91٩٨٧٦٥٤٣٢١٠" /\
  (forall raw,
     clean_and_e164 raw DEFAULT_COUNTRY = normalize raw DEFAULT_COUNTRY \/
     (normalize raw DEFAULT_COUNTRY = None /\
      exists e, clean_and_e164 raw DEFAULT_COUNTRY = Some e /\ ~ e164_shaped e)) /\
  (forall raw, ascii_only raw = true ->
     clean_and_e164 (Some raw) DEFAULT_COUNTRY = normalize (Some raw) DEFAULT_COUNTRY) /\
  (forall d, ascii_digits d = true -> String.length d = 10 ->
     clean_and_e164 (Some d) DEFAULT_COUNTRY = Some ("+91" +:+ d)) /\
  (forall d, ascii_digits d = true -> String.length d = 11 ->
     Py.startswith d "0" = false ->
     clean_and_e164 (Some d) DEFAULT_COUNTRY = None) /\
  (forall d, ascii_digits d = true -> String.length d = 12 ->
     Py.startswith d "91" = false ->
     clean_and_e164 (Some d) DEFAULT_COUNTRY = None) /\
  clean_and_e164 (Some "9876543210") DEFAULT_COUNTRY = Some "+919876543210" /\
  clean_and_e164 (Some "919876543210") DEFAULT_COUNTRY = Some "+919876543210" /\
  clean_and_e164 (Some "09876543210") DEFAULT_COUNTRY = Some "+919876543210" /\
  clean_and_e164 (Some "+919876543210") DEFAULT_COUNTRY = Some "+919876543210" /\
  clean_and_e164 (Some "12345") DEFAULT_COUNTRY = None /\
  clean_and_e164 (Some "") DEFAULT_COUNTRY = None /\
  clean_and_e164 None DEFAULT_COUNTRY = None.
Proof.
  assert (Hlen : forall d, ascii_digits d = true ->
            Py.isdigit d = true /\ Py.len d = String.length d).
  { intros d Hd. split; [now apply ascii_digits_isdigit|].
    apply ascii_digits_len. unfold ascii_digits in Hd.
    now apply andb_true_iff in Hd as [_ Hd]. }
  split; [vm_compute; reflexivity|]. split; [vm_compute; reflexivity|].
  split.
  { change "+91٩٨٧٦٥٤٣٢١٠" with ("+" +:+ "91٩٨٧٦٥٤٣٢١٠").
    intros H%e164_shaped_inv. vm_compute in H. discriminate. }
  split.
  { intros raw. rewrite clean_and_e164_refines. apply normal_form_normalize. }
  split.
  { intros raw H. rewrite clean_and_e164_refines. now apply normal_form_ascii. }
  split; [|split; [|split]].
  - intros d [Hd Hn]%Hlen Hl. rewrite (clean_and_e164_digits d Hd), Hn, Hl.
    reflexivity.
  - intros d [Hd Hn]%Hlen Hl Hz. rewrite (clean_and_e164_digits d Hd), Hn, Hl.
    rewrite startswith_zero in Hz.
    destruct (after_zero d); [|reflexivity].
    now rewrite bool_decide_eq_true_2 in Hz.
  - intros d [Hd Hn]%Hlen Hl Hp. rewrite (clean_and_e164_digits d Hd), Hn, Hl.
    unfold Py.startswith in Hp. unfold DEFAULT_COUNTRY. now rewrite Hp.
  - repeat split; vm_compute; reflexivity.
Qed.


(** ** How a string is cut into characters *)

Lemma cont_plain c : Utf8.is_cont c = true -> Utf8.is_lead c = false.
Proof.
  unfold Utf8.is_cont, Utf8.is_lead. intros [_ H]%andb_true_iff.
  apply N.ltb_lt in H. apply N.leb_gt. lia.
Qed.

Lemma stray_single blk :
  Utf8.stray blk = true -> exists c, blk = Utf8.single c /\ Utf8.is_cont c = true.
Proof.
  destruct blk as [|c [|]]; try discriminate. intros H. now exists c.
Qed.

Lemma span_stray_conts l :
  all_bytes Utf8.is_cont (fst (Utf8.span_stray l)) = true.
Proof.
  induction l as [|blk l IH]; [reflexivity|]. cbn [Utf8.span_stray].
  destruct (Utf8.stray blk) eqn:Hs; [|reflexivity].
  apply stray_single in Hs as (c & -> & Hc). cbn [fst].
  change (Utf8.single c +:+ ?x) with (String c x). cbn [all_bytes].
  now rewrite Hc, IH.
Qed.

Lemma span_stray_rest l : stray_headed (snd (Utf8.span_stray l)) = false.
Proof.
  induction l as [|blk l IH]; [reflexivity|]. cbn [Utf8.span_stray].
  destruct (Utf8.stray blk) eqn:Hs; [exact IH|]. exact Hs.
Qed.

Lemma span_stray_cut l : cut l = true -> cut (snd (Utf8.span_stray l)) = true.
Proof.
  induction l as [|blk l IH]; [reflexivity|]. cbn [Utf8.span_stray].
  destruct (Utf8.stray blk); [|trivial]. cbn [cut snd].
  intros [_ H]%andb_true_iff. now apply IH.
Qed.

Lemma chars_cut s : cut (Utf8.chars s) = true.
Proof.
  induction s as [|b s IH]; [reflexivity|].
  cbn [Utf8.chars]. unfold Utf8.attach.
  destruct (Utf8.is_lead b) eqn:Hb; cbn [cut shaped lead_headed].
  - rewrite Hb, span_stray_conts, span_stray_rest.
    now rewrite span_stray_cut.
  - cbn [Utf8.single shaped lead_headed]. now rewrite Hb, IH.
Qed.

Lemma chars_conts r t :
  all_bytes Utf8.is_cont r = true ->
  Utf8.chars (r +:+ t) = map Utf8.single (list_ascii_of_string r) ++ Utf8.chars t.
Proof.
  induction r as [|c r IH]; [reflexivity|].
  cbn [all_bytes]. intros [Hc Hr]%andb_true_iff.
  change (String c r +:+ t) with (String c (r +:+ t)).
  rewrite chars_plain by now apply cont_plain.
  cbn [list_ascii_of_string map app]. now rewrite IH.
Qed.

Lemma span_stray_fresh l :
  stray_headed l = false -> Utf8.span_stray l = (EmptyString, l).
Proof.
  destruct l as [|blk l]; [reflexivity|]. cbn [stray_headed Utf8.span_stray].
  now intros ->.
Qed.

Lemma span_stray_singles r l :
  all_bytes Utf8.is_cont r = true -> stray_headed l = false ->
  Utf8.span_stray (map Utf8.single (list_ascii_of_string r) ++ l) = (r, l).
Proof.
  intros Hr Hl. induction r as [|c r IH].
  - now apply span_stray_fresh.
  - cbn [all_bytes] in Hr. apply andb_true_iff in Hr as [Hc Hr].
    cbn [list_ascii_of_string map app Utf8.span_stray Utf8.stray Utf8.single].
    rewrite Hc, (IH Hr). reflexivity.
Qed.

(** Cutting the characters put end to end gives the characters back. *)
Lemma cut_join l : cut l = true -> Utf8.chars (Utf8.join l) = l.
Proof.
  induction l as [|x l IH]; [reflexivity|].
  cbn [cut]. intros [[Hx Hadj]%andb_true_iff Hl]%andb_true_iff.
  specialize (IH Hl). destruct x as [|b r]; [discriminate|].
  cbn [Utf8.join]. change (String b r +:+ ?t) with (String b (r +:+ t)).
  cbn [shaped lead_headed] in Hx, Hadj. cbn [Utf8.chars]. unfold Utf8.attach.
  destruct (Utf8.is_lead b) eqn:Hb.
  - cbn [negb orb] in Hadj. apply negb_true_iff in Hadj.
    rewrite (chars_conts r _ Hx), IH, (span_stray_singles r l Hx Hadj).
    reflexivity.
  - destruct r; [|discriminate].
    change ("" +:+ Utf8.join l) with (Utf8.join l). now rewrite IH.
Qed.


(** ** Lower-casing *)

Lemma lower_piece_join B x A :
  Utf8.join (lower_piece_chars B x A) = Py.lower_piece B x A.
Proof.
  unfold lower_piece_chars, Py.lower_piece.
  destruct (Utf8.cp_of x) as [n|]; [|cbn [Utf8.join]; apply append_nil_r].
  destruct (n =? 931)%N.
  - destruct (Py.final_sigma B A); reflexivity.
  - destruct (Unicode.lower_map n); [reflexivity|cbn [Utf8.join]; apply append_nil_r].
Qed.

Lemma lower_blocks_join B l : Utf8.join (lower_blocks B l) = Py.lower_chars B l.
Proof.
  revert B. induction l as [|x l IH]; intros B; [reflexivity|].
  cbn [lower_blocks Py.lower_chars]. now rewrite join_app, lower_piece_join, IH.
Qed.

Lemma stable_piece B x A : stable x = true -> Py.lower_piece B x A = x.
Proof.
  unfold stable, Py.lower_piece. destruct (Utf8.cp_of x) as [n|]; [|reflexivity].
  intros [H1 H2]%andb_true_iff. apply negb_true_iff in H1. rewrite H1.
  now destruct (Unicode.lower_map n).
Qed.

Lemma stable_chars B l :
  forallb stable l = true -> Py.lower_chars B l = Utf8.join l.
Proof.
  revert B. induction l as [|x l IH]; intros B; [reflexivity|].
  cbn [forallb Py.lower_chars Utf8.join]. intros [Hx Hl]%andb_true_iff.
  now rewrite (stable_piece B x l Hx), IH.
Qed.

(** A character of one byte gives a character of one byte. *)
Lemma lower_piece_chars_single b B A :
  Utf8.is_lead b = false ->
  exists z, lower_piece_chars B (Utf8.single b) A = [Utf8.single z] /\
            Utf8.is_lead z = false /\ stable (Utf8.single z) = true /\
            Utf8.is_cont z = Utf8.is_cont b.
Proof.
  destruct b as [[] [] [] [] [] [] [] []]; intros H; try discriminate H;
    eexists; (split; [vm_compute; reflexivity|]); vm_compute; repeat split.
Qed.

Lemma assoc_In n pairs o :
  Unicode.assoc n pairs = Some o -> exists p, In p pairs /\ snd p = o.
Proof.
  induction pairs as [|p pairs IH]; [discriminate|]. cbn [Unicode.assoc].
  destruct (fst p =? n)%N.
  - intros [= <-]. exists p. split; [now left|reflexivity].
  - intros (q & Hq & <-)%IH. exists q. split; [now right|reflexivity].
Qed.

(** Every character the table puts out is settled. *)
Lemma lower_pairs_settled :
  forallb (fun p => settled (Utf8.encode (snd p))) Unicode.lower_pairs = true.
Proof. vm_compute. reflexivity. Qed.

Lemma lower_map_settled n out :
  (128 <= n)%N -> Unicode.lower_map n = Some out ->
  out <> [] /\ forallb settled (map Utf8.encode out) = true.
Proof.
  intros Hn. unfold Unicode.lower_map.
  destruct (n <? 128)%N eqn:Hlow; [apply N.ltb_lt in Hlow; lia|].
  destruct (n =? 304)%N.
  - intros [= <-]. split; [discriminate|]. vm_compute. reflexivity.
  - destruct (Unicode.assoc n Unicode.lower_pairs) as [o|] eqn:Ho; [|discriminate].
    intros [= <-]. split; [discriminate|].
    apply assoc_In in Ho as (p & Hp & <-). cbn [map forallb].
    pose proof lower_pairs_settled as H. rewrite forallb_forall in H.
    now rewrite (H p Hp).
Qed.

Lemma lead_not_cont b : Utf8.is_lead b = true -> Utf8.is_cont b = false.
Proof.
  unfold Utf8.is_lead, Utf8.is_cont. intros H%N.leb_le.
  apply andb_false_iff. right. apply N.ltb_ge. lia.
Qed.

Lemma lead_headed_lone x : lead_headed x = true -> Utf8.stray x = false.
Proof.
  destruct x as [|b [|]]; try reflexivity. cbn [lead_headed Utf8.stray].
  apply lead_not_cont.
Qed.

Lemma cp_of_lead x n :
  lead_headed x = true -> Utf8.cp_of x = Some n -> (128 <= n)%N.
Proof.
  intros Hx [(b & -> & Hb & _)|[_ H]]%cp_of_bytes; [|exact H].
  cbn [lead_headed Utf8.single] in Hx. now rewrite (low_plain b Hb) in Hx.
Qed.

(** A character of several bytes gives settled characters, and at least
    one. *)
Lemma lower_piece_chars_lead B x A :
  shaped x = true -> lead_headed x = true ->
  lower_piece_chars B x A <> [] /\
  forallb settled (lower_piece_chars B x A) = true.
Proof.
  intros Hs Hl. unfold lower_piece_chars.
  assert (Hkeep : stable x = true -> [x] <> [] /\ forallb settled [x] = true).
  { intros Hst. split; [discriminate|]. cbn [forallb]. unfold settled.
    now rewrite Hs, Hst, (lead_headed_lone x Hl). }
  destruct (Utf8.cp_of x) as [n|] eqn:Hn.
  - destruct (n =? 931)%N eqn:H931.
    + destruct (Py.final_sigma B A); (split; [discriminate|vm_compute; reflexivity]).
    + destruct (Unicode.lower_map n) as [out|] eqn:Hout.
      * destruct (lower_map_settled n out) as [Hne Hp];
          [now apply (cp_of_lead x n)|exact Hout|].
        split; [now destruct out|exact Hp].
      * apply Hkeep. unfold stable. now rewrite Hn, H931, Hout.
  - apply Hkeep. unfold stable. now rewrite Hn.
Qed.

Lemma settled_stable x : settled x = true -> stable x = true.
Proof. unfold settled. now intros [[_ H]%andb_true_iff _]%andb_true_iff. Qed.

Lemma lower_piece_chars_stable B x A :
  forallb stable (lower_piece_chars B x A) = true.
Proof.
  destruct (Utf8.cp_of x) as [n|] eqn:Hn.
  - pose proof Hn as [(b & -> & Hb & _)|[_ H128]]%cp_of_bytes.
    + destruct (lower_piece_chars_single b B A (low_plain b Hb))
        as (z & -> & _ & Hz & _).
      cbn [forallb]. now rewrite Hz.
    + unfold lower_piece_chars. rewrite Hn.
      destruct (n =? 931)%N eqn:H931.
      * destruct (Py.final_sigma B A); vm_compute; reflexivity.
      * destruct (Unicode.lower_map n) as [out|] eqn:Hout.
        -- destruct (lower_map_settled n out H128 Hout) as [_ H].
           revert H. apply forallb_impl. apply settled_stable.
        -- cbn [forallb]. unfold stable. now rewrite Hn, H931, Hout.
  - unfold lower_piece_chars. rewrite Hn. cbn [forallb]. unfold stable.
    now rewrite Hn.
Qed.

Lemma lower_blocks_stable B l : forallb stable (lower_blocks B l) = true.
Proof.
  revert B. induction l as [|x l IH]; intros B; [reflexivity|].
  cbn [lower_blocks]. rewrite forallb_app, IH, lower_piece_chars_stable.
  reflexivity.
Qed.

Lemma stray_headed_app p L :
  forallb settled p = true -> stray_headed L = false ->
  stray_headed (p ++ L) = false.
Proof.
  destruct p as [|x p]; [trivial|]. cbn [forallb app stray_headed].
  unfold settled. intros [[_ H]%andb_true_iff _]%andb_true_iff _.
  now apply negb_true_iff in H.
Qed.

Lemma cut_app_settled p L :
  forallb settled p = true -> cut L = true -> stray_headed L = false ->
  cut (p ++ L) = true.
Proof.
  intros Hp HL Hs. induction p as [|x p IH]; [exact HL|].
  cbn [forallb] in Hp. apply andb_true_iff in Hp as [Hx Hp].
  cbn [app cut]. rewrite (IH Hp), (stray_headed_app p L Hp Hs).
  unfold settled in Hx. apply andb_true_iff in Hx as [[-> _]%andb_true_iff _].
  now rewrite orb_true_r.
Qed.

(** Lower-casing gives characters cut as [Utf8.chars] cuts them. *)
Lemma lower_blocks_cut B l :
  cut l = true ->
  cut (lower_blocks B l) = true /\
  (stray_headed l = false -> stray_headed (lower_blocks B l) = false).
Proof.
  revert B. induction l as [|x l IH]; intros B; [now split|].
  cbn [cut]. intros [[Hx Hadj]%andb_true_iff Hl]%andb_true_iff.
  destruct (IH (x :: B) Hl) as [IHc IHs]. cbn [lower_blocks].
  destruct x as [|b r]; [discriminate|].
  cbn [shaped lead_headed] in Hx, Hadj.
  destruct (Utf8.is_lead b) eqn:Hb.
  - cbn [negb orb] in Hadj. apply negb_true_iff in Hadj.
    destruct (lower_piece_chars_lead B (String b r) l) as [_ Hp].
    { cbn [shaped]. now rewrite Hb. }
    { exact Hb. }
    split.
    + apply cut_app_settled; [exact Hp|exact IHc|now apply IHs].
    + intros _. apply stray_headed_app; [exact Hp|now apply IHs].
  - destruct r; [|discriminate]. change (String b "") with (Utf8.single b) in *.
    destruct (lower_piece_chars_single b B l Hb) as (z & -> & Hz & _ & Hc).
    cbn [app cut shaped lead_headed stray_headed Utf8.single Utf8.stray].
    rewrite Hz, IHc. split; [reflexivity|]. now rewrite Hc.
Qed.

(** Lower-casing a lower-cased string changes nothing. *)
Lemma lower_idem s : Py.lower (Py.lower s) = Py.lower s.
Proof.
  unfold Py.lower. rewrite <- (lower_blocks_join [] (Utf8.chars s)).
  rewrite cut_join by (apply lower_blocks_cut, chars_cut).
  apply stable_chars, lower_blocks_stable.
Qed.

Lemma truthy_app a b : Py.truthy a = true -> Py.truthy (a +:+ b) = true.
Proof. now destruct a. Qed.

Lemma lower_piece_truthy B x A :
  shaped x = true -> Py.truthy (Py.lower_piece B x A) = true.
Proof.
  intros Hs. rewrite <- lower_piece_join.
  destruct x as [|b r]; [discriminate|]. cbn [shaped] in Hs.
  destruct (Utf8.is_lead b) eqn:Hb.
  - destruct (lower_piece_chars_lead B (String b r) A) as [Hne Hp].
    { cbn [shaped]. now rewrite Hb. }
    { exact Hb. }
    destruct (lower_piece_chars B (String b r) A) as [|z p]; [congruence|].
    cbn [forallb] in Hp. apply andb_true_iff in Hp as [Hz _].
    unfold settled in Hz. apply andb_true_iff in Hz as [[Hz _]%andb_true_iff _].
    cbn [Utf8.join]. apply truthy_app. now destruct z.
  - destruct r; [|discriminate]. change (String b "") with (Utf8.single b).
    destruct (lower_piece_chars_single b B A Hb) as (z & -> & _).
    reflexivity.
Qed.

(** A lower-cased string is empty only when the string is. *)
Lemma lower_truthy s : Py.truthy (Py.lower s) = Py.truthy s.
Proof.
  destruct s as [|b s]; [reflexivity|]. cbn [Py.truthy]. unfold Py.lower.
  pose proof (chars_cut (String b s)) as Hc.
  destruct (Utf8.chars (String b s)) as [|x l] eqn:Hx.
  - now apply chars_cons_nonempty in Hx.
  - cbn [cut] in Hc. apply andb_true_iff in Hc as [[Hs _]%andb_true_iff _].
    cbn [Py.lower_chars]. apply truthy_app. now apply lower_piece_truthy.
Qed.

(** ** The classifier *)

Lemma prefix_app k s : String.prefix k s = true <-> exists post, s = k +:+ post.
Proof.
  revert s. induction k as [|a k IH]; intros s.
  - split; [intros _; exists s; reflexivity|]. intros _. destruct s; reflexivity.
  - destruct s as [|b s]; cbn [String.prefix].
    + split; [discriminate|]. intros [post H]. discriminate.
    + destruct (ascii_dec a b) as [<-|Hne].
      * rewrite IH. split; intros [post H]; exists post.
        -- cbn. now rewrite H.
        -- cbn in H. now injection H.
      * split; [discriminate|]. intros [post H]. cbn in H.
        injection H as Hb _. now destruct Hne.
Qed.

Lemma contains_substring k s : Py.contains k s = true <-> substring k s.
Proof.
  unfold substring. induction s as [|c s IH]; cbn [Py.contains].
  - rewrite orb_false_r, prefix_app. split.
    + intros [post H]. exists "", post. exact H.
    + intros [pre [post H]]. destruct pre; [eauto|discriminate].
  - rewrite orb_true_iff, prefix_app, IH. split.
    + intros [[post H]|[pre [post H]]].
      * exists "", post. exact H.
      * exists (String c pre), post. cbn. now rewrite H.
    + intros [pre [post H]]. destruct pre as [|c' pre].
      * left. exists post. exact H.
      * right. exists pre, post. cbn in H. now injection H.
Qed.

Lemma analyze_message_text text :
  is_scam (analyze_message (VStr text)) =
  Some (existsb (fun k => Py.contains k (Py.lower text)) keywords).
Proof. destruct text; reflexivity. Qed.

Lemma flagged_iff text :
  is_scam (analyze_message (VStr text)) = Some true <->
  exists k, In k keywords /\ substring k (Py.lower text).
Proof.
  rewrite analyze_message_text. split.
  - intros H.
    assert (H' : existsb (fun k => Py.contains k (Py.lower text)) keywords = true)
      by congruence.
    apply existsb_exists in H' as [k [Hk H']].
    exists k. split; [exact Hk|]. now apply contains_substring.
  - intros [k [Hk H]]. f_equal. apply existsb_exists.
    exists k. split; [exact Hk|]. now apply contains_substring.
Qed.









(** ** Lower-casing ASCII text *)









(** ** The state monad and the send loops *)

Section Loops.
Context {A B : Type} (body : A -> M B).

Lemma for_each_length l st : length (fst (for_each body l st)) = length l.
Proof.
  revert st. induction l as [|a l IH]; intros st; [reflexivity|].
  cbn [for_each]. run. cbn [length]. now rewrite IH.
Qed.

Lemma for_each_frame {X : Type} (f : state -> X) l st :
  (forall a st, f (snd (body a st)) = f st) ->
  f (snd (for_each body l st)) = f st.
Proof.
  intros Hb. revert st. induction l as [|a l IH]; intros st; [reflexivity|].
  cbn [for_each]. run. now rewrite IH, Hb.
Qed.

Lemma for_each_Forall2 (R : A -> B -> Prop) l st :
  (forall a st, R a (fst (body a st))) ->
  Forall2 R l (fst (for_each body l st)).
Proof.
  intros Hb. revert st. induction l as [|a l IH]; intros st.
  - constructor.
  - cbn [for_each]. run. constructor; [apply Hb|apply IH].
Qed.

(** Round [i] runs the body in the state the first [i] rounds leave. *)
Lemma for_each_lookup l st i a :
  l !! i = Some a ->
  fst (for_each body l st) !! i =
  Some (fst (body a (snd (for_each body (take i l) st)))).
Proof.
  revert st i. induction l as [|a' l IH]; intros st i Hi; [discriminate|].
  destruct i as [|i].
  - injection Hi as ->. reflexivity.
  - cbn [for_each take]. run. cbn [lookup list_lookup]. now apply IH.
Qed.
End Loops.

Lemma for_each_log {A : Type} (body : A -> M dict) l st :
  (forall a st,
     FAMILY_LOG_DB (snd (body a st)) = fst (body a st) :: FAMILY_LOG_DB st) ->
  FAMILY_LOG_DB (snd (for_each body l st)) =
  rev (fst (for_each body l st)) ++ FAMILY_LOG_DB st.
Proof.
  intros Hb. revert st. induction l as [|a l IH]; intros st; [reflexivity|].
  cbn [for_each]. run. rewrite IH, Hb. cbn [rev].
  now rewrite <- app_assoc.
Qed.

Section Sends.
Context (E : env).

Lemma send_sms_answer to body st :
  fst (send_sms_twilio_single E to body st) =
  gateway_answer E (length (api_calls st)) to body.
Proof.
  unfold send_sms_twilio_single, gateway_answer.
  destruct (twilio_client E); [|reflexivity].
  run. unfold messages_create. cbn [fst snd].
  now destruct (twilio_api E _ _).
Qed.

Lemma send_sms_state to body st :
  snd (send_sms_twilio_single E to body st) =
  match twilio_client E with
  | None => st
  | Some _ =>
      {| USERS_DB := USERS_DB st; ALERTS_DB := ALERTS_DB st;
         FAMILY_LOG_DB := FAMILY_LOG_DB st; uuids_drawn := uuids_drawn st;
         clock_reads := clock_reads st;
         api_calls := {| sms_body := body; sms_from := TWILIO_NUMBER E;
                         sms_to := to |} :: api_calls st |}
  end.
Proof.
  unfold send_sms_twilio_single.
  destruct (twilio_client E); [|reflexivity].
  run. unfold messages_create. cbn [fst snd].
  now destruct (twilio_api E _ _).
Qed.

Lemma gateway_answer_result n to body : is_result (gateway_answer E n to body).
Proof.
  unfold gateway_answer, not_configured.
  destruct (twilio_client E); [destruct (twilio_api E _ _)|].
  - left. eauto.
  - right. eauto.
  - right. eauto.
Qed.

(** What one round of either loop does: the entry it returns goes to
    the head of the delivery log; the other two stores stay. *)
Lemma scam_send_entry text e164 st :
  fst (scam_send E text e164 st) =
  [("id", VStr (fst (gen_id E (snd (send_sms_twilio_single E e164 text st)))));
   ("to", VStr e164);
   ("body", VStr text);
   ("result", VDict (gateway_answer E (length (api_calls st)) e164 text));
   ("created_at",
    VStr (fst (now_iso E (snd (gen_id E (snd (send_sms_twilio_single E e164 text st)))))))].
Proof. unfold scam_send. run. now rewrite send_sms_answer. Qed.

Lemma adhoc_send_entry text details e164 st :
  fst (adhoc_send E text details e164 st) =
  [("id", VStr (fst (gen_id E (snd (send_sms_twilio_single E e164 text st)))));
   ("to", VStr e164);
   ("message_sent", VStr text);
   ("details", details);
   ("result", VDict (gateway_answer E (length (api_calls st)) e164 text));
   ("created_at",
    VStr (fst (now_iso E (snd (gen_id E (snd (send_sms_twilio_single E e164 text st)))))))].
Proof. unfold adhoc_send. run. now rewrite send_sms_answer. Qed.

Lemma scam_send_log text e164 st :
  FAMILY_LOG_DB (snd (scam_send E text e164 st)) =
  fst (scam_send E text e164 st) :: FAMILY_LOG_DB st.
Proof.
  unfold scam_send. run. cbn. now rewrite send_sms_state; destruct (twilio_client E).
Qed.

Lemma adhoc_send_log text details e164 st :
  FAMILY_LOG_DB (snd (adhoc_send E text details e164 st)) =
  fst (adhoc_send E text details e164 st) :: FAMILY_LOG_DB st.
Proof.
  unfold adhoc_send. run. cbn. now rewrite send_sms_state; destruct (twilio_client E).
Qed.

Lemma scam_send_calls text e164 st :
  api_calls (snd (scam_send E text e164 st)) =
  api_calls (snd (send_sms_twilio_single E e164 text st)).
Proof. reflexivity. Qed.

Lemma adhoc_send_calls text details e164 st :
  api_calls (snd (adhoc_send E text details e164 st)) =
  api_calls (snd (send_sms_twilio_single E e164 text st)).
Proof. reflexivity. Qed.

Lemma scam_send_stores text e164 st :
  USERS_DB (snd (scam_send E text e164 st)) = USERS_DB st /\
  ALERTS_DB (snd (scam_send E text e164 st)) = ALERTS_DB st.
Proof.
  unfold scam_send. run. cbn. rewrite send_sms_state.
  now destruct (twilio_client E).
Qed.

Lemma adhoc_send_stores text details e164 st :
  USERS_DB (snd (adhoc_send E text details e164 st)) = USERS_DB st /\
  ALERTS_DB (snd (adhoc_send E text details e164 st)) = ALERTS_DB st.
Proof.
  unfold adhoc_send. run. cbn. rewrite send_sms_state.
  now destruct (twilio_client E).
Qed.
End Sends.

(** ** The two dispatch loops as a whole *)

Section Dispatch.
Context (E : env).

Lemma send_sms_calls to text st :
  api_calls (snd (send_sms_twilio_single E to text st)) =
  match twilio_client E with
  | None => api_calls st
  | Some _ => sms_for E text to :: api_calls st
  end.
Proof. rewrite send_sms_state. now destruct (twilio_client E). Qed.

Lemma loop_calls (body : string -> M dict) text l st :
  (forall e st, api_calls (snd (body e st)) =
                api_calls (snd (send_sms_twilio_single E e text st))) ->
  api_calls (snd (for_each body l st)) =
  match twilio_client E with
  | None => api_calls st
  | Some _ => rev (map (sms_for E text) l) ++ api_calls st
  end.
Proof.
  intros Hb. revert st. induction l as [|e l IH]; intros st.
  - now destruct (twilio_client E).
  - cbn [for_each]. run. rewrite IH, Hb, send_sms_calls.
    destruct (twilio_client E); [|reflexivity].
    cbn [map rev]. now rewrite <- app_assoc.
Qed.

Lemma gateway_answer_index n m to text :
  (twilio_client E <> None -> n = m) ->
  gateway_answer E n to text = gateway_answer E m to text.
Proof.
  unfold gateway_answer. destruct (twilio_client E); [|reflexivity].
  intros H. now rewrite H.
Qed.

(** The state round [i] of a loop starts in has seen [i] more requests
    than the loop's initial state, when there is a client. *)
Lemma loop_answer_index (body : string -> M dict) text l st i e :
  (forall e st, api_calls (snd (body e st)) =
                api_calls (snd (send_sms_twilio_single E e text st))) ->
  l !! i = Some e ->
  gateway_answer E (length (api_calls (snd (for_each body (take i l) st)))) e text =
  gateway_answer E (length (api_calls st) + i) e text.
Proof.
  intros Hb Hi. apply gateway_answer_index. intros Hc.
  rewrite (loop_calls body text) by exact Hb.
  destruct (twilio_client E); [|congruence].
  apply lookup_lt_Some in Hi.
  rewrite length_app, length_rev, length_map, length_take. lia.
Qed.
End Dispatch.

(** ** Ad-hoc dispatch *)

Lemma send_family_alert_ok E l text details st :
  clean_phones l <> [] ->
  send_family_alert E (Phones l) text details st =
  (Ok200 (clean_phones l,
          fst (for_each (adhoc_send E text details) (clean_phones l) st)),
   snd (for_each (adhoc_send E text details) (clean_phones l) st)).
Proof.
  intros Hne. unfold send_family_alert.
  destruct l as [|p l]; [now destruct Hne|].
  destruct (clean_phones (p :: l)) as [|e es] eqn:Hc; [now destruct Hne|].
  reflexivity.
Qed.

Lemma send_family_alert_err E phones text details st :
  no_valid_target phones ->
  is_err (fst (send_family_alert E phones text details st)) /\
  snd (send_family_alert E phones text details st) = st.
Proof.
  destruct phones as [|l]; [now split|].
  cbn [no_valid_target]. intros H. apply clean_phones_nil in H.
  unfold send_family_alert. destruct l as [|p l]; [now split|].
  rewrite H. now split.
Qed.

(** C5. The ad-hoc route answers with an error exactly when the input is
    not a list, is empty, or holds no phone that normalises; it then
    leaves the whole state as it was: no log entry, no request to the
    gateway.  Otherwise it answers 200 whatever the gateway does: [sent]
    is the list of normalised phones, there is one log entry per
    normalised phone, in order, all of them pushed on the delivery log,
    and entry [i] holds the recipient and the gateway's answer to that
    recipient's send, a failure included. *)
Theorem send_family_alert_fails_only_without_target
    (E : env) (phones : phones_arg) (text : string) (details : value) (st : state) :
  let r := send_family_alert E phones text details st in
  (is_err (fst r) <-> no_valid_target phones) /\
  (is_err (fst r) -> snd r = st) /\
  (forall l, phones = Phones l -> ~ no_valid_target phones ->
     let sent := omap (fun p => clean_and_e164 p DEFAULT_COUNTRY) l in
     exists logs,
       fst r = Ok200 (sent, logs) /\
       length logs = length sent /\
       FAMILY_LOG_DB (snd r) = rev logs ++ FAMILY_LOG_DB st /\
       forall i e, sent !! i = Some e ->
         exists entry,
           logs !! i = Some entry /\
           dict_get "to" entry = VStr e /\
           dict_get "result" entry =
             VDict (gateway_answer E (length (api_calls st) + i) e text)).
Proof.
  cbv zeta.
  assert (Hok : forall l, phones = Phones l -> ~ no_valid_target phones ->
                clean_phones l <> []).
  { intros l -> Hn Hc. apply Hn. now apply clean_phones_nil. }
  split; [split|split].
  - intros Herr. destruct phones as [|l]; [exact I|].
    destruct (decide (clean_phones l = [])) as [Hc|Hc]; [now apply clean_phones_nil|].
    rewrite (send_family_alert_ok E l text details st Hc) in Herr.
    now destruct Herr.
  - intros H. now apply send_family_alert_err.
  - intros Herr. apply send_family_alert_err.
    destruct phones as [|l]; [exact I|].
    destruct (decide (clean_phones l = [])) as [Hc|Hc]; [now apply clean_phones_nil|].
    rewrite (send_family_alert_ok E l text details st Hc) in Herr.
    now destruct Herr.
  - intros l -> Hn. specialize (Hok l eq_refl Hn).
    rewrite (send_family_alert_ok E l text details st Hok).
    rewrite <- clean_phones_omap. cbn [fst snd].
    eexists. split; [reflexivity|]. split; [apply for_each_length|].
    split; [apply for_each_log; intros; apply adhoc_send_log|].
    intros i e Hi.
    eexists. split; [apply for_each_lookup; exact Hi|].
    rewrite adhoc_send_entry. split; [reflexivity|].
    cbn [dict_get String.eqb Ascii.eqb Bool.eqb]. f_equal.
    apply (loop_answer_index E _ text); [|exact Hi].
    intros; apply adhoc_send_calls.
Qed.

(** ** Scam dispatch *)

Section Submit.
Context (E : env).

Lemma save_alert_frame sender message an user_email st :
  FAMILY_LOG_DB (snd (save_alert E sender message an user_email st)) =
    FAMILY_LOG_DB st /\
  api_calls (snd (save_alert E sender message an user_email st)) = api_calls st.
Proof.
  unfold save_alert. run.
  destruct user_email as [e|]; [destruct (Py.truthy e)|]; now split.
Qed.

Lemma value_or_idem v d : value_or (value_or v d) d = value_or v d.
Proof.
  unfold value_or. destruct (value_truthy v) eqn:Hv; [now rewrite Hv|].
  now destruct (value_truthy d).
Qed.

(** The route analyses [message or ""], and the classifier takes
    [message_text or ""] once more: the verdict is that of the message
    as submitted. *)
Lemma analyze_message_or message :
  analyze_message (value_or message (VStr "")) = analyze_message message.
Proof. unfold analyze_message. now rewrite value_or_idem. Qed.

Lemma test_message_scam email sender message st :
  is_scam (analyze_message message) = Some true ->
  snd (fst (test_message E email sender message st)) =
    Some (fst (for_each (scam_send E (body_of sender message))
                 (targets E email sender message st)
                 (alerted E email sender message st))) /\
  snd (test_message E email sender message st) =
    snd (for_each (scam_send E (body_of sender message))
           (targets E email sender message st)
           (alerted E email sender message st)).
Proof.
  intros Hs. unfold test_message, targets, alerted, body_of.
  rewrite analyze_message_or. run. rewrite Hs. now split.
Qed.

Lemma test_message_other email sender message st :
  is_scam (analyze_message message) <> Some true ->
  snd (fst (test_message E email sender message st)) = None /\
  snd (test_message E email sender message st) = alerted E email sender message st.
Proof.
  intros Hs. unfold test_message, alerted.
  rewrite analyze_message_or. run.
  destruct (is_scam (analyze_message message)) as [[|]|]; [congruence| |]; now split.
Qed.
End Submit.

(** ** Delivery log entries *)

Lemma Forall2_Forall {A B : Type} (R : A -> B -> Prop) (P : A -> Prop)
    (Q : B -> Prop) l k :
  (forall a b, R a b -> P a -> Q b) ->
  Forall2 R l k -> Forall P l -> Forall Q k.
Proof.
  intros H HR. induction HR as [|a b l k Hab _ IH]; intros HP; [constructor|].
  inversion HP; subst. constructor; eauto.
Qed.

Lemma scam_loop_entries E text l st :
  Forall normalised l ->
  Forall (DeliveryLogEntry text) (fst (for_each (scam_send E text) l st)).
Proof.
  apply (Forall2_Forall (fun e entry =>
           exists id created_at res, is_result res /\
             entry = [("id", VStr id); ("to", VStr e); ("body", VStr text);
                      ("result", VDict res); ("created_at", VStr created_at)])).
  - intros e entry (id & created_at & res & Hres & ->) He.
    now exists id, e, created_at, res.
  - apply for_each_Forall2. intros e st'. rewrite scam_send_entry.
    do 3 eexists. split; [apply gateway_answer_result|reflexivity].
Qed.

Lemma adhoc_loop_entries E text details l st :
  Forall normalised l ->
  Forall (AdhocLogEntry text details)
         (fst (for_each (adhoc_send E text details) l st)).
Proof.
  apply (Forall2_Forall (fun e entry =>
           exists id created_at res, is_result res /\
             entry = [("id", VStr id); ("to", VStr e); ("message_sent", VStr text);
                      ("details", details); ("result", VDict res);
                      ("created_at", VStr created_at)])).
  - intros e entry (id & created_at & res & Hres & ->) He.
    now exists id, e, created_at, res.
  - apply for_each_Forall2. intros e st'. rewrite adhoc_send_entry.
    do 3 eexists. split; [apply gateway_answer_result|reflexivity].
Qed.

(** C4, as the code has it.  The entries a scam dispatch pushes on the
    delivery log have exactly the items id, to, body, result, created_at:
    [to] is a normalised number (a plus sign followed by characters
    [str.isdigit] accepts, returned by [clean_and_e164]), [body] is the
    text sent and [result] is ok/sid or ok/error.  The entries the
    ad-hoc route pushes have the items id, to, message_sent, details,
    result, created_at: the text sent is under [message_sent] and the
    caller's details are kept. *)
Theorem delivery_log_entry_shapes (E : env) :
  (forall email sender message st,
     exists new,
       FAMILY_LOG_DB (snd (test_message E email sender message st)) =
         new ++ FAMILY_LOG_DB st /\
       Forall (DeliveryLogEntry (body_of sender message)) new) /\
  (forall phones text details st,
     exists new,
       FAMILY_LOG_DB (snd (send_family_alert E phones text details st)) =
         new ++ FAMILY_LOG_DB st /\
       Forall (AdhocLogEntry text details) new).
Proof.
  split.
  - intros email sender message st.
    destruct (decide (is_scam (analyze_message message) = Some true)) as [Hs|Hs].
    + destruct (test_message_scam E email sender message st Hs) as [_ ->].
      eexists. split.
      * rewrite for_each_log by (intros; apply scam_send_log).
        unfold alerted.
        now rewrite (proj1 (save_alert_frame E _ _ _ _ st)).
      * apply Forall_rev, scam_loop_entries, clean_phones_shape.
    + destruct (test_message_other E email sender message st Hs) as [_ ->].
      exists []. split; [|constructor]. unfold alerted.
      now rewrite (proj1 (save_alert_frame E _ _ _ _ st)).
  - intros phones text details st.
    destruct phones as [|l]; [exists []; now split|].
    destruct (decide (clean_phones l = [])) as [Hc|Hc].
    + exists []. split; [|constructor].
      now rewrite (proj2 (send_family_alert_err E (Phones l) text details st
                            (proj1 (clean_phones_nil l) Hc))).
    + rewrite (send_family_alert_ok E l text details st Hc). cbn [snd].
      eexists. split; [apply for_each_log; intros; apply adhoc_send_log|].
      apply Forall_rev, adhoc_loop_entries, clean_phones_shape.
Qed.

(** C4 as claimed fails on the ad-hoc route: the one entry it writes for
    the phone "9876543210" has no [body]; the text is under
    [message_sent]. *)
Lemma adhoc_entry_is_not_a_DeliveryLogEntry :
  exists entry,
    FAMILY_LOG_DB (snd (send_family_alert env_unset (Phones [Some "9876543210"])
                          "Call me" (VDict []) initial)) = [entry] /\
    dict_keys entry =
      ["id"; "to"; "message_sent"; "details"; "result"; "created_at"] /\
    dict_get "body" entry = VNone /\
    dict_get "message_sent" entry = VStr "Call me" /\
    ~ (exists text, DeliveryLogEntry text entry).
Proof.
  eexists. split; [vm_compute; reflexivity|].
  split; [reflexivity|]. split; [reflexivity|]. split; [reflexivity|].
  intros (text & id & to & created_at & res & Heq & _). discriminate Heq.
Qed.

(** ** Claims about a submitted message *)

(** C8. When the classifier's verdict on the submitted message is safe or
    unknown, [test_message] answers without an [sms_sent] report, the
    delivery log is what it was and no request went to the gateway; the
    alert it returns carries that verdict. *)
Theorem test_message_dispatches_only_on_scam
    (E : env) (email sender : option string) (message : value) (st : state) :
  is_scam (analyze_message message) = Some false \/
  is_scam (analyze_message message) = None ->
  snd (fst (test_message E email sender message st)) = None /\
  FAMILY_LOG_DB (snd (test_message E email sender message st)) = FAMILY_LOG_DB st /\
  api_calls (snd (test_message E email sender message st)) = api_calls st /\
  dict_get "is_scam" (fst (fst (test_message E email sender message st))) =
    of_bool (is_scam (analyze_message message)).
Proof.
  intros Hv.
  assert (Hs : is_scam (analyze_message message) <> Some true)
    by (destruct Hv as [-> | ->]; discriminate).
  destruct (test_message_other E email sender message st Hs) as [-> ->].
  unfold alerted.
  destruct (save_alert_frame E (str_or sender "User") (value_or message (VStr ""))
              (analyze_message message)
              (if Py.truthy (Py.lower (str_or email ""))
               then Some (Py.lower (str_or email "")) else None) st) as [-> ->].
  repeat split.
  unfold test_message. rewrite analyze_message_or. run.
  assert (Ha : forall an ue s,
             dict_get "is_scam"
               (fst (save_alert E (str_or sender "User")
                       (value_or message (VStr "")) an ue s)) =
             of_bool (is_scam an)).
  { intros an ue s. unfold save_alert. run.
    destruct ue as [e|]; [destruct (Py.truthy e)|]; reflexivity. }
  destruct (is_scam (analyze_message message)) as [[|]|] eqn:Hm;
    [congruence| |]; cbn [fst]; now rewrite Ha, Hm.
Qed.

(** A safe message sent by a user with two reachable phones. *)
Lemma test_message_dispatches_only_on_scam_witness :
  (is_scam (analyze_message (VStr "See you at lunch")) = Some false \/
   is_scam (analyze_message (VStr "See you at lunch")) = None) /\
  snd (fst (test_message env_live (Some "Asha@Example.com") (Some "Ravi")
              (VStr "See you at lunch") with_family)) = None /\
  FAMILY_LOG_DB (snd (test_message env_live (Some "Asha@Example.com") (Some "Ravi")
                        (VStr "See you at lunch") with_family)) =
    FAMILY_LOG_DB with_family /\
  api_calls (snd (test_message env_live (Some "Asha@Example.com") (Some "Ravi")
                    (VStr "See you at lunch") with_family)) =
    api_calls with_family /\
  dict_get "is_scam"
    (fst (fst (test_message env_live (Some "Asha@Example.com") (Some "Ravi")
                 (VStr "See you at lunch") with_family))) =
    of_bool (is_scam (analyze_message (VStr "See you at lunch"))).
Proof.
  split; [left; reflexivity|].
  apply (test_message_dispatches_only_on_scam env_live (Some "Asha@Example.com")
           (Some "Ravi") (VStr "See you at lunch") with_family).
  left; reflexivity.
Defined.

(** C1 fails on the code.  The two raw phones "9876543210" (profile) and
    "+919876543210" (family contact) differ as strings, so the recipient
    set keeps both; both normalise to "+919876543210", and the scam
    dispatch writes two log entries for that one number, whatever the
    environment; with a client it sends the SMS twice. *)
Theorem test_message_sends_twice_to_one_number :
  clean_and_e164 (Some "9876543210") DEFAULT_COUNTRY = Some "+919876543210" /\
  clean_and_e164 (Some "+919876543210") DEFAULT_COUNTRY = Some "+919876543210" /\
  (forall E : env,
     exists e1 e2,
       snd (fst (test_message E (Some "asha@example.com") None
                   (VStr "Your OTP is 4411") with_family)) = Some [e1; e2] /\
       FAMILY_LOG_DB (snd (test_message E (Some "asha@example.com") None
                             (VStr "Your OTP is 4411") with_family)) = [e2; e1] /\
       dict_get "to" e1 = VStr "+919876543210" /\
       dict_get "to" e2 = VStr "+919876543210") /\
  map sms_to (api_calls (snd (test_message env_live (Some "asha@example.com") None
                                (VStr "Your OTP is 4411") with_family))) =
    ["+919876543210"; "+919876543210"].
Proof.
  split; [reflexivity|]. split; [reflexivity|]. split; [|vm_compute; reflexivity].
  intros E.
  destruct (test_message_scam E (Some "asha@example.com") None
              (VStr "Your OTP is 4411") with_family eq_refl) as [-> ->].
  assert (Ht : targets E (Some "asha@example.com") None (VStr "Your OTP is 4411")
                 with_family = ["+919876543210"; "+919876543210"]).
  { unfold targets, alerted, save_alert. run. vm_compute. reflexivity. }
  rewrite Ht. cbn [for_each]. run.
  do 2 eexists. split; [reflexivity|].
  rewrite !scam_send_log. split; [reflexivity|].
  rewrite !scam_send_entry. split; reflexivity.
Qed.

(** ** The gateway without credentials *)

Lemma truthy_empty s : Py.truthy s = false <-> s = "".
Proof. destruct s; split; (reflexivity || discriminate). Qed.

Lemma twilio_client_unset E :
  TWILIO_SID E = "" \/ TWILIO_AUTH E = "" -> twilio_client E = None.
Proof.
  unfold twilio_client. intros [-> | ->]; [reflexivity|].
  now rewrite andb_false_r.
Qed.

Lemma unset_loop_results E (body : string -> M dict) text l st :
  twilio_client E = None ->
  (forall e st, dict_get "result" (fst (body e st)) =
                VDict (gateway_answer E (length (api_calls st)) e text)) ->
  Forall (fun entry => dict_get "result" entry = VDict not_configured)
         (fst (for_each body l st)).
Proof.
  intros Hc Hb.
  apply (Forall2_Forall (fun (_ : string) entry =>
           dict_get "result" entry = VDict not_configured) (fun _ => True)
           _ l); [tauto| |now apply Forall_forall].
  apply for_each_Forall2. intros e st'. rewrite Hb.
  unfold gateway_answer. now rewrite Hc.
Qed.

(** C9, with the error text the code returns.  When the account sid or
    the auth token is missing, module initialisation still yields a value
    (no client); every send returns ok = false with the error
    "Twilio not configured (env missing)." and leaves the state alone, so
    no request reaches the API; and both dispatch routes still push one
    log entry per target, each holding that result. *)
Theorem unconfigured_gateway_fails_each_send (E : env) :
  TWILIO_SID E = "" \/ TWILIO_AUTH E = "" ->
  twilio_client E = None /\
  (forall to text st,
     send_sms_twilio_single E to text st =
     ([("ok", VBool false);
       ("error", VStr "Twilio not configured (env missing).")], st)) /\
  (forall email sender message st,
     is_scam (analyze_message message) = Some true ->
     exists logs,
       snd (fst (test_message E email sender message st)) = Some logs /\
       length logs = length (targets E email sender message st) /\
       FAMILY_LOG_DB (snd (test_message E email sender message st)) =
         rev logs ++ FAMILY_LOG_DB st /\
       Forall (fun entry => dict_get "result" entry = VDict not_configured) logs /\
       api_calls (snd (test_message E email sender message st)) = api_calls st) /\
  (forall l text details st,
     ~ no_valid_target (Phones l) ->
     exists logs,
       fst (send_family_alert E (Phones l) text details st) =
         Ok200 (clean_phones l, logs) /\
       length logs = length (clean_phones l) /\
       FAMILY_LOG_DB (snd (send_family_alert E (Phones l) text details st)) =
         rev logs ++ FAMILY_LOG_DB st /\
       Forall (fun entry => dict_get "result" entry = VDict not_configured) logs /\
       api_calls (snd (send_family_alert E (Phones l) text details st)) =
         api_calls st).
Proof.
  intros Hunset. pose proof (twilio_client_unset E Hunset) as Hc.
  split; [exact Hc|]. split; [|split].
  - intros to text st. unfold send_sms_twilio_single. now rewrite Hc.
  - intros email sender message st Hs.
    destruct (test_message_scam E email sender message st Hs) as [-> ->].
    eexists. split; [reflexivity|]. split; [apply for_each_length|].
    split; [|split].
    + rewrite for_each_log by (intros; apply scam_send_log).
      unfold alerted. now rewrite (proj1 (save_alert_frame E _ _ _ _ st)).
    + apply (unset_loop_results E _ (body_of sender message)); [exact Hc|].
      intros e st'. now rewrite scam_send_entry.
    + rewrite (loop_calls E _ (body_of sender message))
        by (intros; apply scam_send_calls).
      rewrite Hc. unfold alerted.
      now rewrite (proj2 (save_alert_frame E _ _ _ _ st)).
  - intros l text details st Hn.
    assert (Hne : clean_phones l <> [])
      by (intros H; apply Hn; now apply clean_phones_nil).
    rewrite (send_family_alert_ok E l text details st Hne). cbn [fst snd].
    eexists. split; [reflexivity|]. split; [apply for_each_length|].
    split; [|split].
    + apply for_each_log. intros; apply adhoc_send_log.
    + apply (unset_loop_results E _ text); [exact Hc|].
      intros e st'. now rewrite adhoc_send_entry.
    + rewrite (loop_calls E _ text) by (intros; apply adhoc_send_calls).
      now rewrite Hc.
Qed.

(** The environment with no credentials at all. *)
Lemma unconfigured_gateway_fails_each_send_witness :
  (TWILIO_SID env_unset = "" \/ TWILIO_AUTH env_unset = "") /\
  send_sms_twilio_single env_unset "+919876543210" "Call me" initial =
    ([("ok", VBool false);
      ("error", VStr "Twilio not configured (env missing).")], initial).
Proof.
  split; [left; reflexivity|].
  apply (unconfigured_gateway_fails_each_send env_unset). left; reflexivity.
Defined.

(** C9 as claimed fails on the error text: a send without credentials
    does not answer "gateway not configured". *)
Lemma unconfigured_error_text_differs :
  TWILIO_SID env_unset = "" /\
  dict_get "error"
    (fst (send_sms_twilio_single env_unset "+919876543210" "Call me" initial)) =
    VStr "Twilio not configured (env missing)." /\
  dict_get "error"
    (fst (send_sms_twilio_single env_unset "+919876543210" "Call me" initial)) <>
    VStr "gateway not configured".
Proof.
  split; [reflexivity|]. split; [reflexivity|]. vm_compute. discriminate.
Qed.

(** ** The alert ledger *)

Lemma alter_setdefault (f : user -> user) k d (m : gmap string user) :
  alter f k (setdefault k d m) = <[k := f (default d (m !! k))]> m.
Proof.
  unfold setdefault. apply map_eq. intros j.
  destruct (m !! k) as [u|] eqn:Hk; cbn [default from_option id];
    destruct (decide (k = j)) as [<-|Hne]; simplify_map_eq; reflexivity.
Qed.

Lemma insert_setdefault k d (m : gmap string user) :
  setdefault k d m = <[k := default d (m !! k)]> m.
Proof.
  unfold setdefault. destruct (m !! k) as [u|] eqn:Hk; cbn [default from_option id].
  - now rewrite insert_id.
  - reflexivity.
Qed.

Section Ledger.
Context (E : env).

Lemma save_alert_ledger sender message an ue st :
  ALERTS_DB (snd (save_alert E sender message an ue st)) =
  fst (save_alert E sender message an ue st) :: ALERTS_DB st.
Proof.
  unfold save_alert. run.
  destruct ue as [e|]; [destruct (Py.truthy e)|]; reflexivity.
Qed.

Lemma save_alert_users sender message an e st :
  Py.truthy e = true ->
  USERS_DB (snd (save_alert E sender message an (Some e) st)) =
  <[e := {| profile := profile (record_of e st);
            family := family (record_of e st);
            history := fst (save_alert E sender message an (Some e) st)
                         :: history (record_of e st) |}]> (USERS_DB st).
Proof.
  intros He. unfold save_alert. run. rewrite He. run. cbn.
  now rewrite alter_setdefault.
Qed.

Lemma save_alert_history sender message an e st :
  Py.truthy e = true ->
  history_of e (snd (save_alert E sender message an (Some e) st)) =
  fst (save_alert E sender message an (Some e) st) :: history_of e st.
Proof.
  intros He. unfold history_of at 1. rewrite save_alert_users by exact He.
  rewrite lookup_insert_eq. cbn [history].
  unfold record_of, history_of. now destruct (USERS_DB st !! e).
Qed.

Lemma get_alerts_global st : fst (get_alerts None st) = ALERTS_DB st.
Proof. reflexivity. Qed.

Lemma get_alerts_user query st :
  Py.truthy query = true ->
  fst (get_alerts (Some query) st) = history_of (Py.lower query) st.
Proof.
  intros Hq. unfold get_alerts, history_of. rewrite Hq. run.
  now destruct (USERS_DB st !! Py.lower query).
Qed.
End Ledger.

(** C6. [save_alert] puts the new alert at the head of [ALERTS_DB] and,
    when [user_email] is set, at the head of that user's history.  So
    after saving A1 and then A2 for one user, GET /alerts lists A2, A1
    and then what it listed before, both without an email (the global
    ledger) and with that user's email in any letter case (the user's
    history). *)
Theorem save_alert_most_recent_first
    (E : env) (sender1 sender2 : string) (message1 message2 : value)
    (an1 an2 : analysis) (user_email : option string) (st : state) :
  let r1 := save_alert E sender1 message1 an1 user_email st in
  let r2 := save_alert E sender2 message2 an2 user_email (snd r1) in
  ALERTS_DB (snd r1) = fst r1 :: ALERTS_DB st /\
  (forall e, user_email = Some e -> e <> "" ->
     history_of e (snd r1) = fst r1 :: history_of e st) /\
  fst (get_alerts None (snd r2)) = fst r2 :: fst r1 :: fst (get_alerts None st) /\
  (forall query, query <> "" -> user_email = Some (Py.lower query) ->
     fst (get_alerts (Some query) (snd r2)) =
     fst r2 :: fst r1 :: fst (get_alerts (Some query) st)).
Proof.
  cbv zeta. split; [apply save_alert_ledger|]. split; [|split].
  - intros e -> He. apply save_alert_history.
    destruct e; [congruence|reflexivity].
  - now rewrite !get_alerts_global, !save_alert_ledger.
  - intros query Hq ->.
    assert (Ht : Py.truthy query = true) by (destruct query; [congruence|reflexivity]).
    rewrite !get_alerts_user by exact Ht.
    rewrite !save_alert_history by (now rewrite lower_truthy).
    reflexivity.
Qed.

(** ** The directory store *)

Lemma setdefault_lookup k d (m : gmap string user) :
  setdefault k d m !! k = Some (default d (m !! k)).
Proof. rewrite insert_setdefault. apply lookup_insert_eq. Qed.

Lemma str_or_empty email :
  email = None \/ email = Some "" -> Py.lower (str_or email "") = "".
Proof. now intros [-> | ->]. Qed.

(** C7. Without an email (absent, null or empty) [login], [save_profile]
    and [save_family] answer 400 "email required" and leave the state as
    it was.  With one they answer 200 and touch the record under the
    lower-cased email only: [login] leaves there the record the user had,
    the other two that record with the profile, or the family, replaced;
    where the user had none, "the record the user had" is the default
    record, with the lower-cased email, an empty name and phone, no
    family and no history.  Read back from the store: after each of the
    three, [USERS_DB] holds that record under the lower-cased email, so
    an unknown email has a record from then on; every other record is
    the one it was, and the two ledgers and the list of gateway requests
    are untouched. *)
Theorem user_routes_need_an_email
    (email : option string) (profile_arg : option (gmap string string))
    (family_arg : option (list (gmap string string))) (st : state) :
  (email = None \/ email = Some "" ->
     login email st = (Err400 "email required", st) /\
     save_profile email profile_arg st = (Err400 "email required", st) /\
     save_family email family_arg st = (Err400 "email required", st)) /\
  (forall e, email = Some e -> e <> "" ->
     let key := Py.lower e in
     let u0 := record_of key st in
     login email st = (Ok200 u0, set_USERS_DB (insert key u0) st) /\
     save_profile email profile_arg st =
       (Ok200 tt,
        set_USERS_DB (insert key {| profile := default ∅ profile_arg;
                                     family := family u0;
                                     history := history u0 |}) st) /\
     save_family email family_arg st =
       (Ok200 tt,
        set_USERS_DB (insert key {| profile := profile u0;
                                     family := default [] family_arg;
                                     history := history u0 |}) st) /\
     (USERS_DB st !! key = None ->
        u0 = {| profile := {[ "email" := key; "name" := ""; "phone" := "" ]};
                family := []; history := [] |})) /\
  (forall e, email = Some e -> e <> "" ->
     let key := Py.lower e in
     let u0 := record_of key st in
     key <> "" /\
     (forall u, USERS_DB st !! key = Some u -> u0 = u) /\
     USERS_DB (snd (login email st)) !! key = Some u0 /\
     USERS_DB (snd (save_profile email profile_arg st)) !! key =
       Some {| profile := default ∅ profile_arg;
               family := family u0; history := history u0 |} /\
     USERS_DB (snd (save_family email family_arg st)) !! key =
       Some {| profile := profile u0;
               family := default [] family_arg; history := history u0 |} /\
     (USERS_DB st !! key = None ->
        USERS_DB (snd (login email st)) !! key =
          Some {| profile := {[ "email" := key; "name" := ""; "phone" := "" ]};
                  family := []; history := [] |}) /\
     forall st', st' = snd (login email st) \/
                 st' = snd (save_profile email profile_arg st) \/
                 st' = snd (save_family email family_arg st) ->
       (forall k, k <> key -> USERS_DB st' !! k = USERS_DB st !! k) /\
       ALERTS_DB st' = ALERTS_DB st /\
       FAMILY_LOG_DB st' = FAMILY_LOG_DB st /\
       api_calls st' = api_calls st).
Proof.
  assert (Hrun : forall e, email = Some e -> e <> "" ->
     let key := Py.lower e in
     let u0 := record_of key st in
     login email st = (Ok200 u0, set_USERS_DB (insert key u0) st) /\
     save_profile email profile_arg st =
       (Ok200 tt,
        set_USERS_DB (insert key {| profile := default ∅ profile_arg;
                                     family := family u0;
                                     history := history u0 |}) st) /\
     save_family email family_arg st =
       (Ok200 tt,
        set_USERS_DB (insert key {| profile := profile u0;
                                     family := default [] family_arg;
                                     history := history u0 |}) st) /\
     (USERS_DB st !! key = None ->
        u0 = {| profile := {[ "email" := key; "name" := ""; "phone" := "" ]};
                family := []; history := [] |})).
  { intros e -> He. cbv zeta.
    assert (Ht : Py.truthy (Py.lower e) = true).
    { rewrite lower_truthy. destruct e; [congruence|reflexivity]. }
    assert (Hk : str_or (Some e) "" = e) by (destruct e; reflexivity).
    unfold login, save_profile, save_family. rewrite Hk, Ht. cbn [negb]. run.
    unfold set_USERS_DB, record_of. cbn.
    rewrite setdefault_lookup, !alter_setdefault, insert_setdefault.
    repeat split.
    intros Hnone. now rewrite Hnone. }
  split; [|split; [exact Hrun|]].
  - intros Hm. unfold login, save_profile, save_family.
    rewrite (str_or_empty email Hm). repeat split.
  - intros e Hemail He. cbv zeta.
    destruct (Hrun e Hemail He) as (Hl & Hp & Hf & Hd). cbv zeta in Hl, Hp, Hf, Hd.
    rewrite Hl, Hp, Hf. cbn [snd set_USERS_DB USERS_DB].
    split.
    { intros Hempty. assert (Ht : Py.truthy (Py.lower e) = false) by now rewrite Hempty.
      rewrite lower_truthy in Ht. destruct e; [congruence|discriminate]. }
    split.
    { intros u Hu. unfold record_of. now rewrite Hu. }
    rewrite !lookup_insert_eq.
    split; [reflexivity|]. split; [reflexivity|]. split; [reflexivity|].
    split; [intros Hnone; now rewrite (Hd Hnone)|].
    intros st' [-> |[-> | ->]]; cbn [set_USERS_DB USERS_DB ALERTS_DB FAMILY_LOG_DB api_calls];
      (split; [intros k Hk; now rewrite lookup_insert_ne by congruence|]);
      repeat split.
Qed.

(** C10. GET /alerts and GET /family-logs return the state they were
    given: the three stores, the counters and the list of gateway
    requests are untouched.  Asking for the alerts of an email no record
    exists for answers the empty list and the email stays without a
    record. *)
Theorem reads_leave_the_stores (email : option string) (st : state) :
  snd (get_alerts email st) = st /\
  family_logs st = (FAMILY_LOG_DB st, st) /\
  (forall e, email = Some e -> e <> "" -> USERS_DB st !! Py.lower e = None ->
     fst (get_alerts email st) = [] /\
     USERS_DB (snd (get_alerts email st)) !! Py.lower e = None).
Proof.
  assert (Hsame : snd (get_alerts email st) = st).
  { unfold get_alerts. destruct email as [e|]; [|reflexivity].
    destruct (Py.truthy e); [|reflexivity]. run.
    now destruct (USERS_DB st !! Py.lower e). }
  split; [exact Hsame|]. split; [reflexivity|].
  intros e -> He Hnone. rewrite Hsame. split; [|exact Hnone].
  rewrite get_alerts_user by (destruct e; [congruence|reflexivity]).
  unfold history_of. now rewrite Hnone.
Qed.
(** * Further properties of the code *)

(** ** The normaliser on its own results *)

(** X1. Normalising is idempotent: a string [clean_and_e164] returned is
    returned unchanged when it is normalised again, whatever the script
    of its digits. *)
Theorem clean_and_e164_idempotent (raw : option string) (e : string) :
  clean_and_e164 raw DEFAULT_COUNTRY = Some e ->
  clean_and_e164 (Some e) DEFAULT_COUNTRY = Some e.
Proof.
  intros H. apply clean_and_e164_result in H as (d & -> & Hd & H10 & H11).
  rewrite (clean_and_e164_plus_digits d Hd).
  destruct (Nat.eq_dec (Py.len d) 11) as [Hl|Hl].
  - rewrite Hl. now rewrite (H11 Hl).
  - remember (Py.len d) as n eqn:Hn. clear Hn H11.
    do 13 (destruct n as [|n]; [try reflexivity; congruence|]).
    reflexivity.
Qed.

Lemma clean_and_e164_idempotent_witness :
  clean_and_e164 (Some "0٩٨٧٦٥-٤٣٢١٠") DEFAULT_COUNTRY = Some "+91٩٨٧٦٥٤٣٢١٠" /\
  clean_and_e164 (Some "+91٩٨٧٦٥٤٣٢١٠") DEFAULT_COUNTRY = Some "+91٩٨٧٦٥٤٣٢١٠".
Proof.
  split; [vm_compute; reflexivity|].
  apply (clean_and_e164_idempotent (Some "0٩٨٧٦٥-٤٣٢١٠") "+91٩٨٧٦٥٤٣٢١٠").
  vm_compute. reflexivity.
Defined.

Lemma ascii_digits_country d :
  ascii_digits d = true -> ascii_digits (DEFAULT_COUNTRY +:+ d) = true.
Proof.
  unfold ascii_digits. intros [_ H]%andb_true_iff.
  now rewrite all_ascii_digits_app, H.
Qed.

(** What section 4.1 returns is E.164. *)
Lemma normalize_shape raw e :
  normalize raw DEFAULT_COUNTRY = Some e -> e164_shaped e.
Proof.
  destruct raw as [[|c r]|]; try discriminate.
  unfold normalize.
  generalize (strip_punctuation (Py.strip (String c r))). clear c r. intros s.
  cbv zeta.
  assert (Hfall : forall x,
             match after_plus s with
             | Some d => if ascii_digits d then Some s else None
             | None => None
             end = Some x -> e164_shaped x).
  { intros x. destruct (after_plus s) as [d|] eqn:Hp; [|discriminate].
    destruct (ascii_digits d) eqn:Hd; [|discriminate].
    intros [= <-]. exists d. split; [now apply after_plus_eq|exact Hd]. }
  revert Hfall. generalize (match after_plus s with
                            | Some d => if ascii_digits d then Some s else None
                            | None => None
                            end).
  generalize (default s (after_plus s)). clear s. intros digits fall Hfall.
  destruct (ascii_digits digits) eqn:Hd; [|apply Hfall].
  destruct (Nat.eq_dec (String.length digits) 10) as [->|H10].
  { intros [= <-]. exists (DEFAULT_COUNTRY +:+ digits).
    split; [reflexivity|]. now apply ascii_digits_country. }
  destruct (Nat.eq_dec (String.length digits) 12) as [->|H12].
  { destruct (String.prefix _ _); [|apply Hfall].
    intros [= <-]. now exists digits. }
  destruct (Nat.eq_dec (String.length digits) 11) as [H11|H11].
  { rewrite H11. destruct (after_zero digits) as [national|] eqn:Hz; [|apply Hfall].
    intros [= <-]. exists (DEFAULT_COUNTRY +:+ national).
    split; [reflexivity|]. apply ascii_digits_country.
    apply after_zero_eq in Hz. subst digits.
    unfold ascii_digits in *. cbn [all_ascii_digits Py.truthy andb] in Hd.
    apply andb_true_iff in Hd as [_ Hd]. rewrite Hd, andb_true_r.
    now destruct national. }
  remember (String.length digits) as n eqn:Hn. clear Hn.
  do 13 (destruct n as [|n]; [try apply Hfall; congruence|]).
  apply Hfall.
Qed.

(** X2. Whatever [clean_and_e164] returns is a plus sign followed by one
    or more characters [str.isdigit] accepts, and nothing else; so it is
    never empty, and the callers' [if e:] test drops a phone only when
    the result is [None].  For a raw phone in ASCII the characters are
    digits 0 to 9 and the result is E.164. *)
Theorem clean_and_e164_returns_plus_digits (raw : option string) (e : string) :
  clean_and_e164 raw DEFAULT_COUNTRY = Some e ->
  plus_digits e /\ Py.truthy e = true /\ 2 <= Py.len e /\
  (forall l, clean_phones (raw :: l) = e :: clean_phones l) /\
  (forall r, raw = Some r -> ascii_only r = true -> e164_shaped e).
Proof.
  intros H. pose proof (clean_and_e164_shape raw e H) as Hs.
  split; [exact Hs|]. split; [now apply plus_digits_truthy|]. split; [|split].
  - destruct Hs as (d & -> & Hd). change ("+" +:+ d) with (String "+" d).
    rewrite len_plain by reflexivity.
    destruct (Py.len d) eqn:Hl; [|lia].
    apply len_zero in Hl. now subst d.
  - intros l. cbn [clean_phones]. now rewrite H, (plus_digits_truthy e Hs).
  - intros r -> Hr. apply (normalize_shape (Some r)).
    now rewrite <- normal_form_ascii, <- clean_and_e164_refines.
Qed.

Lemma clean_and_e164_returns_plus_digits_witness :
  clean_and_e164 (Some "+1 (501) 712-2661") DEFAULT_COUNTRY = Some "+15017122661" /\
  plus_digits "+15017122661" /\ e164_shaped "+15017122661".
Proof.
  split; [vm_compute; reflexivity|].
  destruct (clean_and_e164_returns_plus_digits (Some "+1 (501) 712-2661")
              "+15017122661") as (Hp & _ & _ & _ & He); [vm_compute; reflexivity|].
  split; [exact Hp|]. apply (He "+1 (501) 712-2661"); vm_compute; reflexivity.
Defined.

(** X3. The spellings of one domestic number agree: for every string [d]
    of ten digits, [d] itself, [d] after the country code "91", after a
    trunk zero, after "+91" and after a bare plus all normalise to
    "+91" followed by [d]. *)
Theorem clean_and_e164_spellings_agree (d : string) :
  Py.isdigit d = true -> Py.len d = 10 ->
  clean_and_e164 (Some d) DEFAULT_COUNTRY = Some ("+91" +:+ d) /\
  clean_and_e164 (Some ("91" +:+ d)) DEFAULT_COUNTRY = Some ("+91" +:+ d) /\
  clean_and_e164 (Some ("0" +:+ d)) DEFAULT_COUNTRY = Some ("+91" +:+ d) /\
  clean_and_e164 (Some ("+91" +:+ d)) DEFAULT_COUNTRY = Some ("+91" +:+ d) /\
  clean_and_e164 (Some ("+" +:+ d)) DEFAULT_COUNTRY = Some ("+91" +:+ d).
Proof.
  intros Hd Hl.
  assert (H91 : Py.isdigit ("91" +:+ d) = true) by now apply isdigit_country.
  assert (H0 : Py.isdigit ("0" +:+ d) = true) by now apply isdigit_zero.
  assert (L91 : Py.len ("91" +:+ d) = 12).
  { change ("91" +:+ d) with (DEFAULT_COUNTRY +:+ d). rewrite len_country.
    congruence. }
  assert (L0 : Py.len ("0" +:+ d) = 11).
  { change ("0" +:+ d) with (String "0" d). rewrite len_plain by reflexivity.
    congruence. }
  split; [|split; [|split; [|split]]].
  - rewrite (clean_and_e164_digits d Hd), Hl. reflexivity.
  - rewrite (clean_and_e164_digits _ H91), L91.
    assert (Hp : String.prefix DEFAULT_COUNTRY ("91" +:+ d) = true)
      by (apply prefix_app; now exists d).
    now rewrite Hp.
  - rewrite (clean_and_e164_digits _ H0), L0. reflexivity.
  - change ("+91" +:+ d) with ("+" +:+ ("91" +:+ d)).
    rewrite (clean_and_e164_plus_digits _ H91), L91. reflexivity.
  - rewrite (clean_and_e164_plus_digits d Hd), Hl. reflexivity.
Qed.

Lemma clean_and_e164_spellings_agree_witness :
  Py.isdigit "9876543210" = true /\ Py.len "9876543210" = 10 /\
  clean_and_e164 (Some "09876543210") DEFAULT_COUNTRY = Some "+919876543210".
Proof.
  split; [vm_compute; reflexivity|]. split; [vm_compute; reflexivity|].
  apply (clean_and_e164_spellings_agree "9876543210"); vm_compute; reflexivity.
Defined.

(** ** The classifier on any value *)

(** X4. [analyze_message] answers for every value.  A string, and any
    falsy value (None, False, 0, an empty string, list or dict, which
    [or ""] turns into the empty string), gets a verdict [True] or
    [False]; the verdict is [None] exactly for a truthy value that is not
    a string, where [.lower()] raises and the [except] branch answers.
    The warning goes with the verdict: one fixed text for each of the
    three. *)
Theorem analyze_message_verdicts (message_text : value) :
  (is_scam (analyze_message message_text) = None <->
   value_truthy message_text = true /\ forall s, message_text <> VStr s) /\
  (value_truthy message_text = false ->
   is_scam (analyze_message message_text) = Some false) /\
  elder_warning (analyze_message message_text) =
    match is_scam (analyze_message message_text) with
    | Some true => "⚠ This message looks suspicious. Do NOT share OTP/passwords."
    | Some false => "✔ This message appears safe."
    | None => "AI could not analyze this message."
    end.
Proof.
  split; [|split].
  - destruct message_text as [|b|n|m e|s|l|d]; cbn.
    + split; [discriminate|]. intros [H _]; discriminate.
    + destruct b.
      * split; [|reflexivity]. intros _. split; [reflexivity|discriminate].
      * split; [discriminate|]. intros [H _]; discriminate.
    + unfold analyze_message, value_or. cbn [value_truthy].
      destruct (n =? 0)%Z; cbn.
      * split; [discriminate|]. intros [H _]; discriminate.
      * split; [|reflexivity]. intros _. split; [reflexivity|discriminate].
    + unfold analyze_message, value_or. cbn [value_truthy].
      destruct (m =? 0)%Z; cbn.
      * split; [discriminate|]. intros [H _]; discriminate.
      * split; [|reflexivity]. intros _. split; [reflexivity|discriminate].
    + rewrite analyze_message_text. split; [discriminate|].
      intros [_ H]. now destruct (H s).
    + destruct l.
      * split; [discriminate|]. intros [H _]; discriminate.
      * split; [|reflexivity]. intros _. split; [reflexivity|discriminate].
    + destruct d.
      * split; [discriminate|]. intros [H _]; discriminate.
      * split; [|reflexivity]. intros _. split; [reflexivity|discriminate].
  - intros Hf. unfold analyze_message, value_or. rewrite Hf. reflexivity.
  - unfold analyze_message.
    destruct (value_or message_text (VStr "")); reflexivity.
Qed.

(** X5. A flagged text stays flagged inside a longer one and in any
    letter case: if [text] is flagged and the lower-casing of [text']
    holds the lower-casing of [text], then [text'] is flagged. *)
Theorem analyze_message_flag_persists (text text' pre post : string) :
  is_scam (analyze_message (VStr text)) = Some true ->
  Py.lower text' = pre +:+ Py.lower text +:+ post ->
  is_scam (analyze_message (VStr text')) = Some true.
Proof.
  intros Hs Hl. apply flagged_iff in Hs as (k & Hk & a & b & Hab).
  apply flagged_iff. exists k. split; [exact Hk|].
  exists (pre +:+ a), (b +:+ post). rewrite Hl, Hab.
  now rewrite !append_assoc.
Qed.

Lemma analyze_message_flag_persists_witness :
  is_scam (analyze_message (VStr "verify")) = Some true /\
  is_scam (analyze_message (VStr "Please VERIFY your card")) = Some true.
Proof.
  split; [vm_compute; reflexivity|].
  apply (analyze_message_flag_persists "verify" "Please VERIFY your card"
           "please " " your card"); vm_compute; reflexivity.
Defined.

(** ** A submitted message: the alert and the directory *)

Section Submitted.
Context (E : env).

Lemma scam_loop_stores text l st :
  USERS_DB (snd (for_each (scam_send E text) l st)) = USERS_DB st /\
  ALERTS_DB (snd (for_each (scam_send E text) l st)) = ALERTS_DB st.
Proof.
  split; apply for_each_frame; intros e st'; apply scam_send_stores.
Qed.

Lemma adhoc_loop_stores text details l st :
  USERS_DB (snd (for_each (adhoc_send E text details) l st)) = USERS_DB st /\
  ALERTS_DB (snd (for_each (adhoc_send E text details) l st)) = ALERTS_DB st.
Proof.
  split; apply for_each_frame; intros e st'; apply adhoc_send_stores.
Qed.

(** The send loop leaves the users and the alerts as [save_alert] left
    them. *)
Lemma test_message_stores email sender message st :
  USERS_DB (snd (test_message E email sender message st)) =
    USERS_DB (alerted E email sender message st) /\
  ALERTS_DB (snd (test_message E email sender message st)) =
    ALERTS_DB (alerted E email sender message st).
Proof.
  destruct (decide (is_scam (analyze_message message) = Some true)) as [Hs|Hs].
  - destruct (test_message_scam E email sender message st Hs) as [_ ->].
    apply scam_loop_stores.
  - destruct (test_message_other E email sender message st Hs) as [_ ->].
    now split.
Qed.

Lemma test_message_alert email sender message st :
  fst (fst (test_message E email sender message st)) =
  fst (save_alert E (str_or sender "User") (value_or message (VStr ""))
         (analyze_message message) (owner_of email) st).
Proof.
  unfold test_message, owner_of, key_of. rewrite analyze_message_or. run.
  now destruct (is_scam (analyze_message message)) as [[|]|].
Qed.

Lemma save_alert_fields sender message an ue st :
  dict_get "sender" (fst (save_alert E sender message an ue st)) = VStr sender /\
  dict_get "message" (fst (save_alert E sender message an ue st)) = message /\
  dict_get "is_scam" (fst (save_alert E sender message an ue st)) =
    of_bool (is_scam an) /\
  dict_get "elder_warning" (fst (save_alert E sender message an ue st)) =
    VStr (elder_warning an) /\
  dict_get "user_email" (fst (save_alert E sender message an ue st)) = of_str ue.
Proof.
  unfold save_alert. run.
  destruct ue as [e|]; [destruct (Py.truthy e)|]; repeat split.
Qed.

Lemma alerted_users email sender message st :
  USERS_DB (alerted E email sender message st) =
  if Py.truthy (key_of email)
  then <[key_of email :=
           {| profile := profile (record_of (key_of email) st);
              family := family (record_of (key_of email) st);
              history := fst (fst (test_message E email sender message st))
                           :: history (record_of (key_of email) st) |}]>
         (USERS_DB st)
  else USERS_DB st.
Proof.
  rewrite test_message_alert. unfold alerted, owner_of, key_of.
  destruct (Py.truthy (Py.lower (str_or email ""))) eqn:Hk.
  - now apply save_alert_users.
  - unfold save_alert. run. reflexivity.
Qed.

(** X6. [test_message] always records the message, whatever the verdict:
    the alert it returns is the new head of [ALERTS_DB], it holds the
    sender (or "User"), the message (or the empty string), the
    classifier's verdict and warning and the lower-cased email (or
    [None]), and GET /alerts for that email, in any letter case, lists
    it first. *)
Theorem test_message_records_the_alert
    (email sender : option string) (message : value) (st : state) :
  let r := test_message E email sender message st in
  let alert := fst (fst r) in
  ALERTS_DB (snd r) = alert :: ALERTS_DB st /\
  dict_get "sender" alert = VStr (str_or sender "User") /\
  dict_get "message" alert = value_or message (VStr "") /\
  dict_get "is_scam" alert = of_bool (is_scam (analyze_message message)) /\
  dict_get "elder_warning" alert = VStr (elder_warning (analyze_message message)) /\
  dict_get "user_email" alert = of_str (owner_of email) /\
  (forall query, query <> "" -> Py.lower query = key_of email ->
     fst (get_alerts (Some query) (snd r)) =
     alert :: fst (get_alerts (Some query) st)).
Proof.
  cbv zeta.
  destruct (save_alert_fields (str_or sender "User") (value_or message (VStr ""))
              (analyze_message message) (owner_of email) st)
    as (Hsender & Hmessage & Hscam & Hwarn & Hemail).
  rewrite test_message_alert.
  split; [|repeat (split; [assumption|])].
  - rewrite (proj2 (test_message_stores email sender message st)).
    unfold alerted. apply save_alert_ledger.
  - intros query Hq Hl.
    assert (Ht : Py.truthy query = true) by (destruct query; [congruence|reflexivity]).
    rewrite !get_alerts_user by exact Ht.
    unfold history_of at 1.
    rewrite (proj1 (test_message_stores email sender message st)).
    rewrite alerted_users, test_message_alert, <- Hl, lower_truthy, Ht.
    rewrite lookup_insert_eq. cbn [history].
    unfold record_of, history_of. now destruct (USERS_DB st !! Py.lower query).
Qed.

(** X7. [test_message] never changes what the directory holds about
    anyone: every record keeps its profile and its family, records other
    than the sender's are untouched, and no record is removed. *)
Theorem test_message_keeps_the_directory
    (email sender : option string) (message : value) (st : state) :
  let st' := snd (test_message E email sender message st) in
  (forall k u, USERS_DB st !! k = Some u ->
     exists u', USERS_DB st' !! k = Some u' /\
                profile u' = profile u /\ family u' = family u) /\
  (forall k, k <> key_of email -> USERS_DB st' !! k = USERS_DB st !! k).
Proof.
  cbv zeta. rewrite (proj1 (test_message_stores email sender message st)).
  rewrite alerted_users.
  destruct (Py.truthy (key_of email)); [|split; eauto].
  split.
  - intros k u Hk. destruct (decide (key_of email = k)) as [<-|Hne].
    + rewrite lookup_insert_eq. eexists. split; [reflexivity|].
      unfold record_of. rewrite Hk. now split.
    + rewrite lookup_insert_ne by exact Hne. eauto.
  - intros k Hne. now rewrite lookup_insert_ne.
Qed.

End Submitted.

(** ** A scam dispatch: who is written to *)

Lemma elem_of_add_phone x phone (R : gset string) :
  x ∈ add_phone phone R <-> (phone = Some x /\ x <> "") \/ x ∈ R.
Proof.
  unfold add_phone. destruct phone as [ph|].
  - destruct ph as [|c ph]; cbn [Py.truthy].
    + split; [now right|]. intros [[[= <-] H]|H]; [congruence|exact H].
    + rewrite elem_of_union, elem_of_singleton. split.
      * intros [->|H]; [left; split; [reflexivity|discriminate]|now right].
      * intros [[[= <-] _]|H]; [now left|now right].
  - split; [now right|]. intros [[H _]|H]; [discriminate|exact H].
Qed.

Lemma elem_of_family_phones x (fam : list (gmap string string)) (R : gset string) :
  x ∈ fold_left (fun R m => add_phone (m !! "phone") R) fam R <->
  (exists m, In m fam /\ m !! "phone" = Some x /\ x <> "") \/ x ∈ R.
Proof.
  revert R. induction fam as [|m fam IH]; intros R; cbn [fold_left].
  - split; [now right|]. intros [(m & [] & _)|H]. exact H.
  - rewrite IH, elem_of_add_phone. split.
    + intros [(m' & Hin & H)|[[Hm Hx]|H]].
      * left. exists m'. split; [now right|exact H].
      * left. exists m. split; [now left|now split].
      * now right.
    + intros [(m' & [<-|Hin] & Hm & Hx)|H].
      * right. left. now split.
      * left. exists m'. now split.
      * right. now right.
Qed.

Lemma elem_of_recipients key (db : gmap string user) x :
  x ∈ recipients_of key db <->
  key <> "" /\ x <> "" /\ exists u, db !! key = Some u /\ on_file u x.
Proof.
  unfold recipients_of, on_file. destruct key as [|c key]; cbn [Py.truthy].
  - rewrite elem_of_empty. split; [tauto|]. intros [H _]; congruence.
  - destruct (db !! String c key) as [u|] eqn:Hu.
    + rewrite elem_of_family_phones, elem_of_add_phone, elem_of_empty. split.
      * intros [(m & Hin & Hm & Hx)|[[Hp Hx]|[]]].
        -- split; [discriminate|]. split; [exact Hx|]. exists u. split; [reflexivity|].
           right. now exists m.
        -- split; [discriminate|]. split; [exact Hx|]. exists u. split; [reflexivity|].
           now left.
      * intros (_ & Hx & u' & [= <-] & [Hp|(m & Hin & Hm)]).
        -- right. left. now split.
        -- left. now exists m.
    + rewrite elem_of_empty. split; [tauto|].
      intros (_ & _ & u & Hu' & _). discriminate.
Qed.

Lemma In_clean_phones e l :
  In e (clean_phones (map Some l)) <->
  exists raw, In raw l /\ clean_and_e164 (Some raw) DEFAULT_COUNTRY = Some e.
Proof.
  rewrite clean_phones_omap. induction l as [|x l IH]; cbn [map omap list_omap].
  - split; [intros []|intros (raw & [] & _)].
  - destruct (clean_and_e164 (Some x) DEFAULT_COUNTRY) as [e'|] eqn:Hx.
    + cbn [In]. rewrite IH. split.
      * intros [<-|(raw & Hin & H)]; [exists x; split; [now left|exact Hx]|].
        exists raw. split; [now right|exact H].
      * intros (raw & [<-|Hin] & H); [left; congruence|].
        right. now exists raw.
    + rewrite IH. split.
      * intros (raw & Hin & H). exists raw. split; [now right|exact H].
      * intros (raw & [<-|Hin] & H); [congruence|]. now exists raw.
Qed.

Lemma clean_empty : clean_and_e164 (Some "") DEFAULT_COUNTRY = None.
Proof. reflexivity. Qed.

(** The numbers a scam dispatch writes to are the normal forms of the
    phones on file for the sender. *)
Lemma In_targets E email sender message st e :
  In e (targets E email sender message st) <->
  key_of email <> "" /\
  exists raw, on_file (record_of (key_of email) st) raw /\
              clean_and_e164 (Some raw) DEFAULT_COUNTRY = Some e.
Proof.
  unfold targets. fold (key_of email). rewrite In_clean_phones.
  setoid_rewrite <- list_elem_of_In at 1.
  setoid_rewrite elem_of_elements. setoid_rewrite elem_of_recipients.
  rewrite alerted_users.
  destruct (Py.truthy (key_of email)) eqn:Hk.
  - rewrite lookup_insert_eq. split.
    + intros (raw & (Hne & Hraw & u & [= <-] & Hon) & Hc).
      split; [exact Hne|]. exists raw. split; [exact Hon|exact Hc].
    + intros (Hne & raw & Hon & Hc). exists raw. split; [|exact Hc].
      split; [exact Hne|]. split.
      * intros ->. now rewrite clean_empty in Hc.
      * eexists. split; [reflexivity|exact Hon].
  - apply truthy_empty in Hk. split.
    + intros (raw & (Hne & _) & _). congruence.
    + intros (Hne & _). congruence.
Qed.

Lemma scam_loop_tos E text l st :
  map (dict_get "to") (fst (for_each (scam_send E text) l st)) = map VStr l.
Proof.
  revert st. induction l as [|e l IH]; intros st; [reflexivity|].
  cbn [for_each]. run. cbn [map]. rewrite IH, scam_send_entry. reflexivity.
Qed.

Lemma adhoc_loop_tos E text details l st :
  map (dict_get "to") (fst (for_each (adhoc_send E text details) l st)) = map VStr l.
Proof.
  revert st. induction l as [|e l IH]; intros st; [reflexivity|].
  cbn [for_each]. run. cbn [map]. rewrite IH, adhoc_send_entry. reflexivity.
Qed.

(** X8. On a scam verdict, the log entries [test_message] reports are
    addressed to exactly the normal forms of the phones on file for the
    sender: every entry's [to] is [clean_and_e164] of the profile phone or
    of a family member's phone, and every such phone that normalises has
    an entry.  Phones that do not normalise are skipped without a
    trace. *)
Theorem test_message_writes_to_the_phones_on_file
    (E : env) (email sender : option string) (message : value) (st : state) :
  is_scam (analyze_message message) = Some true ->
  exists logs,
    snd (fst (test_message E email sender message st)) = Some logs /\
    forall e,
      (exists entry, In entry logs /\ dict_get "to" entry = VStr e) <->
      (key_of email <> "" /\
       exists raw, on_file (record_of (key_of email) st) raw /\
                   clean_and_e164 (Some raw) DEFAULT_COUNTRY = Some e).
Proof.
  intros Hs.
  destruct (test_message_scam E email sender message st Hs) as [-> _].
  eexists. split; [reflexivity|]. intros e.
  rewrite <- In_targets.
  assert (Hto : forall logs l, map (dict_get "to") logs = map VStr l ->
            (exists entry, In entry logs /\ dict_get "to" entry = VStr e) <-> In e l).
  { clear. intros logs l H. split.
    - intros (entry & Hin & Hto).
      apply (in_map (dict_get "to")) in Hin. rewrite H, Hto in Hin.
      apply in_map_iff in Hin as (x & [= ->] & Hx). exact Hx.
    - intros Hin. apply (in_map VStr) in Hin. rewrite <- H in Hin.
      apply in_map_iff in Hin as (entry & Hto & Hin). now exists entry. }
  apply Hto, scam_loop_tos.
Qed.

Lemma test_message_writes_to_the_phones_on_file_witness :
  is_scam (analyze_message (VStr "URGENT: call the bank")) = Some true /\
  exists logs,
    snd (fst (test_message env_live (Some "asha@example.com") None
                (VStr "URGENT: call the bank") with_family)) = Some logs /\
    exists entry, In entry logs /\ dict_get "to" entry = VStr "+919876543210".
Proof.
  split; [vm_compute; reflexivity|].
  destruct (test_message_writes_to_the_phones_on_file env_live
              (Some "asha@example.com") None (VStr "URGENT: call the bank")
              with_family) as (logs & Hlogs & Hto); [vm_compute; reflexivity|].
  exists logs. split; [exact Hlogs|].
  apply Hto. split; [discriminate|].
  exists "9876543210". split; [left; vm_compute; reflexivity|reflexivity].
Defined.

Lemma nil_of_no_member {A : Type} (l : list A) : (forall x, ~ In x l) -> l = [].
Proof. destruct l as [|a l]; [reflexivity|]. intros H. now destruct (H a (or_introl eq_refl)). Qed.

(** X9. A scam alert with no one to write to sends nothing: when the
    request has no email, or no phone on file for the sender normalises
    (an unknown sender among them, whose new record has an empty phone
    and no family), the delivery log and the gateway's requests are as
    before, and the report is the empty list on a scam verdict and
    absent otherwise. *)
Theorem test_message_without_recipients
    (E : env) (email sender : option string) (message : value) (st : state) :
  key_of email = "" \/
  (forall raw, on_file (record_of (key_of email) st) raw ->
               clean_and_e164 (Some raw) DEFAULT_COUNTRY = None) ->
  FAMILY_LOG_DB (snd (test_message E email sender message st)) = FAMILY_LOG_DB st /\
  api_calls (snd (test_message E email sender message st)) = api_calls st /\
  snd (fst (test_message E email sender message st)) =
    match is_scam (analyze_message message) with
    | Some true => Some []
    | _ => None
    end.
Proof.
  intros Hnone.
  assert (Ht : targets E email sender message st = []).
  { apply nil_of_no_member. intros e He.
    apply In_targets in He as (Hk & raw & Hon & Hc).
    destruct Hnone as [Hn|Hn]; [congruence|].
    rewrite (Hn raw Hon) in Hc. discriminate. }
  destruct (save_alert_frame E (str_or sender "User") (value_or message (VStr ""))
              (analyze_message message)
              (if Py.truthy (Py.lower (str_or email ""))
               then Some (Py.lower (str_or email "")) else None) st) as [Hlog Hcalls].
  destruct (decide (is_scam (analyze_message message) = Some true)) as [Hs|Hs].
  - destruct (test_message_scam E email sender message st Hs) as [-> ->].
    rewrite Ht, Hs. cbn [for_each]. unfold ret. cbn [fst snd].
    unfold alerted. now rewrite Hlog, Hcalls.
  - destruct (test_message_other E email sender message st Hs) as [-> ->].
    unfold alerted. rewrite Hlog, Hcalls.
    destruct (is_scam (analyze_message message)) as [[|]|]; [congruence| |]; now split.
Qed.

(** An unknown sender. *)
Lemma test_message_without_recipients_witness :
  (key_of (Some "Nobody@example.com") = "" \/
   (forall raw, on_file (record_of (key_of (Some "Nobody@example.com")) initial) raw ->
                clean_and_e164 (Some raw) DEFAULT_COUNTRY = None)) /\
  snd (fst (test_message env_live (Some "Nobody@example.com") None
              (VStr "Your account is blocked") initial)) = Some [].
Proof.
  assert (H : key_of (Some "Nobody@example.com") = "" \/
              (forall raw,
                 on_file (record_of (key_of (Some "Nobody@example.com")) initial) raw ->
                 clean_and_e164 (Some raw) DEFAULT_COUNTRY = None)).
  { right. intros raw [Hp|(m & [] & _)].
    vm_compute in Hp. injection Hp as <-. reflexivity. }
  split; [exact H|].
  apply (test_message_without_recipients env_live (Some "Nobody@example.com") None
           (VStr "Your account is blocked") initial H).
Defined.

(** ** What reaches the gateway *)

Lemma requests_shape E text l :
  Forall normalised l ->
  Forall (fun m => normalised (sms_to m) /\ sms_from m = TWILIO_NUMBER E /\
                   sms_body m = text)
         (rev (map (sms_for E text) l)).
Proof.
  intros H. apply Forall_rev. induction H as [|e l He _ IH]; constructor.
  - now split.
  - exact IH.
Qed.

(** X10. The gateway is only ever asked to write to normalised numbers.
    The requests a dispatch route adds to those made before all carry as
    [to] a string [clean_and_e164] returned (a plus sign followed by
    characters [str.isdigit] accepts), the configured sender number as
    [from_] and the text of the dispatch as [body]; with a client there
    is one request per new log entry, without one there is none. *)
Theorem dispatch_requests_are_normalised (E : env) :
  (forall email sender message st,
     let st' := snd (test_message E email sender message st) in
     exists new,
       api_calls st' = new ++ api_calls st /\
       Forall (fun m => normalised (sms_to m) /\ sms_from m = TWILIO_NUMBER E /\
                        sms_body m = body_of sender message) new /\
       length new =
         match twilio_client E with
         | Some _ => length (FAMILY_LOG_DB st') - length (FAMILY_LOG_DB st)
         | None => 0
         end) /\
  (forall phones text details st,
     let st' := snd (send_family_alert E phones text details st) in
     exists new,
       api_calls st' = new ++ api_calls st /\
       Forall (fun m => normalised (sms_to m) /\ sms_from m = TWILIO_NUMBER E /\
                        sms_body m = text) new /\
       length new =
         match twilio_client E with
         | Some _ => length (FAMILY_LOG_DB st') - length (FAMILY_LOG_DB st)
         | None => 0
         end).
Proof.
  assert (Hloop : forall (body : string -> M dict) text l st0,
            (forall e st, api_calls (snd (body e st)) =
                          api_calls (snd (send_sms_twilio_single E e text st))) ->
            (forall e st, FAMILY_LOG_DB (snd (body e st)) =
                          fst (body e st) :: FAMILY_LOG_DB st) ->
            Forall normalised l ->
            exists new,
              api_calls (snd (for_each body l st0)) = new ++ api_calls st0 /\
              Forall (fun m => normalised (sms_to m) /\
                               sms_from m = TWILIO_NUMBER E /\ sms_body m = text) new /\
              length new =
                match twilio_client E with
                | Some _ => length (FAMILY_LOG_DB (snd (for_each body l st0)))
                            - length (FAMILY_LOG_DB st0)
                | None => 0
                end).
  { intros body text l st0 Hcalls Hlog Hl.
    rewrite (loop_calls E body text l st0 Hcalls), (for_each_log body l st0 Hlog).
    destruct (twilio_client E).
    - eexists. split; [reflexivity|]. split; [now apply requests_shape|].
      rewrite length_app, !length_rev, length_map, for_each_length.
      now rewrite Nat.add_sub.
    - exists []. split; [reflexivity|]. split; [constructor|reflexivity]. }
  split.
  - intros email sender message st. cbv zeta.
    destruct (save_alert_frame E (str_or sender "User") (value_or message (VStr ""))
                (analyze_message message)
                (if Py.truthy (Py.lower (str_or email ""))
                 then Some (Py.lower (str_or email "")) else None) st) as [Hlog Hcalls].
    destruct (decide (is_scam (analyze_message message) = Some true)) as [Hs|Hs].
    + destruct (test_message_scam E email sender message st Hs) as [_ ->].
      destruct (Hloop (scam_send E (body_of sender message)) (body_of sender message)
                  (targets E email sender message st)
                  (alerted E email sender message st))
        as (new & Hnew & Hshape & Hlen).
      * intros; apply scam_send_calls.
      * intros; apply scam_send_log.
      * apply clean_phones_shape.
      * exists new. unfold alerted in Hnew, Hlen at 2. rewrite Hcalls in Hnew.
        rewrite Hlog in Hlen. now split.
    + destruct (test_message_other E email sender message st Hs) as [_ ->].
      unfold alerted. rewrite Hlog, Hcalls.
      exists []. split; [reflexivity|]. split; [constructor|].
      destruct (twilio_client E); [cbn [length]; lia|reflexivity].
  - intros phones text details st. cbv zeta.
    destruct phones as [|l].
    + exists []. split; [reflexivity|]. split; [constructor|].
      cbn [snd send_family_alert ret]. destruct (twilio_client E); [cbn [length]; lia|reflexivity].
    + destruct (decide (clean_phones l = [])) as [Hc|Hc].
      * rewrite (proj2 (send_family_alert_err E (Phones l) text details st
                          (proj1 (clean_phones_nil l) Hc))).
        exists []. split; [reflexivity|]. split; [constructor|].
        destruct (twilio_client E); [cbn [length]; lia|reflexivity].
      * rewrite (send_family_alert_ok E l text details st Hc). cbn [snd].
        apply Hloop.
        -- intros; apply adhoc_send_calls.
        -- intros; apply adhoc_send_log.
        -- apply clean_phones_shape.
Qed.

(** X11. An ad-hoc alert leaves no trace outside the delivery log:
    [send_family_alert] changes neither the directory nor the alert
    ledger, so GET /alerts answers after it what it answered before. *)
Theorem send_family_alert_keeps_users_and_alerts
    (E : env) (phones : phones_arg) (text : string) (details : value) (st : state) :
  let st' := snd (send_family_alert E phones text details st) in
  USERS_DB st' = USERS_DB st /\
  ALERTS_DB st' = ALERTS_DB st /\
  forall email, fst (get_alerts email st') = fst (get_alerts email st).
Proof.
  cbv zeta.
  assert (H : USERS_DB (snd (send_family_alert E phones text details st)) = USERS_DB st /\
              ALERTS_DB (snd (send_family_alert E phones text details st)) = ALERTS_DB st).
  { destruct phones as [|l]; [now split|].
    destruct (decide (clean_phones l = [])) as [Hc|Hc].
    - now rewrite (proj2 (send_family_alert_err E (Phones l) text details st
                            (proj1 (clean_phones_nil l) Hc))).
    - rewrite (send_family_alert_ok E l text details st Hc). cbn [snd].
      apply adhoc_loop_stores. }
  destruct H as [Hu Ha]. split; [exact Hu|]. split; [exact Ha|].
  intros email. destruct email as [e|]; [destruct (Py.truthy e) eqn:He|].
  - rewrite !get_alerts_user by exact He. unfold history_of. now rewrite Hu.
  - unfold get_alerts. rewrite He. exact Ha.
  - exact Ha.
Qed.

(** ** The directory: what is written is what is read *)

Lemma set_USERS_DB_id st : set_USERS_DB (fun db => db) st = st.
Proof. now destruct st. Qed.

Lemma key_of_some e : e <> "" -> Py.truthy (key_of (Some e)) = true.
Proof.
  intros He. unfold key_of. rewrite lower_truthy.
  destruct e; [congruence|reflexivity].
Qed.

(** The state each directory route leaves. *)
Lemma login_state email st :
  snd (login email st) =
  if Py.truthy (key_of email)
  then set_USERS_DB (insert (key_of email) (record_of (key_of email) st)) st
  else st.
Proof.
  unfold login. fold (key_of email).
  destruct (Py.truthy (key_of email)); [|reflexivity].
  cbn [negb]. run. unfold set_USERS_DB, record_of. cbn.
  now rewrite insert_setdefault.
Qed.

Lemma login_answer email st :
  fst (login email st) =
  if Py.truthy (key_of email)
  then Ok200 (record_of (key_of email) st)
  else Err400 "email required".
Proof.
  unfold login. fold (key_of email).
  destruct (Py.truthy (key_of email)); [|reflexivity].
  cbn [negb]. run. unfold record_of. cbn.
  now rewrite setdefault_lookup.
Qed.

Lemma save_profile_state email profile_arg st :
  snd (save_profile email profile_arg st) =
  if Py.truthy (key_of email)
  then set_USERS_DB
         (insert (key_of email)
            {| profile := default ∅ profile_arg;
               family := family (record_of (key_of email) st);
               history := history (record_of (key_of email) st) |}) st
  else st.
Proof.
  unfold save_profile. fold (key_of email).
  destruct (Py.truthy (key_of email)); [|reflexivity].
  cbn [negb]. run. unfold set_USERS_DB, record_of. cbn.
  now rewrite alter_setdefault.
Qed.

Lemma save_family_state email family_arg st :
  snd (save_family email family_arg st) =
  if Py.truthy (key_of email)
  then set_USERS_DB
         (insert (key_of email)
            {| profile := profile (record_of (key_of email) st);
               family := default [] family_arg;
               history := history (record_of (key_of email) st) |}) st
  else st.
Proof.
  unfold save_family. fold (key_of email).
  destruct (Py.truthy (key_of email)); [|reflexivity].
  cbn [negb]. run. unfold set_USERS_DB, record_of. cbn.
  now rewrite alter_setdefault.
Qed.

Lemma record_of_insert k v st :
  record_of k (set_USERS_DB (insert k v) st) = v.
Proof. unfold record_of, set_USERS_DB. cbn. now rewrite lookup_insert_eq. Qed.

Lemma set_USERS_DB_twice f g st :
  set_USERS_DB g (set_USERS_DB f st) = set_USERS_DB (fun db => g (f db)) st.
Proof. reflexivity. Qed.

Lemma insert_record_state k st :
  is_Some (USERS_DB st !! k) ->
  set_USERS_DB (insert k (record_of k st)) st = st.
Proof.
  intros [u Hu]. unfold record_of, set_USERS_DB. rewrite Hu. cbn.
  rewrite (insert_id _ _ _ Hu). now destruct st.
Qed.

(** X12. What [save_profile] and [save_family] store is what [login]
    returns.  After either, a login with the same email in any letter
    case answers 200 with the saved profile (the empty object when none
    was sent), or the saved family (the empty list when none was sent),
    the other two fields as they were, and changes nothing. *)
Theorem saved_record_is_read_back
    (e query : string) (profile_arg : option (gmap string string))
    (family_arg : option (list (gmap string string))) (st : state) :
  e <> "" -> Py.lower query = Py.lower e ->
  let old := record_of (Py.lower e) st in
  login (Some query) (snd (save_profile (Some e) profile_arg st)) =
    (Ok200 {| profile := default ∅ profile_arg; family := family old;
              history := history old |},
     snd (save_profile (Some e) profile_arg st)) /\
  login (Some query) (snd (save_family (Some e) family_arg st)) =
    (Ok200 {| profile := profile old; family := default [] family_arg;
              history := history old |},
     snd (save_family (Some e) family_arg st)).
Proof.
  intros He Hq. cbv zeta.
  assert (Hke : key_of (Some e) = Py.lower e) by (destruct e; [congruence|reflexivity]).
  assert (Hkq : key_of (Some query) = Py.lower e).
  { rewrite <- Hq. now destruct query. }
  assert (Ht : Py.truthy (Py.lower e) = true) by (rewrite <- Hke; now apply key_of_some).
  assert (Hlogin : forall v,
            login (Some query) (set_USERS_DB (insert (Py.lower e) v) st) =
            (Ok200 v, set_USERS_DB (insert (Py.lower e) v) st)).
  { intros v. rewrite (surjective_pairing (login _ _)).
    rewrite login_answer, login_state, Hkq, Ht, record_of_insert.
    f_equal. unfold set_USERS_DB. cbn. now rewrite insert_insert_eq. }
  rewrite save_profile_state, save_family_state, Hke, Ht.
  split; apply Hlogin.
Qed.

Lemma saved_record_is_read_back_witness :
  ("asha@example.com" <> "" /\
   Py.lower "ASHA@example.COM" = Py.lower "asha@example.com") /\
  fst (login (Some "ASHA@example.COM")
         (snd (save_profile (Some "asha@example.com")
                 (Some {[ "phone" := "9876543210" ]}) initial))) =
    Ok200 {| profile := {[ "phone" := "9876543210" ]}; family := []; history := [] |}.
Proof.
  split; [split; [discriminate|vm_compute; reflexivity]|].
  destruct (saved_record_is_read_back "asha@example.com" "ASHA@example.COM"
              (Some {[ "phone" := "9876543210" ]}) None initial) as [H _];
    [discriminate|vm_compute; reflexivity|].
  rewrite H. reflexivity.
Defined.

(** X13. How the directory routes compose, for any email (with none,
    every one of them is a no-op): a second [save_profile] overwrites the
    first; [save_profile] and [save_family] commute; a second [login]
    changes nothing; and a [login] before a save makes no difference. *)
Theorem directory_routes_compose
    (email : option string) (p q : option (gmap string string))
    (g : option (list (gmap string string))) (st : state) :
  snd (save_profile email q (snd (save_profile email p st))) =
    snd (save_profile email q st) /\
  snd (save_family email g (snd (save_profile email p st))) =
    snd (save_profile email p (snd (save_family email g st))) /\
  snd (login email (snd (login email st))) = snd (login email st) /\
  snd (save_profile email p (snd (login email st))) = snd (save_profile email p st) /\
  snd (save_family email g (snd (login email st))) = snd (save_family email g st).
Proof.
  destruct (Py.truthy (key_of email)) eqn:Hk;
    repeat (rewrite ?save_profile_state, ?save_family_state, ?login_state, ?Hk).
  - rewrite !record_of_insert. cbn [profile family history].
    unfold set_USERS_DB. cbn.
    rewrite !insert_insert_eq. repeat split.
  - repeat split.
Qed.

(** ** Requests served one after another *)

Lemma get_alerts_state email st : snd (get_alerts email st) = st.
Proof.
  unfold get_alerts. destruct email as [e|]; [|reflexivity].
  destruct (Py.truthy e); [|reflexivity]. run.
  now destruct (USERS_DB st !! Py.lower e).
Qed.

Lemma send_family_alert_stores E phones text details st :
  USERS_DB (snd (send_family_alert E phones text details st)) = USERS_DB st /\
  ALERTS_DB (snd (send_family_alert E phones text details st)) = ALERTS_DB st.
Proof.
  destruct phones as [|l]; [now split|].
  destruct (decide (clean_phones l = [])) as [Hc|Hc].
  - now rewrite (proj2 (send_family_alert_err E (Phones l) text details st
                          (proj1 (clean_phones_nil l) Hc))).
  - rewrite (send_family_alert_ok E l text details st Hc). cbn [snd].
    apply adhoc_loop_stores.
Qed.

Lemma dispatched_none E shape st st' :
  FAMILY_LOG_DB st' = FAMILY_LOG_DB st -> api_calls st' = api_calls st ->
  dispatched E shape st st'.
Proof.
  intros Hl Hc. exists "", [], []. split; [constructor|]. split; [constructor|].
  split; [reflexivity|]. split; [exact Hl|]. now destruct (twilio_client E).
Qed.

Lemma test_message_dispatched E email sender message st :
  dispatched E (DeliveryLogEntry (body_of sender message)) st
    (snd (test_message E email sender message st)).
Proof.
  destruct (save_alert_frame E (str_or sender "User") (value_or message (VStr ""))
              (analyze_message message)
              (if Py.truthy (Py.lower (str_or email ""))
               then Some (Py.lower (str_or email "")) else None) st) as [Hlog Hcalls].
  destruct (decide (is_scam (analyze_message message) = Some true)) as [Hs|Hs].
  - destruct (test_message_scam E email sender message st Hs) as [_ ->].
    exists (body_of sender message), (targets E email sender message st).
    eexists. split; [apply clean_phones_shape|].
    split; [apply scam_loop_entries, clean_phones_shape|].
    split; [apply scam_loop_tos|]. split.
    + rewrite for_each_log by (intros; apply scam_send_log).
      unfold alerted. now rewrite Hlog.
    + rewrite (loop_calls E _ (body_of sender message))
        by (intros; apply scam_send_calls).
      unfold alerted. now rewrite Hcalls.
  - destruct (test_message_other E email sender message st Hs) as [_ ->].
    apply dispatched_none; unfold alerted; assumption.
Qed.

Lemma send_family_alert_dispatched E phones text details st :
  dispatched E (AdhocLogEntry text details) st
    (snd (send_family_alert E phones text details st)).
Proof.
  destruct phones as [|l]; [now apply dispatched_none|].
  destruct (decide (clean_phones l = [])) as [Hc|Hc].
  - rewrite (proj2 (send_family_alert_err E (Phones l) text details st
                      (proj1 (clean_phones_nil l) Hc))).
    now apply dispatched_none.
  - rewrite (send_family_alert_ok E l text details st Hc). cbn [snd].
    exists text, (clean_phones l). eexists. split; [apply clean_phones_shape|].
    split; [apply adhoc_loop_entries, clean_phones_shape|].
    split; [apply adhoc_loop_tos|]. split.
    + apply for_each_log. intros; apply adhoc_send_log.
    + apply (loop_calls E _ text). intros; apply adhoc_send_calls.
Qed.

(** A property of states that holds of [initial] and that every route
    keeps holds after any sequence of requests. *)
Lemma serve_all_invariant E (Inv : state -> Prop) :
  (forall r st, Inv st -> Inv (serve E r st)) ->
  forall rs st, Inv st -> Inv (serve_all E rs st).
Proof.
  intros Hstep rs. unfold serve_all.
  induction rs as [|r rs IH]; intros st Hst; [exact Hst|].
  cbn [fold_left]. apply IH, Hstep, Hst.
Qed.

Lemma key_of_lower email : Py.lower (key_of email) = key_of email.
Proof. apply lower_idem. Qed.

(** The four kinds of request: one that leaves the state alone, one that
    writes a record under a lower-case key and keeps its history, a
    submitted message, an ad-hoc alert. *)
Lemma serve_cases E r st :
  serve E r st = st \/
  (exists k v, Py.truthy k = true /\ Py.lower k = k /\
               history v = history (record_of k st) /\
               serve E r st = set_USERS_DB (insert k v) st) \/
  (exists email sender message, r = POST_test_message email sender message) \/
  (exists phones text details, r = POST_send_family_alert phones text details).
Proof.
  destruct r as [email|email p|email g|email|email sender message|phones text details|];
    cbn [serve].
  - rewrite login_state. destruct (Py.truthy (key_of email)) eqn:Hk; [|now left].
    right. left. exists (key_of email). eexists.
    split; [exact Hk|]. split; [apply key_of_lower|]. split; [|reflexivity]. reflexivity.
  - rewrite save_profile_state. destruct (Py.truthy (key_of email)) eqn:Hk; [|now left].
    right. left. exists (key_of email). eexists.
    split; [exact Hk|]. split; [apply key_of_lower|]. split; [|reflexivity]. reflexivity.
  - rewrite save_family_state. destruct (Py.truthy (key_of email)) eqn:Hk; [|now left].
    right. left. exists (key_of email). eexists.
    split; [exact Hk|]. split; [apply key_of_lower|]. split; [|reflexivity]. reflexivity.
  - left. apply get_alerts_state.
  - right. right. left. eauto.
  - right. right. right. eauto.
  - now left.
Qed.

Lemma history_of_insert k v e st st' :
  USERS_DB st' = <[k := v]> (USERS_DB st) ->
  history_of e st' = if decide (k = e) then history v else history_of e st.
Proof.
  intros H. unfold history_of. rewrite H.
  destruct (decide (k = e)) as [<-|Hne].
  - now rewrite lookup_insert_eq.
  - now rewrite lookup_insert_ne.
Qed.

Lemma history_of_record k st : history (record_of k st) = history_of k st.
Proof. unfold record_of, history_of. now destruct (USERS_DB st !! k). Qed.

(** The histories after a submitted message. *)
Lemma test_message_history E email sender message st e :
  history_of e (snd (test_message E email sender message st)) =
  if Py.truthy (key_of email) && bool_decide (key_of email = e)
  then fst (fst (test_message E email sender message st)) :: history_of e st
  else history_of e st.
Proof.
  pose proof (proj1 (test_message_stores E email sender message st)) as Hu.
  rewrite alerted_users in Hu.
  destruct (Py.truthy (key_of email)); cbn [andb].
  - rewrite (history_of_insert _ _ e st _ Hu). cbn [history].
    rewrite history_of_record.
    destruct (decide (key_of email = e)) as [<-|Hne].
    + now rewrite bool_decide_eq_true_2.
    + now rewrite bool_decide_eq_false_2.
  - unfold history_of. now rewrite Hu.
Qed.

Lemma test_message_ledger E email sender message st :
  ALERTS_DB (snd (test_message E email sender message st)) =
  fst (fst (test_message E email sender message st)) :: ALERTS_DB st.
Proof.
  rewrite (proj2 (test_message_stores E email sender message st)).
  rewrite test_message_alert. unfold alerted. apply save_alert_ledger.
Qed.

Lemma grown_refl st : grown st st.
Proof.
  split; [now exists []|]. split; [now exists []|]. split; [now exists []|].
  split; [intros k; now exists []|]. intros k Hk. exact Hk.
Qed.

Lemma grown_trans st1 st2 st3 : grown st1 st2 -> grown st2 st3 -> grown st1 st3.
Proof.
  intros (Ha & Hl & Hc & Hh & Hu) (Ha' & Hl' & Hc' & Hh' & Hu').
  assert (Happ : forall (A : Type) (x y z : list A),
            (exists new, y = new ++ x) -> (exists new, z = new ++ y) ->
            exists new, z = new ++ x).
  { intros A x y z [n ->] [n' ->]. exists (n' ++ n). now rewrite <- app_assoc. }
  split; [eapply Happ; eassumption|]. split; [eapply Happ; eassumption|].
  split; [eapply Happ; eassumption|]. split.
  - intros k. eapply Happ; [apply Hh|apply Hh'].
  - intros k Hk. apply Hu', Hu, Hk.
Qed.

Lemma serve_grown E r st : grown st (serve E r st).
Proof.
  destruct (serve_cases E r st) as [->|[(k & v & Hk & _ & Hv & ->)|
    [(email & sender & message & ->)|(phones & text & details & ->)]]].
  - apply grown_refl.
  - split; [now exists []|]. split; [now exists []|]. split; [now exists []|]. split.
    + intros e. exists [].
      rewrite (history_of_insert k v e st (set_USERS_DB (insert k v) st) eq_refl).
      rewrite Hv, history_of_record.
      now destruct (decide (k = e)) as [<-|].
    + intros e He. unfold set_USERS_DB. cbn.
      destruct (decide (k = e)) as [<-|Hne].
      * rewrite lookup_insert_eq. eauto.
      * now rewrite lookup_insert_ne.
  - cbn [serve].
    destruct (test_message_dispatched E email sender message st)
      as (text & l & logs & _ & _ & _ & Hlog & Hcalls).
    split; [eexists [_]; apply test_message_ledger|].
    split; [eexists; exact Hlog|]. split.
    { rewrite Hcalls. destruct (twilio_client E); [eauto|now exists []]. }
    split.
    + intros e. rewrite test_message_history.
      destruct (Py.truthy (key_of email) && bool_decide (key_of email = e)).
      * now eexists [_].
      * now exists [].
    + intros e [u He].
      rewrite (proj1 (test_message_stores E email sender message st)), alerted_users.
      destruct (Py.truthy (key_of email)); [|eauto].
      destruct (decide (key_of email = e)) as [<-|Hne].
      * rewrite lookup_insert_eq. eauto.
      * rewrite lookup_insert_ne by exact Hne. eauto.
  - cbn [serve].
    destruct (send_family_alert_dispatched E phones text details st)
      as (text' & l & logs & _ & _ & _ & Hlog & Hcalls).
    destruct (send_family_alert_stores E phones text details st) as [Hu Ha].
    split; [exists []; exact Ha|]. split; [eexists; exact Hlog|]. split.
    { rewrite Hcalls. destruct (twilio_client E); [eauto|now exists []]. }
    split.
    + intros e. exists []. unfold history_of. now rewrite Hu.
    + intros e. now rewrite Hu.
Qed.

(** X14. Nothing stored is ever lost.  After any sequence of requests,
    served from any state, the alert ledger, the delivery log, the list
    of gateway requests and every user's history are what they were with
    new items in front, and every email that had a record still has
    one. *)
Theorem stores_only_grow (E : env) (rs : list request) (st : state) :
  grown st (serve_all E rs st).
Proof.
  apply (serve_all_invariant E (grown st)); [|apply grown_refl].
  intros r st' H. apply (grown_trans _ st'); [exact H|apply serve_grown].
Qed.

Lemma alert_of_test_message E email sender message st e :
  alert_of e (fst (fst (test_message E email sender message st))) =
  Py.truthy (key_of email) && bool_decide (key_of email = e).
Proof.
  rewrite test_message_alert. unfold alert_of.
  rewrite (proj2 (proj2 (proj2 (proj2 (save_alert_fields E _ _ _ _ st))))).
  unfold owner_of. destruct (Py.truthy (key_of email)); [|reflexivity].
  cbn [of_str andb]. destruct (String.eqb_spec (key_of email) e) as [Heq|Hne].
  - now rewrite bool_decide_eq_true_2.
  - now rewrite bool_decide_eq_false_2.
Qed.

(** X15. A user's history mirrors the ledger.  After any sequence of
    requests served from the initial state, the history stored for an
    email is the sub-list of [ALERTS_DB], in the same order, of the alerts
    that carry this email as [user_email]; for an email without a record
    there are none.  So GET /alerts with an email lists what GET /alerts
    without one lists, filtered by the lower-cased email. *)
Theorem histories_mirror_the_ledger (E : env) (rs : list request) :
  (forall e,
     history_of e (serve_all E rs initial) =
     List.filter (alert_of e) (ALERTS_DB (serve_all E rs initial))) /\
  (forall query, query <> "" ->
     fst (get_alerts (Some query) (serve_all E rs initial)) =
     List.filter (alert_of (Py.lower query))
                 (fst (get_alerts None (serve_all E rs initial)))).
Proof.
  assert (H : forall e,
            history_of e (serve_all E rs initial) =
            List.filter (alert_of e) (ALERTS_DB (serve_all E rs initial))).
  2: { split; [exact H|]. intros query Hq.
       rewrite get_alerts_user by (destruct query; [congruence|reflexivity]).
       rewrite get_alerts_global. apply H. }
  apply (serve_all_invariant E
           (fun st => forall e, history_of e st = List.filter (alert_of e) (ALERTS_DB st)));
    [|reflexivity].
  intros r st Inv e.
  destruct (serve_cases E r st) as [->|[(k & v & Hk & _ & Hv & ->)|
    [(email & sender & message & ->)|(phones & text & details & ->)]]].
  - apply Inv.
  - rewrite (history_of_insert k v e st (set_USERS_DB (insert k v) st) eq_refl).
    rewrite Hv, history_of_record. cbn [set_USERS_DB ALERTS_DB].
    destruct (decide (k = e)) as [<-|]; apply Inv.
  - cbn [serve]. rewrite test_message_history, test_message_ledger.
    cbn [List.filter]. rewrite alert_of_test_message.
    destruct (Py.truthy (key_of email) && bool_decide (key_of email = e));
      now rewrite Inv.
  - cbn [serve].
    destruct (send_family_alert_stores E phones text details st) as [Hu Ha].
    rewrite Ha, <- Inv. unfold history_of. now rewrite Hu.
Qed.

(** X16. Every record is stored where it is looked up.  After any
    sequence of requests served from the initial state, each key of
    [USERS_DB] is a non-empty lower-case string, so a login with that
    key returns its record and GET /alerts with it lists its history. *)
Theorem records_are_stored_under_lower_case_keys
    (E : env) (rs : list request) (k : string) (u : user) :
  USERS_DB (serve_all E rs initial) !! k = Some u ->
  k <> "" /\ Py.lower k = k /\
  login (Some k) (serve_all E rs initial) = (Ok200 u, serve_all E rs initial) /\
  fst (get_alerts (Some k) (serve_all E rs initial)) = history u.
Proof.
  intros Hu.
  assert (Hkey : Py.truthy k = true /\ Py.lower k = k).
  { revert k u Hu.
    apply (serve_all_invariant E
             (fun st => forall k u, USERS_DB st !! k = Some u ->
                                    Py.truthy k = true /\ Py.lower k = k));
      [|intros k u Hu; change (USERS_DB initial) with (∅ : gmap string user) in Hu;
        now rewrite lookup_empty in Hu].
    intros r st Inv k u.
    destruct (serve_cases E r st) as [->|[(k' & v & Hk & Hl & _ & ->)|
      [(email & sender & message & ->)|(phones & text & details & ->)]]].
    - apply Inv.
    - unfold set_USERS_DB. cbn. destruct (decide (k' = k)) as [<-|Hne].
      + now split.
      + rewrite lookup_insert_ne by exact Hne. apply Inv.
    - cbn [serve].
      rewrite (proj1 (test_message_stores E email sender message st)), alerted_users.
      destruct (Py.truthy (key_of email)) eqn:Hk; [|apply Inv].
      destruct (decide (key_of email = k)) as [<-|Hne].
      + intros _. split; [exact Hk|apply key_of_lower].
      + rewrite lookup_insert_ne by exact Hne. apply Inv.
    - cbn [serve].
      rewrite (proj1 (send_family_alert_stores E phones text details st)). apply Inv. }
  destruct Hkey as [Ht Hl].
  assert (Hk : key_of (Some k) = k).
  { unfold key_of. destruct k; [discriminate|]. exact Hl. }
  split; [now destruct k|]. split; [exact Hl|]. split.
  - rewrite (surjective_pairing (login _ _)), login_answer, login_state, Hk, Ht.
    unfold record_of at 1. rewrite Hu. f_equal. apply insert_record_state. eauto.
  - rewrite get_alerts_user by exact Ht. unfold history_of. now rewrite Hl, Hu.
Qed.

Lemma records_are_stored_under_lower_case_keys_witness :
  exists u,
    USERS_DB (serve_all env_live
                [POST_login (Some "Asha@Example.com");
                 POST_test_message (Some "ASHA@example.com") None (VStr "hello")]
                initial) !! "asha@example.com" = Some u /\
    fst (get_alerts (Some "asha@example.com")
           (serve_all env_live
              [POST_login (Some "Asha@Example.com");
               POST_test_message (Some "ASHA@example.com") None (VStr "hello")]
              initial)) = history u.
Proof.
  eexists. split; [vm_compute; reflexivity|].
  apply (records_are_stored_under_lower_case_keys env_live
           [POST_login (Some "Asha@Example.com");
            POST_test_message (Some "ASHA@example.com") None (VStr "hello")]
           "asha@example.com").
  vm_compute. reflexivity.
Defined.

(** X17. The delivery log mirrors what was asked of the gateway.  After
    any sequence of requests served from the initial state, every entry
    of [FAMILY_LOG_DB] has one of the two shapes the dispatch routes
    write, with a [to] that [clean_and_e164] returned (a plus sign
    followed by characters [str.isdigit] accepts) and an ok/sid or
    ok/error result;
    with a client, the entries and the requests made to the gateway name
    the same numbers in the same order, one request per entry; without a
    client no request was ever made. *)
Theorem delivery_log_mirrors_the_requests (E : env) (rs : list request) :
  Forall logged_entry (FAMILY_LOG_DB (serve_all E rs initial)) /\
  match twilio_client E with
  | Some _ =>
      map (dict_get "to") (FAMILY_LOG_DB (serve_all E rs initial)) =
      map (fun m => VStr (sms_to m)) (api_calls (serve_all E rs initial))
  | None => api_calls (serve_all E rs initial) = []
  end.
Proof.
  apply (serve_all_invariant E
           (fun st => Forall logged_entry (FAMILY_LOG_DB st) /\
                      match twilio_client E with
                      | Some _ => map (dict_get "to") (FAMILY_LOG_DB st) =
                                  map (fun m => VStr (sms_to m)) (api_calls st)
                      | None => api_calls st = []
                      end));
    [|split; [constructor|now destruct (twilio_client E)]].
  clear rs. intros r st [Hshape Hreq].
  assert (Hstep : forall shape st',
            (forall entry, shape entry -> logged_entry entry) ->
            dispatched E shape st st' ->
            Forall logged_entry (FAMILY_LOG_DB st') /\
            match twilio_client E with
            | Some _ => map (dict_get "to") (FAMILY_LOG_DB st') =
                        map (fun m => VStr (sms_to m)) (api_calls st')
            | None => api_calls st' = []
            end).
  { intros shape st' Hsh (text & l & logs & _ & Hlogs & Hto & -> & ->). split.
    - apply Forall_app. split; [|exact Hshape].
      apply Forall_rev. apply (Forall_impl _ _ _ Hlogs). exact Hsh.
    - destruct (twilio_client E); [|exact Hreq].
      rewrite !map_app, !map_rev, Hto, Hreq, map_map. reflexivity. }
  destruct (serve_cases E r st) as [->|[(k & v & _ & _ & _ & ->)|
    [(email & sender & message & ->)|(phones & text & details & ->)]]].
  - now split.
  - now split.
  - apply (Hstep (DeliveryLogEntry (body_of sender message))).
    + intros entry H. left. eauto.
    + apply test_message_dispatched.
  - apply (Hstep (AdhocLogEntry text details)).
    + intros entry H. right. eauto.
    + apply send_family_alert_dispatched.
Qed.

(** ** One send, and the sends of a scam dispatch *)

(** X18. With both credentials set, [send_sms_twilio_single] makes exactly
    one request to the API, for the given number and text from the
    configured sender number, and never raises: an answer becomes ok/sid,
    an exception becomes ok/error with the exception's text.  The three
    stores are not touched. *)
Theorem send_sms_twilio_single_captures_failures
    (E : env) (to text : string) (st : state) :
  TWILIO_SID E <> "" -> TWILIO_AUTH E <> "" ->
  let r := send_sms_twilio_single E to text st in
  api_calls (snd r) = sms_for E text to :: api_calls st /\
  USERS_DB (snd r) = USERS_DB st /\
  ALERTS_DB (snd r) = ALERTS_DB st /\
  FAMILY_LOG_DB (snd r) = FAMILY_LOG_DB st /\
  fst r =
    match twilio_api E (length (api_calls st)) (sms_for E text to) with
    | inl sid => [("ok", VBool true); ("sid", VStr sid)]
    | inr err => [("ok", VBool false); ("error", VStr err)]
    end.
Proof.
  intros Hsid Hauth. cbv zeta.
  rewrite send_sms_answer, send_sms_state. unfold gateway_answer, twilio_client.
  destruct (TWILIO_SID E) as [|c1 s1]; [congruence|].
  destruct (TWILIO_AUTH E) as [|c2 s2]; [congruence|].
  cbn [Py.truthy andb]. repeat split.
Qed.

Lemma send_sms_twilio_single_captures_failures_witness :
  (TWILIO_SID env_live <> "" /\ TWILIO_AUTH env_live <> "") /\
  fst (send_sms_twilio_single env_live "+919876543210" "Call me" initial) =
    [("ok", VBool true); ("sid", VStr "SM01")].
Proof.
  split; [split; discriminate|].
  apply (send_sms_twilio_single_captures_failures env_live "+919876543210"
           "Call me" initial); discriminate.
Defined.

(** X19. A gateway failure never stops a scam dispatch.  On a scam
    verdict, whatever the gateway answers, [test_message] reports one log
    entry per number it writes to, in the order of the sends; the entries
    are pushed on the delivery log; and entry [i] holds that number, the
    text of the alert and the gateway's answer to that send, a failure
    included. *)
Theorem test_message_logs_every_send
    (E : env) (email sender : option string) (message : value) (st : state) :
  is_scam (analyze_message message) = Some true ->
  let r := test_message E email sender message st in
  let sent := targets E email sender message st in
  exists logs,
    snd (fst r) = Some logs /\
    length logs = length sent /\
    FAMILY_LOG_DB (snd r) = rev logs ++ FAMILY_LOG_DB st /\
    forall i e, sent !! i = Some e ->
      exists entry,
        logs !! i = Some entry /\
        dict_get "to" entry = VStr e /\
        dict_get "body" entry = VStr (body_of sender message) /\
        dict_get "result" entry =
          VDict (gateway_answer E (length (api_calls st) + i) e
                   (body_of sender message)).
Proof.
  intros Hs. cbv zeta.
  destruct (test_message_scam E email sender message st Hs) as [-> ->].
  destruct (save_alert_frame E (str_or sender "User") (value_or message (VStr ""))
              (analyze_message message)
              (if Py.truthy (Py.lower (str_or email ""))
               then Some (Py.lower (str_or email "")) else None) st) as [Hlog Hcalls].
  eexists. split; [reflexivity|]. split; [apply for_each_length|]. split.
  - rewrite for_each_log by (intros; apply scam_send_log).
    unfold alerted. now rewrite Hlog.
  - intros i e Hi. eexists. split; [apply for_each_lookup; exact Hi|].
    rewrite scam_send_entry. split; [reflexivity|]. split; [reflexivity|].
    cbn [dict_get String.eqb Ascii.eqb Bool.eqb]. f_equal.
    rewrite (loop_answer_index E _ (body_of sender message) _ _ i e);
      [|intros; apply scam_send_calls|exact Hi].
    unfold alerted. now rewrite Hcalls.
Qed.

Lemma test_message_logs_every_send_witness :
  is_scam (analyze_message (VStr "URGENT: call the bank")) = Some true /\
  exists logs,
    snd (fst (test_message env_unset (Some "asha@example.com") None
                (VStr "URGENT: call the bank") with_family)) = Some logs /\
    length logs = 2.
Proof.
  split; [vm_compute; reflexivity|].
  destruct (test_message_logs_every_send env_unset (Some "asha@example.com") None
              (VStr "URGENT: call the bank") with_family)
    as (logs & Hlogs & Hlen & _); [vm_compute; reflexivity|].
  exists logs. split; [exact Hlogs|]. rewrite Hlen. vm_compute. reflexivity.
Defined.
